(** * okx_snipe_bot: the price-triggered buy loop of [snipe_bot.py] and the
    entry point of [main.py], embedded as state-passing functions.

    Layout of the development:
    - [PyFloat]: Python floats (IEEE 754 binary64) with the operators,
      the ["{:.4f}"] formatting and the [float()] conversion the bot uses;
    - exceptions, the result type and the state/exception monad [M];
    - the exchange client as a [world] of scripted replies and a [state]
      holding call counters and the trace of external calls;
    - [SnipeBot]: the methods defined inside [class SnipeBot];
    - the module-level functions [run] and [place_order];
    - attribute lookup and the entry point [main];
    - the properties. *)

From Stdlib Require Import ZArith List String Ascii Bool Lia.
From Stdlib Require Import SpecFloat DecimalString.
Import ListNotations.

Set Implicit Arguments.

(* ================================================================== *)
(** * Python floats *)
(* ================================================================== *)

Module PyFloat.

Local Open Scope string_scope.
Local Open Scope Z_scope.

(** A Python float is an IEEE 754 binary64 value: a [spec_float] that
    is canonical for [prec] and [emax] ([valid_binary]). The operations
    below return canonical values; the properties are proved for every
    [spec_float]. *)
Definition float := spec_float.

Definition prec : Z := 53.
Definition emax : Z := 1024.

Definition pos_zero : float := S754_zero false.

(** The nearest binary64 value (ties to even) to the rational [n / d],
    carrying the sign [neg]: this is what [float()] makes of a decimal
    text and what the reader makes of a literal. *)
Definition of_ratio (neg : bool) (n : N) (d : positive) : float :=
  match n with
  | N0 => S754_zero neg
  | Npos p =>
      let '(q, e, l) := SFdiv_core_binary prec emax (Zpos p) 0 (Zpos d) 0 in
      binary_round_aux prec emax neg q e l
  end.

(** [x / y] on two floats once [y] is known to be non-zero. *)
Definition div (x y : float) : float := SFdiv prec emax x y.
Definition mul (x y : float) : float := SFmul prec emax x y.

(** [x == y], [x < y], [x <= y]: false whenever a NaN is involved. *)
Definition eqb (x y : float) : bool := SFeqb x y.
Definition ltb (x y : float) : bool := SFltb x y.
Definition leb (x y : float) : bool := SFleb x y.

(** [bool(x)]: a float is falsy exactly when it equals zero. *)
Definition truthy (x : float) : bool := negb (eqb x pos_zero).

(** [max(a, b)] of the built-in: [b] replaces [a] only when [b > a]. *)
Definition max (a b : float) : float := if ltb a b then b else a.

(** Quotient [n / d] with the remainder rounded half to even. *)
Definition div_half_even (n d : Z) : Z :=
  let q := n / d in
  let r := n mod d in
  match 2 * r ?= d with
  | Lt => q
  | Gt => q + 1
  | Eq => if Z.even q then q else q + 1
  end.

(** The text produced by ["{:.4f}".format(x)]: ["nan"], ["inf"],
    ["-inf"], or a sign followed by the decimal expansion of
    [ten_thousandths / 10000] with exactly four digits after the point.
    The conversion is correctly rounded, half to even, from the exact
    binary value of [x]. *)
Inductive fixed4 :=
| F4_nan
| F4_inf (neg : bool)
| F4_num (neg : bool) (ten_thousandths : N).

Definition format_4f (x : float) : fixed4 :=
  match x with
  | S754_nan => F4_nan
  | S754_infinity s => F4_inf s
  | S754_zero s => F4_num s 0
  | S754_finite s m e =>
      F4_num s (Z.to_N
        match e with
        | Zneg p => div_half_even (Zpos m * 10000) (2 ^ Zpos p)
        | _ => Zpos m * 10000 * 2 ^ e
        end)
  end.

(** The characters of such a text. *)
Definition digit (n : N) : string :=
  NilZero.string_of_uint (N.to_uint (n mod 10)).

Definition fixed4_text (t : fixed4) : string :=
  match t with
  | F4_nan => "nan"
  | F4_inf s => if s then "-inf" else "inf"
  | F4_num s k =>
      String.append (if s then "-" else EmptyString)
        (String.append (NilZero.string_of_uint (N.to_uint (k / 10000)))
           (String.append "."
              (String.append (digit (k / 1000))
                 (String.append (digit (k / 100))
                    (String.append (digit (k / 10)) (digit k))))))
  end%N.

(** [float(text)] on such a text: the nearest binary64 value. *)
Definition of_fixed4 (t : fixed4) : float :=
  match t with
  | F4_nan => S754_nan
  | F4_inf s => S754_infinity s
  | F4_num s k => of_ratio s k 10000
  end.

(** Literals of the source. *)
Definition f0_01 : float := Eval vm_compute in of_ratio false 1 100.
Definition f0_0001 : float := Eval vm_compute in of_ratio false 1 10000.
Definition f1_01 : float := Eval vm_compute in of_ratio false 101 100.
Definition f0 : float := pos_zero.

(** An integer literal read as a float. *)
Definition of_N (n : N) : float := of_ratio false n 1.

End PyFloat.

Import PyFloat.

Local Open Scope string_scope.

(* ================================================================== *)
(** * Exceptions, results and the execution monad *)
(* ================================================================== *)

(** The two kinds of exception the source distinguishes in its handlers:
    instances of [Exception], caught by [except Exception], and
    [KeyboardInterrupt], which derives from [BaseException] only and is
    caught by [except KeyboardInterrupt] alone. *)
Inductive exn :=
| Exception (class_name : string)
| KeyboardInterrupt.

Inductive result (A : Type) :=
| Ret (a : A)
| Raise (e : exn).

Arguments Ret {A} a.
Arguments Raise {A} e.

Definition TypeError : exn := Exception "TypeError".
Definition KeyError : exn := Exception "KeyError".
Definition IndexError : exn := Exception "IndexError".
Definition AttributeError : exn := Exception "AttributeError".
Definition ZeroDivisionError : exn := Exception "ZeroDivisionError".
Definition BadSymbol : exn := Exception "BadSymbol".

(* ------------------------------------------------------------------ *)
(** ** Data returned by the exchange client *)

(** A key of a dictionary received from the exchange client: missing,
    bound to [None], or bound to a value. *)
Inductive entry (A : Type) :=
| Absent
| Null
| Val (a : A).

Arguments Absent {A}.
Arguments Null {A}.
Arguments Val {A} a.

(** [d.get(key, default)]: the result is [None] when the key is bound to
    [None]. *)
Definition dict_get {A : Type} (e : entry A) (default : A) : option A :=
  match e with
  | Absent => Some default
  | Null => None
  | Val a => Some a
  end.

(** [d[key]]: [KeyError] when the key is missing. *)
Definition getitem {A : Type} (e : entry A) : result (option A) :=
  match e with
  | Absent => Raise KeyError
  | Null => Ret None
  | Val a => Ret (Some a)
  end.

(** [market['limits'][...]['min']]. *)
Record range := { range_min : entry float }.
Record limits := { limits_amount : entry range; limits_cost : entry range }.
Record market := { market_limits : entry limits }.

(** The default [{}] of the [.get] chains. *)
Definition empty_range : range := {| range_min := Absent |}.
Definition empty_limits : limits :=
  {| limits_amount := Absent; limits_cost := Absent |}.

(** [market.get('limits', {}).get(which, {}).get('min', default)]; calling
    [.get] on [None] raises [AttributeError]. *)
Definition limits_min (m : market) (which : limits -> entry range)
    (default : float) : result (option float) :=
  match dict_get (market_limits m) empty_limits with
  | None => Raise AttributeError
  | Some l =>
      match dict_get (which l) empty_range with
      | None => Raise AttributeError
      | Some r => Ret (dict_get (range_min r) default)
      end
  end.

Record ticker := { ticker_last : entry float }.
Record account := { account_free : entry float }.

(** The balance dictionary: currency code to account. *)
Definition balance := list (string * account).

(** A created order, as the dictionary the client returns; like every
    dictionary it is truthy when it is not empty. *)
Definition order := list (string * string).

Fixpoint assoc {A : Type} (k : string) (d : list (string * A)) : option A :=
  match d with
  | [] => None
  | (k', v) :: d' => if String.eqb k k' then Some v else assoc k d'
  end.

(* ------------------------------------------------------------------ *)
(** ** The exchange client and the clock as scripted replies *)

Inductive sleep_outcome := Slept | Interrupted.

(** Everything outside the program. [markets] is [exchange.markets]; the
    n-th call of each client method receives the n-th reply of its script,
    which either returns a value or raises; [time.sleep] either elapses or
    is cut short by the interrupt signal. [setup_logger_reply] is what
    configuring the logging module does: opening the log file of the day
    may raise. *)
Record world := {
  markets : list (string * market);
  setup_logger_reply : result unit;
  connect_reply : result unit;
  load_markets_reply : nat -> result unit;
  fetch_ticker_reply : nat -> result ticker;
  fetch_balance_reply : nat -> result balance;
  create_market_buy_order_reply : nat -> result order;
  create_limit_buy_order_reply : nat -> result order;
  sleep_reply : nat -> sleep_outcome
}.

Inductive log_level := INFO | ERROR.

(** The external calls the program makes, in the order it makes them. The
    amount of an order is passed as [str(amount)]; the event keeps the
    float that is printed. A log message is kept by its fixed text. *)
Inductive event :=
| EvSetupLogger
| EvConnect
| EvLoadMarkets
| EvFetchTicker (symbol : option string)
| EvFetchBalance
| EvCreateMarketBuyOrder (symbol : option string) (amount : float)
| EvCreateLimitBuyOrder (symbol : option string) (amount : float)
    (price : option float)
| EvSleep (seconds : nat)
| EvLog (level : log_level) (message : string)
| EvPrint (message : string).

(** How many calls of each kind were made so far, and the trace. *)
Record state := {
  n_load_markets : nat;
  n_fetch_ticker : nat;
  n_fetch_balance : nat;
  n_market_buy : nat;
  n_limit_buy : nat;
  n_sleep : nat;
  trace : list event
}.

Definition initial_state : state :=
  {| n_load_markets := 0; n_fetch_ticker := 0; n_fetch_balance := 0;
     n_market_buy := 0; n_limit_buy := 0; n_sleep := 0; trace := [] |}.

Definition record (e : event) (s : state) : state :=
  {| n_load_markets := n_load_markets s;
     n_fetch_ticker := n_fetch_ticker s;
     n_fetch_balance := n_fetch_balance s;
     n_market_buy := n_market_buy s;
     n_limit_buy := n_limit_buy s;
     n_sleep := n_sleep s;
     trace := trace s ++ [e] |}.

(* ------------------------------------------------------------------ *)
(** ** The monad *)

Definition M (A : Type) : Type := state -> result A * state.

Definition ret {A : Type} (a : A) : M A := fun s => (Ret a, s).

Definition raise {A : Type} (e : exn) : M A := fun s => (Raise e, s).

Definition lift {A : Type} (r : result A) : M A := fun s => (r, s).

Definition bind {A B : Type} (m : M A) (k : A -> M B) : M B :=
  fun s =>
    match m s with
    | (Ret a, s') => k a s'
    | (Raise e, s') => (Raise e, s')
    end.

Notation "x <- c1 ;; c2" := (bind c1 (fun x => c2))
  (at level 61, c1 at next level, right associativity).
Notation "c1 ;; c2" := (bind c1 (fun _ => c2))
  (at level 61, right associativity).

(** [try: body except Exception as e: handler]. A [KeyboardInterrupt]
    passes through. *)
Definition try_except {A : Type} (body : M A) (handler : string -> M A)
    : M A :=
  fun s =>
    match body s with
    | (Raise (Exception c), s') => handler c s'
    | r => r
    end.

Definition emit (e : event) : M unit := fun s => (Ret tt, record e s).

Definition logger_info (message : string) : M unit :=
  emit (EvLog INFO message).
Definition logger_error (message : string) : M unit :=
  emit (EvLog ERROR message).

(* ------------------------------------------------------------------ *)
(** ** Calls to the exchange client and to the clock *)

Section Client.

Variable w : world.

(** [logging.basicConfig(..., handlers=[StreamHandler(),
    FileHandler(...)])] followed by [logging.getLogger(__name__)]. *)
Definition setup_logger : M unit :=
  fun s => (setup_logger_reply w, record EvSetupLogger s).

(** [ccxt.okx({...})] followed by [exchange.set_sandbox_mode(True)]. *)
Definition connect : M unit :=
  fun s => (connect_reply w, record EvConnect s).

(** [exchange.load_markets()]. *)
Definition load_markets : M unit :=
  fun s =>
    (load_markets_reply w (n_load_markets s),
     {| n_load_markets := S (n_load_markets s);
        n_fetch_ticker := n_fetch_ticker s;
        n_fetch_balance := n_fetch_balance s;
        n_market_buy := n_market_buy s;
        n_limit_buy := n_limit_buy s;
        n_sleep := n_sleep s;
        trace := trace s ++ [EvLoadMarkets] |}).

(** [exchange.fetch_ticker(symbol)]. *)
Definition fetch_ticker (symbol : option string) : M ticker :=
  fun s =>
    (fetch_ticker_reply w (n_fetch_ticker s),
     {| n_load_markets := n_load_markets s;
        n_fetch_ticker := S (n_fetch_ticker s);
        n_fetch_balance := n_fetch_balance s;
        n_market_buy := n_market_buy s;
        n_limit_buy := n_limit_buy s;
        n_sleep := n_sleep s;
        trace := trace s ++ [EvFetchTicker symbol] |}).

(** [exchange.fetch_balance()]. *)
Definition fetch_balance : M balance :=
  fun s =>
    (fetch_balance_reply w (n_fetch_balance s),
     {| n_load_markets := n_load_markets s;
        n_fetch_ticker := n_fetch_ticker s;
        n_fetch_balance := S (n_fetch_balance s);
        n_market_buy := n_market_buy s;
        n_limit_buy := n_limit_buy s;
        n_sleep := n_sleep s;
        trace := trace s ++ [EvFetchBalance] |}).

(** [exchange.create_market_buy_order(symbol=..., amount=str(amount),
    params={'tdMode': 'cash', 'tgtCcy': 'quote_ccy'})]. *)
Definition create_market_buy_order (symbol : option string)
    (amount : float) : M order :=
  fun s =>
    (create_market_buy_order_reply w (n_market_buy s),
     {| n_load_markets := n_load_markets s;
        n_fetch_ticker := n_fetch_ticker s;
        n_fetch_balance := n_fetch_balance s;
        n_market_buy := S (n_market_buy s);
        n_limit_buy := n_limit_buy s;
        n_sleep := n_sleep s;
        trace := trace s ++ [EvCreateMarketBuyOrder symbol amount] |}).

(** [exchange.create_limit_buy_order(symbol=..., amount=str(amount),
    price=..., params={...})]. *)
Definition create_limit_buy_order (symbol : option string)
    (amount : float) (price : option float) : M order :=
  fun s =>
    (create_limit_buy_order_reply w (n_limit_buy s),
     {| n_load_markets := n_load_markets s;
        n_fetch_ticker := n_fetch_ticker s;
        n_fetch_balance := n_fetch_balance s;
        n_market_buy := n_market_buy s;
        n_limit_buy := S (n_limit_buy s);
        n_sleep := n_sleep s;
        trace := trace s ++ [EvCreateLimitBuyOrder symbol amount price] |}).

(** [time.sleep(seconds)]. *)
Definition time_sleep (seconds : nat) : M unit :=
  fun s =>
    (match sleep_reply w (n_sleep s) with
     | Slept => Ret tt
     | Interrupted => Raise KeyboardInterrupt
     end,
     {| n_load_markets := n_load_markets s;
        n_fetch_ticker := n_fetch_ticker s;
        n_fetch_balance := n_fetch_balance s;
        n_market_buy := n_market_buy s;
        n_limit_buy := n_limit_buy s;
        n_sleep := S (n_sleep s);
        trace := trace s ++ [EvSleep seconds] |}).

(** [exchange.market(symbol)], a lookup in loaded data, not a request:
    for a key of [exchange.markets] it is the entry of that key. The
    client is not part of the source; for any other argument the model
    has it raise [BadSymbol], which is what the client does for a string
    it does not know. The client also accepts the exchange's own
    identifiers of the markets: the model leaves them out, and what is
    proved of [exchange_market] is to be read for symbols that are keys
    of [exchange.markets], the only ones [run] lets through. *)
Definition exchange_market (symbol : option string) : result market :=
  match symbol with
  | Some sym =>
      match assoc sym (markets w) with
      | Some m => Ret m
      | None => Raise BadSymbol
      end
  | None => Raise BadSymbol
  end.

(** [symbol in exchange.markets]. *)
Definition in_markets (symbol : option string) : bool :=
  match symbol with
  | Some sym =>
      match assoc sym (markets w) with
      | Some _ => true
      | None => false
      end
  | None => false
  end.

End Client.

(* ------------------------------------------------------------------ *)
(** ** Operators on values that may be [None] *)

(** [a / b]: [TypeError] on [None], [ZeroDivisionError] on a zero
    divisor of either sign. *)
Definition py_truediv (a b : option float) : result float :=
  match a, b with
  | Some x, Some y =>
      if eqb y pos_zero then Raise ZeroDivisionError else Ret (div x y)
  | _, _ => Raise TypeError
  end.

Definition py_mul (a b : option float) : result float :=
  match a, b with
  | Some x, Some y => Ret (mul x y)
  | _, _ => Raise TypeError
  end.

Definition py_lt (a b : option float) : result bool :=
  match a, b with
  | Some x, Some y => Ret (ltb x y)
  | _, _ => Raise TypeError
  end.

Definition py_le (a b : option float) : result bool :=
  match a, b with
  | Some x, Some y => Ret (leb x y)
  | _, _ => Raise TypeError
  end.

(** [a >= b]. *)
Definition py_ge (a b : option float) : result bool :=
  match a, b with
  | Some x, Some y => Ret (leb y x)
  | _, _ => Raise TypeError
  end.

(** [max(a, b)] with [a] a float. *)
Definition py_max (a : float) (b : option float) : result float :=
  match b with
  | Some y => Ret (max a y)
  | None => Raise TypeError
  end.

(** Truth values: [None], [0.0], [-0.0] and the empty string are falsy. *)
Definition truthy_float (a : option float) : bool :=
  match a with
  | Some x => truthy x
  | None => false
  end.

Definition truthy_str (a : option string) : bool :=
  match a with
  | Some EmptyString => false
  | Some _ => true
  | None => false
  end.

Definition truthy_order (o : option order) : bool :=
  match o with
  | Some (_ :: _) => true
  | _ => false
  end.

(** [s.split(sep)] for a one-character separator. *)
Fixpoint split (sep : ascii) (s : string) : list string :=
  match s with
  | EmptyString => [EmptyString]
  | String c s' =>
      if Ascii.eqb c sep then EmptyString :: split sep s'
      else
        match split sep s' with
        | [] => [String c EmptyString]
        | p :: ps => String c p :: ps
        end
  end.

(** [symbol.split('/')[1]]. *)
Definition quote_currency_of (symbol : option string) : result string :=
  match symbol with
  | None => Raise AttributeError
  | Some sym =>
      match nth_error (split "/"%char sym) 1 with
      | Some q => Ret q
      | None => Raise IndexError
      end
  end.

(** [balance[currency]]. *)
Definition balance_item (b : balance) (currency : string) : result account :=
  match assoc currency b with
  | Some a => Ret a
  | None => Raise KeyError
  end.

(* ================================================================== *)
(** * The bot object *)
(* ================================================================== *)

(** The trading parameters of a [SnipeBot] instance, with the types of
    their annotations. [logger] and [exchange], its two other attributes,
    are the trace and the [world]. *)
Record bot := {
  target_symbol : option string;
  quote_amount : option float;
  max_price : option float;
  order_type : string;
  limit_price : option float
}.

Definition set_max_price (self : bot) (v : float) : bot :=
  {| target_symbol := target_symbol self;
     quote_amount := quote_amount self;
     max_price := Some v;
     order_type := order_type self;
     limit_price := limit_price self |}.

(* ================================================================== *)
(** * The methods of [class SnipeBot] *)
(* ================================================================== *)

Module SnipeBot.
Section Methods.

Variable w : world.

(** [_initialize_exchange]: connect and load the markets; an error is
    logged and raised again. *)
Definition _initialize_exchange : M unit :=
  try_except
    (connect w ;;
     logger_info "正在加载市场数据..." ;;
     load_markets w ;;
     logger_info "市场数据加载完成" ;;
     ret tt)
    (fun e =>
       logger_error "初始化交易所失败" ;;
       raise (Exception e)).

(** [_setup_logger]: the logging module is configured with a console
    handler and a file handler; nothing catches what that raises. *)
Definition _setup_logger : M unit :=
  setup_logger w.

(** [__init__]: the logger, the exchange connection, then the default
    parameters. *)
Definition __init__ : M bot :=
  _setup_logger ;;
  _initialize_exchange ;;
  ret {| target_symbol := None;
         quote_amount := None;
         max_price := None;
         order_type := "market";
         limit_price := None |}.

(** [calculate_buy_amount(price)]: the [try] block, then the method
    with its handler. *)
Definition calculate_buy_amount_try (self : bot) (price : option float)
    : M (option float) :=
  amount <- lift (py_truediv (quote_amount self) price) ;;
  market <- lift (exchange_market w (target_symbol self)) ;;
  min_amount <- lift (limits_min market limits_amount f0_01) ;;
  amount <- lift (py_max amount min_amount) ;;
  let formatted_amount := format_4f amount in
  logger_info "计算入数量" ;;
  ret (Some (of_fixed4 formatted_amount)).

Definition calculate_buy_amount (self : bot) (price : option float)
    : M (option float) :=
  try_except (calculate_buy_amount_try self price)
    (fun e =>
       logger_error "计算买入数量失败" ;;
       ret None).

(** [get_current_price()]. *)
Definition get_current_price_try (self : bot) : M (option float) :=
  ticker <- fetch_ticker w (target_symbol self) ;;
  lift (getitem (ticker_last ticker)).

Definition get_current_price (self : bot) : M (option float) :=
  try_except (get_current_price_try self)
    (fun e =>
       logger_error "获取价格失败" ;;
       ret None).

(** [check_balance()]. *)
Definition check_balance_try (self : bot) : M bool :=
  balance <- fetch_balance w ;;
  quote_currency <- lift (quote_currency_of (target_symbol self)) ;;
  account <- lift (balance_item balance quote_currency) ;;
  available <- lift (getitem (account_free account)) ;;
  logger_info "可用余额" ;;
  lift (py_ge available (quote_amount self)).

Definition check_balance (self : bot) : M bool :=
  try_except (check_balance_try self)
    (fun e =>
       logger_error "检查余额失败" ;;
       ret false).

(** [place_order()], the method of the class (lines 124 to 202). *)
Definition place_order_try (self : bot) : M (option order) :=
    (enough <- check_balance self ;;
     if negb enough then
       logger_error "余额不足" ;;
       ret None
     else if String.eqb (order_type self) "market" then
       current_price <- get_current_price self ;;
       match current_price with
       | None =>
           logger_error "无法获取当前价格" ;;
           ret None
       | Some _ =>
           amount <- calculate_buy_amount self current_price ;;
           match amount with
           | None =>
               logger_error "计算买入数量失败" ;;
               ret None
           | Some a =>
               market <- lift (exchange_market w (target_symbol self)) ;;
               min_amount <-
                 lift (limits_min market limits_amount f0_0001) ;;
               logger_info "当前价格, 计算出的买入数量, 最小交易量" ;;
               too_small <- lift (py_lt amount min_amount) ;;
               if too_small then
                 logger_error "计算出的买入数量小于最小交易量" ;;
                 ret None
               else
                 logger_info "准备下单" ;;
                 order <-
                   create_market_buy_order w (target_symbol self) a ;;
                 logger_info "市价买入成功" ;;
                 logger_info "订单详情" ;;
                 ret (Some order)
           end
       end
     else
       amount <- calculate_buy_amount self (limit_price self) ;;
       match amount with
       | None =>
           logger_error "计算买入数量失败" ;;
           ret None
       | Some a =>
           market <- lift (exchange_market w (target_symbol self)) ;;
           min_amount <- lift (limits_min market limits_amount f0_0001) ;;
           logger_info "计算出的买入数量, 最小交易量" ;;
           too_small <- lift (py_lt amount min_amount) ;;
           if too_small then
             logger_error "计算出的买入数量小于最小交易量" ;;
             ret None
           else
             logger_info "准备下单" ;;
             order <-
               create_limit_buy_order w (target_symbol self) a
                 (limit_price self) ;;
             logger_info "限价买入成功" ;;
             logger_info "订单详情" ;;
             ret (Some order)
       end).

Definition place_order (self : bot) : M (option order) :=
  try_except (place_order_try self)
    (fun e =>
       logger_error "下单失败" ;;
       ret None).

End Methods.
End SnipeBot.

(* ================================================================== *)
(** * The functions defined at module level *)
(* ================================================================== *)

(** Why [run] stops before polling. *)
Inductive rejection :=
| MissingSymbolOrAmount
| MissingLimitPrice
| MissingMaxPrice
| UnknownSymbol
| BelowMinCost.

(** The three [break] statements of the polling loop. *)
Inductive loop_exit :=
| PriceFetchGaveUp
| OrderPlaced
| ManuallyInterrupted.

Inductive loop_ctl :=
| Continue (retry_count : nat)
| Break (why : loop_exit).

(** How a call of [run] ends; [StillPolling] when the iterations granted
    to the loop are used up. *)
Inductive run_end :=
| Rejected (why : rejection)
| InitError (class_name : string)
| Exited (why : loop_exit)
| StillPolling.

Definition max_retries : nat := 3.

Section ModuleLevel.

Variable w : world.

(** [run] and the second [place_order] take [self] as an ordinary
    argument and reach the methods through it: [self.get_current_price],
    [self.place_order], [self.check_balance] and
    [self.calculate_buy_amount] are whatever the object provides. *)
Variable self_get_current_price : bot -> M (option float).
Variable self_place_order : bot -> M (option order).
Variable self_check_balance : bot -> M bool.
Variable self_calculate_buy_amount : bot -> option float -> M (option float).

(** Steps 1 to 6 of [run]: reload the markets, check the parameters,
    log the summary. The bot returned carries the assignment to
    [self.max_price]. *)
Definition validate (self : bot) : M (bot * option rejection) :=
  logger_info "正在重新加载市场数据..." ;;
  load_markets w ;;
  logger_info "市场数据加载完成" ;;
  if negb (truthy_str (target_symbol self)
           && truthy_float (quote_amount self)) then
    logger_error "请设置交易对和买入金额" ;;
    ret (self, Some MissingSymbolOrAmount)
  else if String.eqb (order_type self) "limit"
          && negb (truthy_float (limit_price self)) then
    logger_error "使用限价单时必须设置限价" ;;
    ret (self, Some MissingLimitPrice)
  else
    r <- (if negb (truthy_float (max_price self)) then
            if String.eqb (order_type self) "limit" then
              v <- lift (py_mul (limit_price self) (Some f1_01)) ;;
              logger_info "未设置最高价格，自动设置为限价的1.01倍" ;;
              ret (set_max_price self v, None)
            else
              logger_error "使用市价单时必须设置最高价格" ;;
              ret (self, Some MissingMaxPrice)
          else ret (self, None)) ;;
    match r with
    | (self, Some why) => ret (self, Some why)
    | (self, None) =>
        if negb (in_markets w (target_symbol self)) then
          logger_error "交易对不存在" ;;
          ret (self, Some UnknownSymbol)
        else
          market <- lift (exchange_market w (target_symbol self)) ;;
          min_cost <- lift (limits_min market limits_cost f0) ;;
          min_amount <- lift (limits_min market limits_amount f0_0001) ;;
          below <- (if truthy_float min_cost
                    then lift (py_lt (quote_amount self) min_cost)
                    else ret false) ;;
          if below then
            logger_error "买入金额小于最小交易金额" ;;
            ret (self, Some BelowMinCost)
          else
            logger_info "--------------------------------------------------" ;;
            logger_info "开始监控 (测试网环境)" ;;
            logger_info "订单类型" ;;
            logger_info "买入金额" ;;
            logger_info "最小交易金额" ;;
            logger_info "最小交易数量" ;;
            (if String.eqb (order_type self) "limit"
             then logger_info "限价价格" else ret tt) ;;
            logger_info "最高价格" ;;
            logger_info "--------------------------------------------------" ;;
            ret (self, None)
    end.

(** The [try] block of one pass of [while True]. Every statement that
    can raise an [Exception] comes before the assignments to
    [retry_count] on its path, so the handlers find the count the pass
    started with. *)
Definition loop_body (self : bot) (retry_count : nat) : M loop_ctl :=
  current_price <- self_get_current_price self ;;
  match current_price with
  | None =>
      let retry_count := S retry_count in
      if Nat.leb max_retries retry_count then
        logger_error "连续获取价格失败，程序退出" ;;
        ret (Break PriceFetchGaveUp)
      else
        logger_info "获取价格失败，次重试" ;;
        time_sleep w 1 ;;
        ret (Continue retry_count)
  | Some _ =>
      logger_info "当前价格" ;;
      within <- lift (py_le current_price (max_price self)) ;;
      placed <- (if within then
                   order <- self_place_order self ;;
                   if truthy_order order then
                     logger_info "交易完成，退出程序" ;;
                     logger_info "--------------------------------------------------" ;;
                     ret true
                   else
                     logger_error "下单失败，继续监控..." ;;
                     ret false
                 else
                   logger_info "当前价格超过最高限价，继续监控..." ;;
                   ret false) ;;
      if placed then ret (Break OrderPlaced)
      else
        time_sleep w 1 ;;
        ret (Continue 0)
  end.

(** One pass of [while True] with its two handlers. An interrupt that
    arrives during the sleep of the second handler leaves the loop as
    an exception. *)
Definition loop_iteration (self : bot) (retry_count : nat) : M loop_ctl :=
  fun s =>
    match loop_body self retry_count s with
    | (Raise KeyboardInterrupt, s') =>
        (logger_info "程序被手动中断" ;;
         logger_info "--------------------------------------------------" ;;
         ret (Break ManuallyInterrupted)) s'
    | (Raise (Exception e), s') =>
        (logger_error "运行错误" ;;
         time_sleep w 1 ;;
         ret (Continue retry_count)) s'
    | r => r
    end.

(** [while True], for at most [fuel] passes. *)
Fixpoint polling_loop (fuel : nat) (self : bot) (retry_count : nat)
    : M (option loop_exit) :=
  match fuel with
  | O => ret None
  | S fuel' =>
      c <- loop_iteration self retry_count ;;
      match c with
      | Continue retry_count' => polling_loop fuel' self retry_count'
      | Break why => ret (Some why)
      end
  end.

(** [run(self)], lines 203 to 301. *)
Definition run (fuel : nat) (self : bot) : M run_end :=
  try_except
    (v <- validate self ;;
     match v with
     | (_, Some why) => ret (Rejected why)
     | (self, None) =>
         e <- polling_loop fuel self 0 ;;
         match e with
         | Some why => ret (Exited why)
         | None => ret StillPolling
         end
     end)
    (fun e =>
       logger_error "程序初始化错误" ;;
       logger_info "--------------------------------------------------" ;;
       ret (InitError e)).

(** [place_order(self)], the function defined after [run] (lines 303
    to 381). *)
Definition place_order_try (self : bot) : M (option order) :=
    (enough <- self_check_balance self ;;
     if negb enough then
       logger_error "余额不足" ;;
       ret None
     else if String.eqb (order_type self) "market" then
       current_price <- self_get_current_price self ;;
       match current_price with
       | None =>
           logger_error "无法获取当前价格" ;;
           ret None
       | Some _ =>
           amount <- self_calculate_buy_amount self current_price ;;
           match amount with
           | None =>
               logger_error "计算买入数量失败" ;;
               ret None
           | Some a =>
               market <- lift (exchange_market w (target_symbol self)) ;;
               min_amount <-
                 lift (limits_min market limits_amount f0_0001) ;;
               logger_info "当前价格, 计算出的买入数量, 最小交易量" ;;
               too_small <- lift (py_lt amount min_amount) ;;
               if too_small then
                 logger_error "计算出的买入数量小于最小交易量" ;;
                 ret None
               else
                 logger_info "准备下单" ;;
                 order <-
                   create_market_buy_order w (target_symbol self) a ;;
                 logger_info "市价买入成功" ;;
                 logger_info "订单详情" ;;
                 ret (Some order)
           end
       end
     else
       amount <- self_calculate_buy_amount self (limit_price self) ;;
       match amount with
       | None =>
           logger_error "计算买入数量失败" ;;
           ret None
       | Some a =>
           market <- lift (exchange_market w (target_symbol self)) ;;
           min_amount <- lift (limits_min market limits_amount f0_0001) ;;
           logger_info "计算出的买入数量, 最小交易量" ;;
           too_small <- lift (py_lt amount min_amount) ;;
           if too_small then
             logger_error "计算出的买入数量小于最小交易量" ;;
             ret None
           else
             logger_info "准备下单" ;;
             order <-
               create_limit_buy_order w (target_symbol self) a
                 (limit_price self) ;;
             logger_info "限价买入成功" ;;
             logger_info "订单详情" ;;
             ret (Some order)
       end).

Definition place_order (self : bot) : M (option order) :=
  try_except (place_order_try self)
    (fun e =>
       logger_error "下单失败" ;;
       ret None).

End ModuleLevel.

(** [run] and [place_order] as called on a [SnipeBot] instance: the
    attributes resolve to the methods of the class. *)
Definition run_bot (w : world) (fuel : nat) (self : bot) : M run_end :=
  run w (SnipeBot.get_current_price w) (SnipeBot.place_order w) fuel self.

Definition place_order_bot (w : world) (self : bot) : M (option order) :=
  place_order w (SnipeBot.get_current_price w) (SnipeBot.check_balance w)
    (SnipeBot.calculate_buy_amount w) self.

(* ================================================================== *)
(** * Attribute lookup and the entry point *)
(* ================================================================== *)

(** A top-level statement of a Python file that binds a name: a class
    with the names its body defines, or a function. *)
Inductive definition :=
| ClassDef (name : string) (body : list string)
| FunctionDef (name : string).

(** The definitions of [snipe_bot.py] in source order. The body of
    [class SnipeBot] ends with [place_order] at line 202; [run] (line 203)
    and the second [place_order] (line 303) start at the first column. *)
Definition snipe_bot_py : list definition :=
  [ ClassDef "SnipeBot"
      [ "__init__"; "_initialize_exchange"; "_setup_logger";
        "calculate_buy_amount"; "get_current_price"; "check_balance";
        "place_order" ];
    FunctionDef "run";
    FunctionDef "place_order" ].

Fixpoint class_body (file : list definition) (cls : string) : list string :=
  match file with
  | [] => []
  | ClassDef name body :: rest =>
      if String.eqb name cls then body else class_body rest cls
  | FunctionDef _ :: rest => class_body rest cls
  end.

Fixpoint module_functions (file : list definition) : list string :=
  match file with
  | [] => []
  | ClassDef _ _ :: rest => module_functions rest
  | FunctionDef name :: rest => name :: module_functions rest
  end.

Fixpoint mem (x : string) (l : list string) : bool :=
  match l with
  | [] => false
  | y :: l' => String.eqb x y || mem x l'
  end.

(** The attributes [__init__] stores on the instance; they are the same
    for every instance, whatever their values. *)
Definition instance_dict (self : bot) : list string :=
  [ "logger"; "exchange"; "target_symbol"; "quote_amount"; "max_price";
    "order_type"; "limit_price" ].

Inductive attribute :=
| InstanceAttribute
| BoundMethod
| NoAttribute.

(** [getattr(self, name)] for an instance of class [cls] of [file]: the
    instance dictionary, then the class body; otherwise the lookup raises
    [AttributeError]. *)
Definition getattr (file : list definition) (cls : string) (self : bot)
    (name : string) : attribute :=
  if mem name (instance_dict self) then InstanceAttribute
  else if mem name (class_body file cls) then BoundMethod
  else NoAttribute.

(** [main.py] run against a file [file] holding the class: build the
    bot, set the market-order parameters, call [bot.run()]; any
    [Exception] is printed. *)
Definition main_with (file : list definition) (w : world) (fuel : nat)
    : M unit :=
  try_except
    (bot <- SnipeBot.__init__ w ;;
     let bot :=
       {| target_symbol := Some "ETH/USDT";
          quote_amount := Some (of_N 100);
          max_price := Some (of_N 3000);
          order_type := "market";
          limit_price := limit_price bot |} in
     match getattr file "SnipeBot" bot "run" with
     | BoundMethod => run_bot w fuel bot ;; ret tt
     | InstanceAttribute => raise TypeError
     | NoAttribute => raise AttributeError
     end)
    (fun e =>
       emit (EvPrint "程序出错") ;;
       ret tt).

Definition main : world -> nat -> M unit := main_with snipe_bot_py.

(** The file as it would read with [run] indented into the class. *)
Definition snipe_bot_py_with_run_method : list definition :=
  [ ClassDef "SnipeBot"
      [ "__init__"; "_initialize_exchange"; "_setup_logger";
        "calculate_buy_amount"; "get_current_price"; "check_balance";
        "place_order"; "run"; "place_order" ] ].

(* ================================================================== *)
(** * Sample worlds *)
(* ================================================================== *)

Definition eth_market (min_amount min_cost : entry float) : market :=
  {| market_limits :=
       Val {| limits_amount := Val {| range_min := min_amount |};
              limits_cost := Val {| range_min := min_cost |} |} |}.

Definition usdt (free : N) : balance :=
  [ ("USDT", {| account_free := Val (of_N free) |}) ].

Definition filled : order := [ ("id", "1") ].

(** A quiet exchange: ETH/USDT trades at [price], the account holds
    [free] USDT, every order is accepted, nobody interrupts. *)
Definition quiet_world (price free : N) : world :=
  {| markets := [ ("ETH/USDT", eth_market (Val f0_0001) (Val (of_N 1))) ];
     setup_logger_reply := Ret tt;
     connect_reply := Ret tt;
     load_markets_reply := fun _ => Ret tt;
     fetch_ticker_reply := fun _ => Ret {| ticker_last := Val (of_N price) |};
     fetch_balance_reply := fun _ => Ret (usdt free);
     create_market_buy_order_reply := fun _ => Ret filled;
     create_limit_buy_order_reply := fun _ => Ret filled;
     sleep_reply := fun _ => Slept |}.

Definition market_bot : bot :=
  {| target_symbol := Some "ETH/USDT";
     quote_amount := Some (of_N 100);
     max_price := Some (of_N 3000);
     order_type := "market";
     limit_price := None |}.

Definition limit_bot : bot :=
  {| target_symbol := Some "ETH/USDT";
     quote_amount := Some (of_N 50);
     max_price := None;
     order_type := "limit";
     limit_price := Some (of_N 2100) |}.


(** The same exchange with other scripts for the price requests, the
    balance requests and the sleeps. *)
Definition scripted_world (price free : N)
    (tickers : nat -> result ticker) (balances : nat -> result balance)
    (sleeps : nat -> sleep_outcome) : world :=
  {| markets := markets (quiet_world price free);
     setup_logger_reply := Ret tt;
     connect_reply := Ret tt;
     load_markets_reply := fun _ => Ret tt;
     fetch_ticker_reply := tickers;
     fetch_balance_reply := balances;
     create_market_buy_order_reply := fun _ => Ret filled;
     create_limit_buy_order_reply := fun _ => Ret filled;
     sleep_reply := sleeps |}.

(** Ctrl-C arrives while the price request is in flight. *)
Definition interrupted_world : world :=
  scripted_world 2950 1000 (fun _ => Raise KeyboardInterrupt)
    (fun _ => Raise KeyboardInterrupt) (fun _ => Slept).

(** The network is down: every request raises [NetworkError]. *)
Definition offline_world : world :=
  scripted_world 2950 1000 (fun _ => Raise (Exception "NetworkError"))
    (fun _ => Raise (Exception "NetworkError")) (fun _ => Slept).

(** A market whose minimum amount, 0.00001, is finer than four
    decimal places. *)
Definition fine_market_world : world :=
  {| markets :=
       [ ("ETH/USDT",
          eth_market (Val (of_ratio false 1 100000)) (Val (of_N 1))) ];
     setup_logger_reply := Ret tt;
     connect_reply := Ret tt;
     load_markets_reply := fun _ => Ret tt;
     fetch_ticker_reply := fun _ => Ret {| ticker_last := Val (of_N 2950) |};
     fetch_balance_reply := fun _ => Ret (usdt 1000);
     create_market_buy_order_reply := fun _ => Ret filled;
     create_limit_buy_order_reply := fun _ => Ret filled;
     sleep_reply := fun _ => Slept |}.

(** A market whose minimum cost is zero, and a bot set up with a
    negative budget. *)
Definition free_market_world : world :=
  {| markets := [ ("ETH/USDT", eth_market (Val f0_0001) (Val pos_zero)) ];
     setup_logger_reply := Ret tt;
     connect_reply := Ret tt;
     load_markets_reply := fun _ => Ret tt;
     fetch_ticker_reply := fun _ => Ret {| ticker_last := Val (of_N 2950) |};
     fetch_balance_reply := fun _ => Ret (usdt 1000);
     create_market_buy_order_reply := fun _ => Ret filled;
     create_limit_buy_order_reply := fun _ => Ret filled;
     sleep_reply := fun _ => Slept |}.

Definition negative_budget_bot : bot :=
  {| target_symbol := Some "ETH/USDT";
     quote_amount := Some (of_ratio true 5 1);
     max_price := Some (of_N 3000);
     order_type := "market";
     limit_price := None |}.

(** The price request fails, fails, succeeds with 3950 (above the limit
    of the sample bot), then fails for good. *)
Definition flaky_world : world :=
  scripted_world 3950 1000
    (fun n =>
       match n with
       | 2 => Ret {| ticker_last := Val (of_N 3950) |}
       | _ => Raise (Exception "NetworkError")
       end)
    (fun _ => Ret (usdt 1000)) (fun _ => Slept).

(** A bot whose [max_price] was never set, as [run] would refuse it. *)
Definition unlimited_bot : bot :=
  {| target_symbol := Some "ETH/USDT";
     quote_amount := Some (of_N 100);
     max_price := None;
     order_type := "market";
     limit_price := None |}.

(* ================================================================== *)
(** * Observations on traces *)
(* ================================================================== *)

Definition is_poll (e : event) : bool :=
  match e with
  | EvFetchTicker _ => true
  | _ => false
  end.

Definition is_order_creation (e : event) : bool :=
  match e with
  | EvCreateMarketBuyOrder _ _ => true
  | EvCreateLimitBuyOrder _ _ _ => true
  | _ => false
  end.

(** The price requests and the order-creation calls of a trace. *)
Definition polls (t : list event) : list event := filter is_poll t.
Definition order_calls (t : list event) : list event :=
  filter is_order_creation t.

(** A result that is not an instance of [Exception] raised to the
    caller. *)
Definition no_Exception {A : Type} (r : result A) : Prop :=
  match r with
  | Raise (Exception _) => False
  | _ => True
  end.

(* ------------------------------------------------------------------ *)
(** ** The ends of a pass of the loop, spelled out *)

(** The two log lines of [except KeyboardInterrupt], then [break]. *)
Definition interrupted_pass (s : state) : result loop_ctl * state :=
  (Ret (Break ManuallyInterrupted),
   record (EvLog INFO "--------------------------------------------------")
     (record (EvLog INFO "程序被手动中断") s)).

(** [time.sleep(1)] at the end of the [try] block, then the next pass
    with [retry_count]; an interrupt during the sleep ends the loop. *)
Definition sleep_then_continue (w : world) (retry_count : nat) (s : state)
    : result loop_ctl * state :=
  match sleep_reply w (n_sleep s) with
  | Slept => (Ret (Continue retry_count), snd (time_sleep w 1 s))
  | Interrupted => interrupted_pass (snd (time_sleep w 1 s))
  end.

(** [except Exception]: log, sleep one second, next pass with the count
    unchanged; an interrupt during that sleep leaves the loop as an
    exception. *)
Definition logged_pass (w : world) (retry_count : nat) (s : state)
    : result loop_ctl * state :=
  match sleep_reply w (n_sleep s) with
  | Slept =>
      (Ret (Continue retry_count),
       snd (time_sleep w 1 (record (EvLog ERROR "运行错误") s)))
  | Interrupted =>
      (Raise KeyboardInterrupt,
       snd (time_sleep w 1 (record (EvLog ERROR "运行错误") s)))
  end.

(** The rest of a pass once [self.place_order()] has come back. *)
Definition finish_pass (w : world) (retry_count : nat)
    (r : result (option order) * state) : result loop_ctl * state :=
  match r with
  | (Ret o, s) =>
      if truthy_order o then
        (Ret (Break OrderPlaced),
         record (EvLog INFO "--------------------------------------------------")
           (record (EvLog INFO "交易完成，退出程序") s))
      else
        sleep_then_continue w 0
          (record (EvLog ERROR "下单失败，继续监控...") s)
  | (Raise KeyboardInterrupt, s) => interrupted_pass s
  | (Raise (Exception _), s) => logged_pass w retry_count s
  end.

(* ------------------------------------------------------------------ *)
(** ** Histories of the loop of a bot *)

Definition bot_pass (w : world) (self : bot) (retry_count : nat)
    : M loop_ctl :=
  loop_iteration w (SnipeBot.get_current_price w) (SnipeBot.place_order w)
    self retry_count.

(** The price request made in state [s] comes back as [None]. *)
Definition fetch_failed (w : world) (self : bot) (s : state) : bool :=
  match fst (SnipeBot.get_current_price w self s) with
  | Ret None => true
  | _ => false
  end.

(** [passes w self s0 h retry_count s]: entered in state [s0], the loop
    has made [length h] passes without leaving and is about to start the
    next one in state [s] with [retry_count]; [h] tells, latest pass
    first, which passes had their price request fail. *)
Inductive passes (w : world) (self : bot) (s0 : state)
    : list bool -> nat -> state -> Prop :=
| passes_none : passes w self s0 [] 0 s0
| passes_more :
    forall (h : list bool) (retry_count retry_count' : nat)
           (s s' : state),
      passes w self s0 h retry_count s ->
      bot_pass w self retry_count s = (Ret (Continue retry_count'), s') ->
      passes w self s0 (fetch_failed w self s :: h) retry_count' s'.

(** How many of the latest passes failed in a row. *)
Fixpoint failed_in_a_row (h : list bool) : nat :=
  match h with
  | true :: h' => S (failed_in_a_row h')
  | _ => 0
  end.

(** The loop of [run] as it runs on a [SnipeBot] instance. *)
Definition bot_loop (w : world) (fuel : nat) (self : bot)
    (retry_count : nat) : M (option loop_exit) :=
  polling_loop w (SnipeBot.get_current_price w) (SnipeBot.place_order w)
    fuel self retry_count.

(** [loop_is_at w self s0 k retry_count s]: entered in state [s0] with
    the count at zero and granted [k + n] passes, the loop does what the
    loop started in state [s] with [retry_count] does when granted [n],
    for every [n]. After [k] passes it has not ended ([n = 0] gives
    [Ret None] in state [s]) and goes on from [s] with [retry_count]. *)
Definition loop_is_at (w : world) (self : bot) (s0 : state) (k : nat)
    (retry_count : nat) (s : state) : Prop :=
  forall n : nat,
    bot_loop w (k + n) self 0 s0 = bot_loop w n self retry_count s.

(** How [run] ends, from how its loop ends: the result of the loop is
    the result of [run], and an [Exception] that leaves the loop lands in
    the outer handler of [run]. *)
Definition run_ends (r : result (option loop_exit) * state)
    : result run_end * state :=
  match r with
  | (Ret (Some why), s) => (Ret (Exited why), s)
  | (Ret None, s) => (Ret StillPolling, s)
  | (Raise (Exception c), s) =>
      (Ret (InitError c),
       record (EvLog INFO "--------------------------------------------------")
         (record (EvLog ERROR "程序初始化错误") s))
  | (Raise KeyboardInterrupt, s) => (Raise KeyboardInterrupt, s)
  end.

(** [run] called on a bot ends before the first price request. *)
Definition stops_before_polling (w : world) (fuel : nat) (self : bot)
    (s : state) : Prop :=
  n_fetch_ticker (snd (run_bot w fuel self s)) = n_fetch_ticker s /\
  polls (trace (snd (run_bot w fuel self s))) = polls (trace s) /\
  match fst (run_bot w fuel self s) with
  | Ret (Exited _) | Ret StillPolling => False
  | _ => True
  end.

(* ------------------------------------------------------------------ *)
(** ** More sample worlds *)

(** The price is 2950 when the loop asks, 5000 a moment later when
    [place_order] asks again. *)
Definition slipping_world : world :=
  scripted_world 2950 1000
    (fun n =>
       match n with
       | 0 => Ret {| ticker_last := Val (of_N 2950) |}
       | _ => Ret {| ticker_last := Val (of_N 5000) |}
       end)
    (fun _ => Ret (usdt 1000)) (fun _ => Slept).

(** A bot whose order type is misspelt. *)
Definition misspelt_bot : bot :=
  {| target_symbol := Some "ETH/USDT";
     quote_amount := Some (of_N 100);
     max_price := Some (of_N 3000);
     order_type := "Market";
     limit_price := None |}.

(** The exchange cannot be reached when the bot is built. *)
Definition unreachable_world : world :=
  {| markets := [];
     setup_logger_reply := Ret tt;
     connect_reply := Ret tt;
     load_markets_reply := fun _ => Raise (Exception "NetworkError");
     fetch_ticker_reply := fun _ => Raise (Exception "NetworkError");
     fetch_balance_reply := fun _ => Raise (Exception "NetworkError");
     create_market_buy_order_reply := fun _ => Raise (Exception "NetworkError");
     create_limit_buy_order_reply := fun _ => Raise (Exception "NetworkError");
     sleep_reply := fun _ => Slept |}.

(** A market that binds its minimum amount to [None]: the key is
    there, the value is not a number. *)
Definition no_minimum_world : world :=
  {| markets := [ ("ETH/USDT", eth_market Null (Val (of_N 1))) ];
     setup_logger_reply := Ret tt;
     connect_reply := Ret tt;
     load_markets_reply := fun _ => Ret tt;
     fetch_ticker_reply := fun _ => Ret {| ticker_last := Val (of_N 2950) |};
     fetch_balance_reply := fun _ => Ret (usdt 1000);
     create_market_buy_order_reply := fun _ => Ret filled;
     create_limit_buy_order_reply := fun _ => Ret filled;
     sleep_reply := fun _ => Slept |}.

(** The exchange answers the order with an empty dictionary, and the
    price requests fail from the third on. *)
Definition unanswered_world : world :=
  {| markets := markets (quiet_world 2950 1000);
     setup_logger_reply := Ret tt;
     connect_reply := Ret tt;
     load_markets_reply := fun _ => Ret tt;
     fetch_ticker_reply :=
       fun n =>
         match n with
         | 0 | 1 => Ret {| ticker_last := Val (of_N 2950) |}
         | _ => Raise (Exception "NetworkError")
         end;
     fetch_balance_reply := fun _ => Ret (usdt 1000);
     create_market_buy_order_reply := fun _ => Ret [];
     create_limit_buy_order_reply := fun _ => Ret [];
     sleep_reply := fun _ => Slept |}.

(** The requests a state has seen, taken together. *)
Definition n_orders (s : state) : nat := n_market_buy s + n_limit_buy s.

(** What one pass may add to the counters. *)
Definition one_pass (s s' : state) : Prop :=
  S (n_fetch_ticker s) <= n_fetch_ticker s' /\
  n_fetch_ticker s' <= S (S (n_fetch_ticker s)) /\
  n_fetch_balance s <= n_fetch_balance s' /\
  n_fetch_balance s' <= S (n_fetch_balance s) /\
  n_orders s <= n_orders s' /\
  n_orders s' <= S (n_orders s) /\
  n_sleep s <= n_sleep s' /\
  n_sleep s' <= S (n_sleep s).

(* ================================================================== *)
(** * Properties *)
(* ================================================================== *)

Unset Implicit Arguments.

Ltac unfold_monad :=
  unfold bind, ret, raise, lift, try_except, emit, logger_info,
    logger_error in *.

(** ** Floats *)

(** The literals of the source and of the entry point, as their bits:
    0.01, 0.0001, 1.01, 100 and 3000; they are canonical binary64
    values. *)
Example literals :
  f0_01 = S754_finite false 5764607523034235 (-59) /\
  f0_0001 = S754_finite false 7378697629483821 (-66) /\
  f1_01 = S754_finite false 4548635623644201 (-52) /\
  of_N 100 = S754_finite false 7036874417766400 (-46) /\
  of_N 3000 = S754_finite false 6597069766656000 (-41) /\
  forallb (valid_binary prec emax)
    [f0_01; f0_0001; f1_01; of_N 100; of_N 3000] = true.
Proof. vm_compute. repeat split. Qed.

(** 100 / 3000 prints as 0.0333, and 0.00005, 0.00015 and -0.00001 as
    0.0001, 0.0001 and -0.0000: the rounding starts from the binary
    value. *)
Example four_decimals :
  fixed4_text (format_4f (div (of_N 100) (of_N 3000))) = "0.0333" /\
  fixed4_text (format_4f (of_ratio false 5 100000)) = "0.0001" /\
  fixed4_text (format_4f (of_ratio false 15 100000)) = "0.0001" /\
  fixed4_text (format_4f (of_ratio true 1 100000)) = "-0.0000" /\
  fixed4_text (format_4f (of_N 2121)) = "2121.0000" /\
  of_fixed4 (format_4f (div (of_N 100) (of_N 3000)))
  = S754_finite false 4799035762926001 (-57) /\
  mul (of_N 2100) f1_01 = of_N 2121.
Proof. vm_compute. repeat split. Qed.

(** The quote currency of a symbol is what follows the first slash. *)
Example quote_currencies :
  quote_currency_of (Some "ETH/USDT") = Ret "USDT" /\
  quote_currency_of (Some "A/B/C") = Ret "B" /\
  quote_currency_of (Some "ETHUSDT") = Raise IndexError /\
  quote_currency_of None = Raise AttributeError /\
  split "/" "ETH/" = ["ETH"; EmptyString].
Proof. repeat split. Qed.

(** ** The two definitions of [place_order] *)

(** C10. The method [place_order] of the class and the function
    [place_order] defined after [run] are the same computation: called on
    a bot, in every state and against every script of exchange replies,
    they return the same result and leave the same trace and counters, so
    they issue the same order-creation calls. *)
Theorem place_order_definitions_agree :
  forall (w : world) (self : bot) (s : state),
    place_order_bot w self s = SnipeBot.place_order w self s /\
    fst (place_order_bot w self s) = fst (SnipeBot.place_order w self s) /\
    order_calls (trace (snd (place_order_bot w self s))) =
    order_calls (trace (snd (SnipeBot.place_order w self s))).
Proof.
  intros w self s. repeat split; reflexivity.
Qed.

(** ** The entry point never reaches [run] *)

Lemma init_counters :
  forall (w : world) (s : state),
    n_fetch_ticker (snd (SnipeBot.__init__ w s)) = n_fetch_ticker s /\
    n_sleep (snd (SnipeBot.__init__ w s)) = n_sleep s /\
    polls (trace (snd (SnipeBot.__init__ w s))) = polls (trace s).
Proof.
  intros w s.
  unfold SnipeBot.__init__, SnipeBot._setup_logger,
    SnipeBot._initialize_exchange, setup_logger, connect, load_markets.
  unfold_monad. unfold polls. cbn.
  destruct (setup_logger_reply w) as [[] | [c0 |]]; cbn;
    [ destruct (connect_reply w) as [[] | [c |]]; cbn;
      [ destruct (load_markets_reply w (n_load_markets s)) as [[] | [c |]];
        cbn | | ] | | ];
    repeat rewrite filter_app; cbn; repeat rewrite app_nil_r; auto.
Qed.

(** C1. [run] and the second [place_order] are functions of the module,
    not names of the body of [class SnipeBot]; hence looking [run] up on
    any [SnipeBot] instance finds no attribute and raises
    [AttributeError]. In [main] that exception is an [Exception] and lands
    in the handler that prints it: once the constructor returns, [main]
    prints and returns normally, and in every case it issues no price
    request and no sleep, so the polling loop never runs. *)
Theorem run_is_not_an_attribute_of_the_bot :
  module_functions snipe_bot_py = ["run"; "place_order"] /\
  mem "run" (class_body snipe_bot_py "SnipeBot") = false /\
  (forall self : bot,
     getattr snipe_bot_py "SnipeBot" self "run" = NoAttribute) /\
  (forall (w : world) (fuel : nat) (s : state),
     main w fuel s =
     match SnipeBot.__init__ w s with
     | (Ret _, s1) => (Ret tt, record (EvPrint "程序出错") s1)
     | (Raise (Exception _), s1) =>
         (Ret tt, record (EvPrint "程序出错") s1)
     | (Raise KeyboardInterrupt, s1) => (Raise KeyboardInterrupt, s1)
     end) /\
  (forall (w : world) (fuel : nat) (s : state),
     n_fetch_ticker (snd (main w fuel s)) = n_fetch_ticker s /\
     n_sleep (snd (main w fuel s)) = n_sleep s /\
     polls (trace (snd (main w fuel s))) = polls (trace s)).
Proof.
  assert (Hmain : forall (w : world) (fuel : nat) (s : state),
     main w fuel s =
     match SnipeBot.__init__ w s with
     | (Ret _, s1) => (Ret tt, record (EvPrint "程序出错") s1)
     | (Raise (Exception _), s1) =>
         (Ret tt, record (EvPrint "程序出错") s1)
     | (Raise KeyboardInterrupt, s1) => (Raise KeyboardInterrupt, s1)
     end).
  { intros w fuel s. unfold main, main_with.
    unfold getattr, instance_dict. cbn [mem class_body snipe_bot_py].
    unfold_monad.
    destruct (SnipeBot.__init__ w s) as [[b | [c |]] s1]; reflexivity. }
  split; [reflexivity |].
  split; [reflexivity |].
  split; [intros self; reflexivity |].
  split; [exact Hmain |].
  intros w fuel s. rewrite Hmain.
  destruct (init_counters w s) as (Ht & Hs & Hp).
  destruct (SnipeBot.__init__ w s) as [[b | [c |]] s1]; cbn in *;
    unfold polls in *; repeat rewrite filter_app; cbn;
    repeat rewrite app_nil_r; auto.
Qed.

(** With [run] inside the class the same entry point does poll. *)
Example main_polls_once_run_is_a_method :
  getattr snipe_bot_py_with_run_method "SnipeBot" market_bot "run"
  = BoundMethod /\
  n_fetch_ticker
    (snd (main_with snipe_bot_py_with_run_method (quiet_world 2950 1000) 5
            initial_state)) = 2 /\
  n_market_buy
    (snd (main_with snipe_bot_py_with_run_method (quiet_world 2950 1000) 5
            initial_state)) = 1.
Proof. vm_compute. auto. Qed.

(** ** Exceptions inside the four methods *)

Lemma try_except_no_Exception :
  forall (A : Type) (body : M A) (handler : string -> M A) (s : state),
    (forall c s', no_Exception (fst (handler c s'))) ->
    no_Exception (fst (try_except body handler s)).
Proof.
  intros A body handler s H. unfold try_except.
  destruct (body s) as [[a | [c |]] s']; cbn; auto.
Qed.

Lemma get_current_price_no_Exception :
  forall w self s, no_Exception (fst (SnipeBot.get_current_price w self s)).
Proof.
  intros. apply try_except_no_Exception. intros; exact I.
Qed.

Lemma check_balance_no_Exception :
  forall w self s, no_Exception (fst (SnipeBot.check_balance w self s)).
Proof.
  intros. apply try_except_no_Exception. intros; exact I.
Qed.

Lemma calculate_buy_amount_no_Exception :
  forall w self price s,
    no_Exception (fst (SnipeBot.calculate_buy_amount w self price s)).
Proof.
  intros. apply try_except_no_Exception. intros; exact I.
Qed.

Lemma place_order_no_Exception :
  forall w self s, no_Exception (fst (SnipeBot.place_order w self s)).
Proof.
  intros. apply try_except_no_Exception. intros; exact I.
Qed.

(** C8, as the code has it. In [get_current_price], [check_balance],
    [calculate_buy_amount] and [place_order], every instance of
    [Exception] raised inside the [try] block is caught there: the method
    logs an error and returns [None], [False], [None] and [None]
    respectively, so none of the four ever raises an [Exception] to its
    caller. A [KeyboardInterrupt] is not an [Exception]: it is left to
    pass through unchanged. *)
Theorem Exceptions_are_caught_and_logged :
  forall (w : world) (self : bot) (price : option float) (s : state),
    (no_Exception (fst (SnipeBot.get_current_price w self s)) /\
     no_Exception (fst (SnipeBot.check_balance w self s)) /\
     no_Exception (fst (SnipeBot.calculate_buy_amount w self price s)) /\
     no_Exception (fst (SnipeBot.place_order w self s))) /\
    SnipeBot.get_current_price w self s =
      match SnipeBot.get_current_price_try w self s with
      | (Raise (Exception _), s') =>
          (Ret None, record (EvLog ERROR "获取价格失败") s')
      | r => r
      end /\
    SnipeBot.check_balance w self s =
      match SnipeBot.check_balance_try w self s with
      | (Raise (Exception _), s') =>
          (Ret false, record (EvLog ERROR "检查余额失败") s')
      | r => r
      end /\
    SnipeBot.calculate_buy_amount w self price s =
      match SnipeBot.calculate_buy_amount_try w self price s with
      | (Raise (Exception _), s') =>
          (Ret None, record (EvLog ERROR "计算买入数量失败") s')
      | r => r
      end /\
    SnipeBot.place_order w self s =
      match SnipeBot.place_order_try w self s with
      | (Raise (Exception _), s') =>
          (Ret None, record (EvLog ERROR "下单失败") s')
      | r => r
      end.
Proof.
  intros w self price s.
  split.
  { repeat split.
    - apply get_current_price_no_Exception.
    - apply check_balance_no_Exception.
    - apply calculate_buy_amount_no_Exception.
    - apply place_order_no_Exception. }
  repeat split; reflexivity.
Qed.

(** With the network down each method logs and returns its default. *)
Example offline_defaults :
  fst (SnipeBot.get_current_price offline_world market_bot initial_state)
  = Ret None /\
  fst (SnipeBot.check_balance offline_world market_bot initial_state)
  = Ret false /\
  fst (SnipeBot.place_order offline_world market_bot initial_state)
  = Ret None /\
  trace (snd (SnipeBot.get_current_price offline_world market_bot
                initial_state))
  = [EvFetchTicker (Some "ETH/USDT"); EvLog ERROR "获取价格失败"].
Proof. vm_compute. auto. Qed.

(** C8 as stated fails: a [KeyboardInterrupt] raised while the price or
    the balance request is in flight is raised on by [get_current_price],
    by [check_balance] and by [place_order], and nothing is logged. *)
Lemma KeyboardInterrupt_passes_through :
  SnipeBot.get_current_price interrupted_world market_bot initial_state
  = (Raise KeyboardInterrupt,
     snd (fetch_ticker interrupted_world (Some "ETH/USDT") initial_state))
  /\
  fst (SnipeBot.check_balance interrupted_world market_bot initial_state)
  = Raise KeyboardInterrupt /\
  fst (SnipeBot.place_order interrupted_world market_bot initial_state)
  = Raise KeyboardInterrupt.
Proof. vm_compute. auto. Qed.

(** ** Insufficient balance *)

(** Case analysis on the innermost scrutinee of the goal, repeatedly. *)
Ltac break_match :=
  match goal with
  | |- context [match ?x with _ => _ end] =>
      lazymatch x with
      | context [match _ with _ => _ end] => fail
      | _ => destruct x eqn:?
      end
  end.

Ltac break_matches := repeat (break_match; cbn).

Lemma order_calls_record :
  forall (e : event) (s : state),
    order_calls (trace (record e s)) =
    (order_calls (trace s) ++ (if is_order_creation e then [e] else []))%list.
Proof.
  intros e s. unfold order_calls, record. cbn. rewrite filter_app. cbn.
  destruct (is_order_creation e); reflexivity.
Qed.

(** [check_balance] sends no order. *)
Lemma check_balance_sends_no_order :
  forall (w : world) (self : bot) (s : state),
    n_market_buy (snd (SnipeBot.check_balance w self s)) = n_market_buy s /\
    n_limit_buy (snd (SnipeBot.check_balance w self s)) = n_limit_buy s /\
    order_calls (trace (snd (SnipeBot.check_balance w self s))) =
    order_calls (trace s).
Proof.
  intros w self s.
  unfold SnipeBot.check_balance, SnipeBot.check_balance_try, fetch_balance.
  unfold_monad. unfold order_calls. cbn.
  break_matches; cbn; repeat rewrite filter_app; cbn;
    repeat rewrite app_nil_r; auto.
Qed.

(** Comparison of floats: [x < y] excludes [y <= x]. *)
Lemma compare_cont_flip :
  forall p q : positive,
    Pos.compare_cont Eq q p = CompOpp (Pos.compare_cont Eq p q).
Proof.
  intros p q. rewrite (Pos.compare_cont_antisym p q Eq). reflexivity.
Qed.

Lemma ltb_not_leb :
  forall x y : float, ltb x y = true -> leb y x = false.
Proof.
  intros x y. unfold ltb, leb, SFltb, SFleb.
  destruct x as [sx | sx | | sx mx ex], y as [sy | sy | | sy my ey]; cbn;
    try discriminate; try reflexivity;
    try (destruct sx; discriminate || reflexivity);
    try (destruct sy; discriminate || reflexivity);
    try (destruct sx, sy; discriminate || reflexivity).
  destruct sx, sy; try discriminate; try reflexivity;
    rewrite (Z.compare_antisym ex ey), (compare_cont_flip mx my);
    destruct (ex ?= ey)%Z; cbn; try discriminate; try reflexivity;
    destruct (Pos.compare_cont Eq mx my); cbn; try discriminate;
    reflexivity.
Qed.

(** When the free balance of the quote currency is below [quote_amount],
    [check_balance] returns [False]. *)
Lemma check_balance_short :
  forall (w : world) (self : bot) (s : state) (b : balance)
         (currency : string) (a : account) (free q : float),
    fetch_balance_reply w (n_fetch_balance s) = Ret b ->
    quote_currency_of (target_symbol self) = Ret currency ->
    balance_item b currency = Ret a ->
    account_free a = Val free ->
    quote_amount self = Some q ->
    ltb free q = true ->
    fst (SnipeBot.check_balance w self s) = Ret false.
Proof.
  intros w self s b currency a free q Hb Hc Ha Hf Hq Hlt.
  unfold SnipeBot.check_balance, SnipeBot.check_balance_try, fetch_balance.
  unfold_monad. cbn. rewrite Hb, Hc. cbn. rewrite Ha. cbn. rewrite Hf. cbn.
  rewrite Hq. cbn. rewrite (ltb_not_leb _ _ Hlt). reflexivity.
Qed.

(** C6. Whenever [check_balance] returns [False] -- in particular when
    the free balance of the quote currency is below [quote_amount] --
    [place_order] logs the shortage and returns [None] at once: neither
    [create_market_buy_order] nor [create_limit_buy_order] is called, so
    no order reaches the exchange. *)
Theorem no_order_without_balance :
  forall (w : world) (self : bot) (s : state),
    fst (SnipeBot.check_balance w self s) = Ret false ->
    SnipeBot.place_order w self s =
      (Ret None,
       record (EvLog ERROR "余额不足") (snd (SnipeBot.check_balance w self s)))
    /\ n_market_buy (snd (SnipeBot.place_order w self s)) = n_market_buy s
    /\ n_limit_buy (snd (SnipeBot.place_order w self s)) = n_limit_buy s
    /\ order_calls (trace (snd (SnipeBot.place_order w self s))) =
       order_calls (trace s).
Proof.
  intros w self s H.
  assert (E : SnipeBot.place_order w self s =
      (Ret None,
       record (EvLog ERROR "余额不足")
         (snd (SnipeBot.check_balance w self s)))).
  { unfold SnipeBot.place_order, SnipeBot.place_order_try.
    unfold try_except at 1. unfold bind at 1.
    destruct (SnipeBot.check_balance w self s) as [r s1]. cbn in H.
    subst r. reflexivity. }
  destruct (check_balance_sends_no_order w self s) as (Hm & Hl & Ho).
  rewrite E. cbn [snd]. rewrite order_calls_record. cbn.
  rewrite app_nil_r. auto.
Qed.

(** 10 USDT on the account, 100 needed. *)
Lemma no_order_without_balance_witness :
  ltb (of_N 10) (of_N 100) = true /\
  SnipeBot.place_order (quiet_world 2950 10) market_bot initial_state =
    (Ret None,
     record (EvLog ERROR "余额不足")
       (snd (SnipeBot.check_balance (quiet_world 2950 10) market_bot
               initial_state))) /\
  order_calls
    (trace (snd (SnipeBot.place_order (quiet_world 2950 10) market_bot
                   initial_state))) = [].
Proof.
  split; [reflexivity |].
  destruct (no_order_without_balance (quiet_world 2950 10) market_bot
              initial_state eq_refl) as (E & _ & _ & Ho).
  split; [exact E | exact Ho].
Defined.

(** ** The amount bought *)

Lemma positive_is_not_zero :
  forall x : float, ltb pos_zero x = true -> eqb x pos_zero = false.
Proof.
  intros x. unfold ltb, eqb, SFltb, SFeqb, pos_zero.
  destruct x as [sx | sx | | sx mx ex]; cbn; try discriminate;
    try reflexivity; destruct sx; try discriminate; reflexivity.
Qed.

(** C9. With [quote_amount] set and a market that gives a minimum amount
    (its own, or the default 0.01 when the key is missing),
    [calculate_buy_amount(price)] returns, for every positive price, the
    float read back from [max(quote_amount / price, minimum)] printed
    with four decimals; for a price equal to zero the division raises
    [ZeroDivisionError], which is caught: an error is logged and [None]
    returned. Printing with four decimals can bring the result below the
    quotient and below the minimum. *)
Theorem calculate_buy_amount_value :
  (forall (w : world) (self : bot) (s : state) (price q minimum : float)
          (m : market),
     quote_amount self = Some q ->
     exchange_market w (target_symbol self) = Ret m ->
     limits_min m limits_amount f0_01 = Ret (Some minimum) ->
     ltb pos_zero price = true ->
     SnipeBot.calculate_buy_amount w self (Some price) s =
     (Ret (Some (of_fixed4 (format_4f (max (div q price) minimum)))),
      record (EvLog INFO "计算入数量") s)) /\
  (forall (w : world) (self : bot) (s : state) (price q : float),
     quote_amount self = Some q ->
     eqb price pos_zero = true ->
     SnipeBot.calculate_buy_amount_try w self (Some price) s =
     (Raise ZeroDivisionError, s) /\
     SnipeBot.calculate_buy_amount w self (Some price) s =
     (Ret None, record (EvLog ERROR "计算买入数量失败") s)) /\
  (exists r : float,
     fst (SnipeBot.calculate_buy_amount (quiet_world 2950 1000) market_bot
            (Some (of_N 3000)) initial_state) = Ret (Some r) /\
     ltb r (div (of_N 100) (of_N 3000)) = true) /\
  (exists r : float,
     fst (SnipeBot.calculate_buy_amount fine_market_world market_bot
            (Some (of_N 1000000000)) initial_state) = Ret (Some r) /\
     ltb r (of_ratio false 1 100000) = true).
Proof.
  split; [| split; [| split]].
  - intros w self s price q minimum m Hq Hm Hmin Hpos.
    unfold SnipeBot.calculate_buy_amount, SnipeBot.calculate_buy_amount_try.
    unfold_monad. rewrite Hq. cbn.
    rewrite (positive_is_not_zero _ Hpos). rewrite Hm, Hmin. reflexivity.
  - intros w self s price q Hq Hz.
    unfold SnipeBot.calculate_buy_amount, SnipeBot.calculate_buy_amount_try.
    unfold_monad. rewrite Hq. cbn. rewrite Hz. split; reflexivity.
  - eexists. split; [vm_compute; reflexivity | vm_compute; reflexivity].
  - eexists. split; [vm_compute; reflexivity | vm_compute; reflexivity].
Qed.

(** 100 USDT at 3000: the quotient 0.0333... is printed as 0.0333. *)
Lemma calculate_buy_amount_value_witness :
  SnipeBot.calculate_buy_amount (quiet_world 2950 1000) market_bot
    (Some (of_N 3000)) initial_state =
  (Ret (Some (of_ratio false 333 10000)),
   record (EvLog INFO "计算入数量") initial_state) /\
  SnipeBot.calculate_buy_amount (quiet_world 2950 1000) market_bot
    (Some pos_zero) initial_state =
  (Ret None, record (EvLog ERROR "计算买入数量失败") initial_state).
Proof.
  split.
  - exact (proj1 calculate_buy_amount_value (quiet_world 2950 1000)
             market_bot initial_state (of_N 3000) (of_N 100) f0_0001
             (eth_market (Val f0_0001) (Val (of_N 1)))
             eq_refl eq_refl eq_refl eq_refl).
  - exact (proj2 (proj1 (proj2 calculate_buy_amount_value)
                    (quiet_world 2950 1000) market_bot initial_state
                    pos_zero (of_N 100) eq_refl eq_refl)).
Defined.

(** A positive price and a budget are not enough: in a market that binds
    its minimum amount to [None] the bot passes the checks of [run], and
    [calculate_buy_amount] ends in its handler, [max] having no order
    between a float and [None]. *)
Lemma positive_price_without_a_minimum :
  quote_amount market_bot = Some (of_N 100) /\
  ltb pos_zero (of_N 3000) = true /\
  in_markets no_minimum_world (target_symbol market_bot) = true /\
  fst (validate no_minimum_world market_bot initial_state)
  = Ret (market_bot, None) /\
  SnipeBot.calculate_buy_amount_try no_minimum_world market_bot
    (Some (of_N 3000)) initial_state = (Raise TypeError, initial_state) /\
  SnipeBot.calculate_buy_amount no_minimum_world market_bot
    (Some (of_N 3000)) initial_state =
  (Ret None, record (EvLog ERROR "计算买入数量失败") initial_state).
Proof. repeat split. Qed.

(** What [calculate_buy_amount] does outside these cases: an unknown
    symbol, or a minimum bound to [None], ends in the handler. *)
Example calculate_buy_amount_unknown_symbol :
  fst (SnipeBot.calculate_buy_amount (quiet_world 2950 1000)
         {| target_symbol := Some "DOGE/USDT";
            quote_amount := Some (of_N 100);
            max_price := Some (of_N 3000);
            order_type := "market";
            limit_price := None |}
         (Some (of_N 3000)) initial_state) = Ret None.
Proof. reflexivity. Qed.

(** ** Validation of the parameters *)

Lemma polls_record :
  forall (e : event) (s : state),
    polls (trace (record e s)) =
    (polls (trace s) ++ (if is_poll e then [e] else []))%list.
Proof.
  intros e s. unfold polls, record. cbn. rewrite filter_app. cbn.
  destruct (is_poll e); reflexivity.
Qed.

(** [validate] sends no price request. *)
Lemma validate_does_not_poll :
  forall (w : world) (self : bot) (s : state),
    n_fetch_ticker (snd (validate w self s)) = n_fetch_ticker s /\
    polls (trace (snd (validate w self s))) = polls (trace s).
Proof.
  intros w self s. unfold validate, load_markets.
  unfold_monad. unfold polls. cbn.
  break_matches; cbn; repeat rewrite filter_app; cbn;
    repeat rewrite app_nil_r; auto.
Qed.

(** When [validate] does not give the go-ahead, [run] never polls. *)
Lemma run_without_go_ahead :
  forall (w : world) (fuel : nat) (self : bot) (s : state),
    (forall b, fst (validate w self s) <> Ret (b, None)) ->
    stops_before_polling w fuel self s.
Proof.
  intros w fuel self s H.
  destruct (validate_does_not_poll w self s) as (Hn & Hp).
  unfold stops_before_polling, run_bot, run.
  unfold try_except, bind.
  destruct (validate w self s) as [[[b [why |]] | [c |]] s'];
    cbn in *; unfold polls in *; cbn; repeat rewrite filter_app; cbn;
    repeat rewrite app_nil_r; auto.
  exfalso. apply (H b). reflexivity.
Qed.

Ltac break_match_in H :=
  match type of H with
  | context [match ?x with _ => _ end] =>
      lazymatch x with
      | context [match _ with _ => _ end] => fail
      | _ => destruct x eqn:?
      end
  end.

(** What a go-ahead of [validate] implies. *)
Lemma validate_go_ahead :
  forall (w : world) (self b : bot) (s s' : state),
    validate w self s = (Ret (b, None), s') ->
    truthy_str (target_symbol self) && truthy_float (quote_amount self)
    = true /\
    String.eqb (order_type self) "limit"
    && negb (truthy_float (limit_price self)) = false /\
    (if truthy_float (max_price self) then b = self
     else String.eqb (order_type self) "limit" = true /\
          exists v, py_mul (limit_price self) (Some f1_01) = Ret v /\
                    b = set_max_price self v) /\
    in_markets w (target_symbol self) = true /\
    exists m c,
      exchange_market w (target_symbol self) = Ret m /\
      limits_min m limits_cost f0 = Ret c /\
      (truthy_float c = true -> py_lt (quote_amount self) c = Ret false).
Proof.
  intros w self b s s' H.
  unfold validate, load_markets in H. unfold_monad. cbn in H.
  repeat (break_match_in H; cbn in H; try discriminate H).
  all: inversion H; subst; clear H.
  all: repeat match goal with
              | E : negb _ = false |- _ =>
                  apply negb_false_iff in E
              | E : negb _ = true |- _ =>
                  apply negb_true_iff in E
              end.
  all: repeat match goal with
              | E : truthy_float (max_price ?x) = _
                |- context [truthy_float (max_price ?x)] => rewrite E
              end.
  all: repeat split; auto.
  all: try (eexists; split; reflexivity).
  all: try (do 2 eexists; repeat split; try eassumption; intros;
            congruence).
Qed.

(** The bot that enters the loop has a [max_price]. *)
Lemma validate_sets_a_limit :
  forall (w : world) (self b : bot) (s s' : state),
    validate w self s = (Ret (b, None), s') ->
    exists mp, max_price b = Some mp.
Proof.
  intros w self b s s' H.
  destruct (validate_go_ahead w self b s s' H) as (_ & _ & Hb & _).
  destruct (truthy_float (max_price self)) eqn:T.
  - subst b. destruct (max_price self) as [mp |]; [| discriminate T].
    now exists mp.
  - destruct Hb as (_ & v & _ & ->). now exists v.
Qed.

(** A limit order without [max_price]: once the symbol, the amount and
    the limit price are there and the markets reload, the bot leaves
    [validate] with [max_price] set to [limit_price * 1.01], and the
    remaining checks are the only ones that can still reject it. *)
Lemma validate_limit_sets_max_price :
  forall (w : world) (self b : bot) (s s' : state) (lp : float)
         (r : option rejection),
    order_type self = "limit" ->
    max_price self = None ->
    limit_price self = Some lp ->
    truthy lp = true ->
    truthy_str (target_symbol self) = true ->
    truthy_float (quote_amount self) = true ->
    validate w self s = (Ret (b, r), s') ->
    b = set_max_price self (mul lp f1_01) /\
    (r = None \/ r = Some UnknownSymbol \/ r = Some BelowMinCost).
Proof.
  intros w self b s s' lp r Ho Hm Hl Hlp Hs Hq H.
  unfold validate, load_markets in H. unfold_monad. cbn in H.
  rewrite Ho, Hm, Hl, Hs, Hq in H. cbn in H. rewrite Hlp in H. cbn in H.
  repeat (break_match_in H; cbn in H; try discriminate H).
  all: inversion H; subst; clear H; auto.
Qed.

(** C7, as the code has it. [run] checks its parameters before polling.
    It ends without a single price request when [target_symbol] or
    [quote_amount] is unset; when the order type is ['limit'] and
    [limit_price] is unset; when the order type is ['market'] and
    [max_price] is unset; when [target_symbol] is not among the loaded
    markets; and when the minimum cost of the market is not zero and
    [quote_amount] is below it. For a limit order with [max_price] unset
    it sets [max_price] to [limit_price * 1.01] and goes on to the checks
    of the market. *)
Theorem run_checks_parameters_first :
  forall (w : world) (fuel : nat) (self : bot) (s : state),
    (target_symbol self = None \/ quote_amount self = None ->
     stops_before_polling w fuel self s) /\
    (order_type self = "limit" -> limit_price self = None ->
     stops_before_polling w fuel self s) /\
    (order_type self = "market" -> max_price self = None ->
     stops_before_polling w fuel self s) /\
    (forall (lp : float) (b : bot) (r : option rejection) (s' : state),
       order_type self = "limit" -> max_price self = None ->
       limit_price self = Some lp -> truthy lp = true ->
       truthy_str (target_symbol self) = true ->
       truthy_float (quote_amount self) = true ->
       validate w self s = (Ret (b, r), s') ->
       b = set_max_price self (mul lp f1_01) /\
       (r = None \/ r = Some UnknownSymbol \/ r = Some BelowMinCost)) /\
    (in_markets w (target_symbol self) = false ->
     stops_before_polling w fuel self s) /\
    (forall (m : market) (min_cost q : float),
       exchange_market w (target_symbol self) = Ret m ->
       limits_min m limits_cost f0 = Ret (Some min_cost) ->
       truthy min_cost = true ->
       quote_amount self = Some q ->
       ltb q min_cost = true ->
       stops_before_polling w fuel self s).
Proof.
  intros w fuel self s.
  refine (conj _ (conj _ (conj _ (conj _ (conj _ _))))).
  - intros [H | H]; apply run_without_go_ahead; intros b E;
      destruct (validate w self s) as [r s'] eqn:V; cbn in E; subst r;
      apply validate_go_ahead in V; destruct V as (V & _);
      rewrite H in V; cbn in V;
      [discriminate | rewrite andb_false_r in V; discriminate].
  - intros Ho Hl. apply run_without_go_ahead. intros b E.
    destruct (validate w self s) as [r s'] eqn:V; cbn in E; subst r.
    apply validate_go_ahead in V. destruct V as (_ & V & _).
    rewrite Ho, Hl in V. cbn in V. discriminate.
  - intros Ho Hm. apply run_without_go_ahead. intros b E.
    destruct (validate w self s) as [r s'] eqn:V; cbn in E; subst r.
    apply validate_go_ahead in V. destruct V as (_ & _ & V & _).
    rewrite Hm in V. cbn in V. destruct V as (V & _).
    rewrite Ho in V. cbn in V. discriminate.
  - intros lp b r s' Ho Hm Hl Hlp Hs Hq V.
    eapply validate_limit_sets_max_price; eassumption.
  - intros Hin. apply run_without_go_ahead. intros b E.
    destruct (validate w self s) as [r s'] eqn:V; cbn in E; subst r.
    apply validate_go_ahead in V. destruct V as (_ & _ & _ & V & _).
    congruence.
  - intros m min_cost q Hm Hc Ht Hq Hlt.
    apply run_without_go_ahead. intros b E.
    destruct (validate w self s) as [r s'] eqn:V; cbn in E; subst r.
    apply validate_go_ahead in V.
    destruct V as (_ & _ & _ & _ & m' & c' & Hm' & Hc' & V).
    rewrite Hm in Hm'. inversion Hm'; subst m'.
    rewrite Hc in Hc'. inversion Hc'; subst c'.
    specialize (V Ht). rewrite Hq in V. cbn in V. rewrite Hlt in V.
    discriminate.
Qed.

(** The sample limit bot has no [max_price]: it receives 2100 * 1.01 =
    2121 and the loop starts. A bot with nothing set is turned away. *)
Lemma run_checks_parameters_first_witness :
  validate (quiet_world 2950 1000) limit_bot initial_state =
  (Ret (set_max_price limit_bot (of_N 2121), None),
   snd (validate (quiet_world 2950 1000) limit_bot initial_state)) /\
  stops_before_polling (quiet_world 2950 1000) 5
    {| target_symbol := None; quote_amount := None; max_price := None;
       order_type := "market"; limit_price := None |} initial_state /\
  stops_before_polling (quiet_world 2950 1000) 5
    {| target_symbol := Some "ETH/USDT";
       quote_amount := Some (of_ratio false 1 2);
       max_price := Some (of_N 3000); order_type := "market";
       limit_price := None |} initial_state.
Proof.
  split; [reflexivity |]. split.
  - apply (proj1 (run_checks_parameters_first (quiet_world 2950 1000) 5
                    {| target_symbol := None; quote_amount := None;
                       max_price := None; order_type := "market";
                       limit_price := None |} initial_state)).
    left. reflexivity.
  - apply (proj2 (proj2 (proj2 (proj2 (proj2
             (run_checks_parameters_first (quiet_world 2950 1000) 5
                {| target_symbol := Some "ETH/USDT";
                   quote_amount := Some (of_ratio false 1 2);
                   max_price := Some (of_N 3000); order_type := "market";
                   limit_price := None |} initial_state))))))
      with (m := eth_market (Val f0_0001) (Val (of_N 1)))
           (min_cost := of_N 1) (q := of_ratio false 1 2);
      reflexivity.
Defined.

(** C7 as stated fails for a minimum cost of zero: a budget of -5 is
    below it, yet [validate] gives the go-ahead, [run] polls, and an order
    for the minimum amount is placed. *)
Lemma negative_budget_is_polled :
  quote_amount negative_budget_bot = Some (of_ratio true 5 1) /\
  limits_min (eth_market (Val f0_0001) (Val pos_zero)) limits_cost f0
  = Ret (Some pos_zero) /\
  ltb (of_ratio true 5 1) pos_zero = true /\
  fst (validate free_market_world negative_budget_bot initial_state)
  = Ret (negative_budget_bot, None) /\
  n_fetch_ticker
    (snd (run_bot free_market_world 1 negative_budget_bot initial_state))
  = 2 /\
  fst (run_bot free_market_world 1 negative_budget_bot initial_state)
  = Ret (Exited OrderPlaced) /\
  order_calls
    (trace (snd (run_bot free_market_world 1 negative_budget_bot
                   initial_state)))
  = [EvCreateMarketBuyOrder (Some "ETH/USDT") f0_0001].
Proof. vm_compute. repeat split. Qed.

(** ** One pass of the polling loop *)

Section Pass.

Variable w : world.
Variable gcp : bot -> M (option float).
Variable po : bot -> M (option order).

(** The price request failed. *)
Lemma pass_after_failed_fetch :
  forall (self : bot) (retry_count : nat) (s s1 : state),
    gcp self s = (Ret None, s1) ->
    loop_iteration w gcp po self retry_count s =
    if Nat.leb max_retries (S retry_count) then
      (Ret (Break PriceFetchGaveUp),
       record (EvLog ERROR "连续获取价格失败，程序退出") s1)
    else
      sleep_then_continue w (S retry_count)
        (record (EvLog INFO "获取价格失败，次重试") s1).
Proof.
  intros self rc s s1 H.
  unfold loop_iteration, loop_body. unfold bind at 1. rewrite H.
  destruct (Nat.leb max_retries (S rc)); cbn; [reflexivity |].
  unfold sleep_then_continue, interrupted_pass. unfold_monad. cbn.
  destruct (sleep_reply w (n_sleep s1)); reflexivity.
Qed.

(** The price came back above [max_price]. *)
Lemma pass_above_max_price :
  forall (self : bot) (retry_count : nat) (s s1 : state) (p mp : float),
    gcp self s = (Ret (Some p), s1) ->
    max_price self = Some mp ->
    leb p mp = false ->
    loop_iteration w gcp po self retry_count s =
    sleep_then_continue w 0
      (record (EvLog INFO "当前价格超过最高限价，继续监控...")
         (record (EvLog INFO "当前价格") s1)).
Proof.
  intros self rc s s1 p mp H Hm Hle.
  unfold loop_iteration, loop_body. unfold bind at 1. rewrite H.
  unfold_monad. cbn. rewrite Hm. cbn. rewrite Hle. cbn.
  unfold sleep_then_continue, interrupted_pass. cbn.
  destruct (sleep_reply w (n_sleep s1)); reflexivity.
Qed.

(** The price came back within [max_price]: [place_order] is called and
    decides the rest of the pass. *)
Lemma pass_within_max_price :
  forall (self : bot) (retry_count : nat) (s s1 : state) (p mp : float),
    gcp self s = (Ret (Some p), s1) ->
    max_price self = Some mp ->
    leb p mp = true ->
    loop_iteration w gcp po self retry_count s =
    finish_pass w retry_count (po self (record (EvLog INFO "当前价格") s1)).
Proof.
  intros self rc s s1 p mp H Hm Hle.
  unfold loop_iteration, loop_body. unfold bind at 1. rewrite H.
  unfold_monad. cbn. rewrite Hm. cbn. rewrite Hle. cbn.
  unfold finish_pass, sleep_then_continue, interrupted_pass, logged_pass.
  destruct (po self (record (EvLog INFO "当前价格") s1))
    as [[[[| x o] |] | [c |]] s2]; cbn; try reflexivity;
    destruct (sleep_reply w (n_sleep s2)); reflexivity.
Qed.

(** The price request raised. *)
Lemma pass_after_raising_fetch :
  forall (self : bot) (retry_count : nat) (s s1 : state) (e : exn),
    gcp self s = (Raise e, s1) ->
    loop_iteration w gcp po self retry_count s =
    match e with
    | KeyboardInterrupt => interrupted_pass s1
    | Exception _ => logged_pass w retry_count s1
    end.
Proof.
  intros self rc s s1 e H.
  unfold loop_iteration, loop_body. unfold bind at 1. rewrite H.
  unfold interrupted_pass, logged_pass. unfold_monad. cbn.
  destruct e as [c |]; [| reflexivity].
  destruct (sleep_reply w (n_sleep s1)); reflexivity.
Qed.

(** The comparison with an unset [max_price] raises [TypeError]. *)
Lemma pass_without_max_price :
  forall (self : bot) (retry_count : nat) (s s1 : state) (p : float),
    gcp self s = (Ret (Some p), s1) ->
    max_price self = None ->
    loop_body w gcp po self retry_count s =
    (Raise TypeError, record (EvLog INFO "当前价格") s1) /\
    loop_iteration w gcp po self retry_count s =
    logged_pass w retry_count (record (EvLog INFO "当前价格") s1).
Proof.
  intros self rc s s1 p H Hm.
  assert (B : loop_body w gcp po self rc s =
              (Raise TypeError, record (EvLog INFO "当前价格") s1)).
  { unfold loop_body. unfold bind at 1. rewrite H.
    unfold_monad. cbn. rewrite Hm. reflexivity. }
  split; [exact B |].
  unfold loop_iteration. rewrite B. unfold logged_pass, TypeError.
  unfold_monad. cbn.
  destruct (sleep_reply w (n_sleep s1)); reflexivity.
Qed.

End Pass.

(** ** What the methods of the bot leave untouched *)

Ltac frame_simpl :=
  cbn; unfold order_calls, polls; cbn; repeat rewrite filter_app; cbn;
  repeat rewrite app_nil_r; auto.

(** [get_current_price] asks for the price and nothing else. *)
Lemma get_current_price_frame :
  forall (w : world) (self : bot) (s : state),
    n_fetch_balance (snd (SnipeBot.get_current_price w self s))
    = n_fetch_balance s /\
    n_market_buy (snd (SnipeBot.get_current_price w self s))
    = n_market_buy s /\
    n_limit_buy (snd (SnipeBot.get_current_price w self s))
    = n_limit_buy s /\
    n_sleep (snd (SnipeBot.get_current_price w self s)) = n_sleep s /\
    order_calls (trace (snd (SnipeBot.get_current_price w self s)))
    = order_calls (trace s).
Proof.
  intros w self s.
  unfold SnipeBot.get_current_price, SnipeBot.get_current_price_try,
    fetch_ticker.
  unfold_monad. cbn.
  break_matches; frame_simpl.
Qed.

(** It asks exactly once. *)
Lemma get_current_price_ticks :
  forall (w : world) (self : bot) (s : state),
    n_fetch_ticker (snd (SnipeBot.get_current_price w self s))
    = S (n_fetch_ticker s).
Proof.
  intros w self s.
  unfold SnipeBot.get_current_price, SnipeBot.get_current_price_try,
    fetch_ticker.
  unfold_monad. cbn. break_matches; reflexivity.
Qed.

(** [calculate_buy_amount] makes no request at all. *)
Lemma calculate_buy_amount_frame :
  forall (w : world) (self : bot) (price : option float) (s : state),
    n_fetch_balance (snd (SnipeBot.calculate_buy_amount w self price s))
    = n_fetch_balance s /\
    n_sleep (snd (SnipeBot.calculate_buy_amount w self price s))
    = n_sleep s.
Proof.
  intros w self price s.
  unfold SnipeBot.calculate_buy_amount, SnipeBot.calculate_buy_amount_try.
  unfold_monad. cbn.
  break_matches; frame_simpl.
Qed.

(** [check_balance] asks for the balance once. *)
Lemma check_balance_frame :
  forall (w : world) (self : bot) (s : state),
    n_fetch_balance (snd (SnipeBot.check_balance w self s))
    = S (n_fetch_balance s) /\
    n_sleep (snd (SnipeBot.check_balance w self s)) = n_sleep s.
Proof.
  intros w self s.
  unfold SnipeBot.check_balance, SnipeBot.check_balance_try, fetch_balance.
  unfold_monad. cbn.
  break_matches; frame_simpl.
Qed.

(** [place_order] asks for the balance exactly once and never sleeps. *)
Lemma place_order_frame :
  forall (w : world) (self : bot) (s : state),
    n_fetch_balance (snd (SnipeBot.place_order w self s))
    = S (n_fetch_balance s) /\
    n_sleep (snd (SnipeBot.place_order w self s)) = n_sleep s.
Proof.
  intros w self s.
  unfold SnipeBot.place_order, SnipeBot.place_order_try,
    SnipeBot.check_balance, SnipeBot.check_balance_try,
    SnipeBot.get_current_price, SnipeBot.get_current_price_try,
    SnipeBot.calculate_buy_amount, SnipeBot.calculate_buy_amount_try,
    fetch_balance, fetch_ticker, create_market_buy_order,
    create_limit_buy_order.
  unfold_monad. cbn.
  break_matches; frame_simpl.
Qed.

(** The ends of a pass send no request to the exchange. *)
Lemma sleep_then_continue_frame :
  forall (w : world) (retry_count : nat) (s : state),
    n_fetch_balance (snd (sleep_then_continue w retry_count s))
    = n_fetch_balance s /\
    n_market_buy (snd (sleep_then_continue w retry_count s))
    = n_market_buy s /\
    n_limit_buy (snd (sleep_then_continue w retry_count s))
    = n_limit_buy s /\
    order_calls (trace (snd (sleep_then_continue w retry_count s)))
    = order_calls (trace s).
Proof.
  intros w rc s. unfold sleep_then_continue, interrupted_pass, time_sleep.
  destruct (sleep_reply w (n_sleep s)); frame_simpl.
Qed.

Lemma finish_pass_frame :
  forall (w : world) (retry_count : nat) (r : result (option order))
         (s : state),
    n_fetch_balance (snd (finish_pass w retry_count (r, s)))
    = n_fetch_balance s.
Proof.
  intros w rc r s.
  unfold finish_pass, sleep_then_continue, logged_pass, interrupted_pass,
    time_sleep.
  destruct r as [o | [c |]]; [destruct (truthy_order o) | |]; cbn;
    try reflexivity;
    destruct (sleep_reply w (n_sleep s)); reflexivity.
Qed.

(** ** An order is attempted exactly when the price is within the limit *)

(** C2. Take a pass of the loop of a bot whose price request succeeds
    with price [p], [max_price] being [mp]. [place_order] opens with the
    only balance request of the loop, and that request is made in this
    pass exactly when [p <= mp]: then [place_order] is called in the
    state reached after logging the price and its outcome decides the
    rest of the pass. When [p > mp] the pass logs, sleeps one second and
    goes on to the next pass (unless that sleep is interrupted): no
    balance request and no order-creation call is made. *)
Theorem order_attempt_iff_price_within_limit :
  forall (w : world) (self : bot) (retry_count : nat) (s s1 : state)
         (p mp : float),
    SnipeBot.get_current_price w self s = (Ret (Some p), s1) ->
    max_price self = Some mp ->
    (leb p mp = true <->
     n_fetch_balance (snd (bot_pass w self retry_count s))
     = S (n_fetch_balance s)) /\
    (leb p mp = true ->
     bot_pass w self retry_count s =
     finish_pass w retry_count
       (SnipeBot.place_order w self (record (EvLog INFO "当前价格") s1))) /\
    (leb p mp = false ->
     bot_pass w self retry_count s =
     sleep_then_continue w 0
       (record (EvLog INFO "当前价格超过最高限价，继续监控...")
          (record (EvLog INFO "当前价格") s1)) /\
     n_fetch_balance (snd (bot_pass w self retry_count s))
     = n_fetch_balance s /\
     n_market_buy (snd (bot_pass w self retry_count s)) = n_market_buy s /\
     n_limit_buy (snd (bot_pass w self retry_count s)) = n_limit_buy s /\
     order_calls (trace (snd (bot_pass w self retry_count s)))
     = order_calls (trace s) /\
     (sleep_reply w (n_sleep s) = Slept ->
      fst (bot_pass w self retry_count s) = Ret (Continue 0))).
Proof.
  intros w self rc s s1 p mp Hp Hm.
  destruct (get_current_price_frame w self s) as (Fb & Fm & Fl & Fs & Fo).
  rewrite Hp in Fb, Fm, Fl, Fs, Fo. cbn [snd] in *.
  assert (Within : leb p mp = true ->
            bot_pass w self rc s =
            finish_pass w rc
              (SnipeBot.place_order w self
                 (record (EvLog INFO "当前价格") s1))).
  { intros Hle. unfold bot_pass.
    apply pass_within_max_price with (p := p) (mp := mp); assumption. }
  assert (Above : leb p mp = false ->
            bot_pass w self rc s =
            sleep_then_continue w 0
              (record (EvLog INFO "当前价格超过最高限价，继续监控...")
                 (record (EvLog INFO "当前价格") s1))).
  { intros Hle. unfold bot_pass.
    apply pass_above_max_price with (p := p) (mp := mp); assumption. }
  assert (Balance_within : leb p mp = true ->
            n_fetch_balance (snd (bot_pass w self rc s))
            = S (n_fetch_balance s)).
  { intros Hle. rewrite (Within Hle).
    destruct (SnipeBot.place_order w self
                (record (EvLog INFO "当前价格") s1)) as [r s2] eqn:E.
    rewrite finish_pass_frame.
    pose proof (place_order_frame w self
                  (record (EvLog INFO "当前价格") s1)) as (P & _).
    rewrite E in P. cbn in P. rewrite P. congruence. }
  assert (Balance_above : leb p mp = false ->
            n_fetch_balance (snd (bot_pass w self rc s))
            = n_fetch_balance s).
  { intros Hle. rewrite (Above Hle).
    destruct (sleep_then_continue_frame w 0
                (record (EvLog INFO "当前价格超过最高限价，继续监控...")
                   (record (EvLog INFO "当前价格") s1))) as (B & _).
    rewrite B. cbn. exact Fb. }
  refine (conj _ (conj Within _)).
  - split; [exact Balance_within |].
    intros H. destruct (leb p mp) eqn:Hle; [reflexivity |].
    rewrite (Balance_above eq_refl) in H.
    exfalso. eapply n_Sn. exact H.
  - intros Hle.
    destruct (sleep_then_continue_frame w 0
                (record (EvLog INFO "当前价格超过最高限价，继续监控...")
                   (record (EvLog INFO "当前价格") s1)))
      as (B & Mk & Lm & Oc).
    rewrite <- (Above Hle) in B, Mk, Lm, Oc.
    refine (conj (Above Hle) (conj (Balance_above Hle) _)).
    rewrite Mk, Lm, Oc. cbn [record n_market_buy n_limit_buy].
    repeat rewrite order_calls_record. cbn. repeat rewrite app_nil_r.
    refine (conj Fm (conj Fl (conj Fo _))).
    intros Hs. rewrite (Above Hle). unfold sleep_then_continue. cbn.
    rewrite Fs, Hs. reflexivity.
Qed.

(** 2950 against a limit of 3000: the pass asks for the balance and
    places the order; 3950 against 3000: it does neither. *)
Lemma order_attempt_iff_price_within_limit_witness :
  (leb (of_N 2950) (of_N 3000) = true /\
   n_fetch_balance
     (snd (bot_pass (quiet_world 2950 1000) market_bot 0 initial_state))
   = 1) /\
  (leb (of_N 3950) (of_N 3000) = false /\
   bot_pass (quiet_world 3950 1000) market_bot 0 initial_state =
   sleep_then_continue (quiet_world 3950 1000) 0
     (record (EvLog INFO "当前价格超过最高限价，继续监控...")
        (record (EvLog INFO "当前价格")
           (snd (SnipeBot.get_current_price (quiet_world 3950 1000)
                   market_bot initial_state))))).
Proof.
  split.
  - split; [reflexivity |].
    apply (proj1 (order_attempt_iff_price_within_limit
                    (quiet_world 2950 1000) market_bot 0 initial_state
                    _ (of_N 2950) (of_N 3000) eq_refl eq_refl)).
    reflexivity.
  - split; [reflexivity |].
    apply (proj2 (proj2 (order_attempt_iff_price_within_limit
                           (quiet_world 3950 1000) market_bot 0
                           initial_state _ (of_N 3950) (of_N 3000)
                           eq_refl eq_refl))).
    reflexivity.
Defined.

(** ** How the loop ends *)

Section Loop.

Variable w : world.
Variable gcp : bot -> M (option float).
Variable po : bot -> M (option order).

Lemma truthy_order_true :
  forall o : option order,
    truthy_order o = true -> exists x l, o = Some (x :: l).
Proof.
  intros [[| x l] |] H; try discriminate H. now exists x, l.
Qed.

(** The [try] block reaches a [break] in two places only. *)
Lemma loop_body_break :
  forall (self : bot) (retry_count : nat) (s s' : state) (why : loop_exit),
    loop_body w gcp po self retry_count s = (Ret (Break why), s') ->
    (why = PriceFetchGaveUp /\
     max_retries <= S retry_count /\
     exists s1, gcp self s = (Ret None, s1)) \/
    (why = OrderPlaced /\
     exists (p : float) (s1 : state) (o : order) (s2 : state),
       gcp self s = (Ret (Some p), s1) /\
       po self (record (EvLog INFO "当前价格") s1) = (Ret (Some o), s2) /\
       o <> []).
Proof.
  intros self rc s s' why H.
  unfold loop_body in H. unfold bind at 1 in H.
  destruct (gcp self s) as [[[p |] | e] s1] eqn:G; [| | discriminate H].
  - right. unfold_monad. cbn in H.
    repeat (break_match_in H; cbn in H; try discriminate H).
    inversion H; subst.
    match goal with
    | T : truthy_order ?o = true |- _ =>
        destruct (truthy_order_true _ T) as (x & l & ->)
    end.
    split; [reflexivity |].
    exists p, s1, (x :: l). eexists. repeat split; [eassumption |].
    discriminate.
  - left. destruct (Nat.leb max_retries (S rc)) eqn:L.
    + unfold_monad. cbn in H. inversion H; subst.
      repeat split; [apply Nat.leb_le; exact L | exists s1; reflexivity].
    + unfold_monad. cbn in H.
      destruct (sleep_reply w (n_sleep s1)); discriminate H.
Qed.

(** A pass that ends the loop does so for one of three reasons. *)
Lemma loop_iteration_break :
  forall (self : bot) (retry_count : nat) (s s' : state) (why : loop_exit),
    loop_iteration w gcp po self retry_count s = (Ret (Break why), s') ->
    match why with
    | PriceFetchGaveUp =>
        max_retries <= S retry_count /\
        exists s1, gcp self s = (Ret None, s1)
    | OrderPlaced =>
        exists (p : float) (s1 : state) (o : order) (s2 : state),
          gcp self s = (Ret (Some p), s1) /\
          po self (record (EvLog INFO "当前价格") s1) = (Ret (Some o), s2) /\
          o <> []
    | ManuallyInterrupted =>
        exists s1,
          loop_body w gcp po self retry_count s
          = (Raise KeyboardInterrupt, s1)
    end.
Proof.
  intros self rc s s' why H.
  unfold loop_iteration in H.
  destruct (loop_body w gcp po self rc s) as [[c | [e |]] s1] eqn:B.
  - inversion H; subst.
    destruct (loop_body_break _ _ _ _ _ B) as [(E & L & F) | (E & F)];
      subst why; auto.
  - unfold_monad. unfold time_sleep in H. cbn in H.
    destruct (sleep_reply w (n_sleep s1)); discriminate H.
  - unfold_monad. cbn in H. inversion H; subst. exists s1. reflexivity.
Qed.

(** A pass raises nothing but a [KeyboardInterrupt]. *)
Lemma loop_iteration_raise :
  forall (self : bot) (retry_count : nat) (s s' : state) (e : exn),
    loop_iteration w gcp po self retry_count s = (Raise e, s') ->
    e = KeyboardInterrupt /\
    exists c s1,
      loop_body w gcp po self retry_count s = (Raise (Exception c), s1) /\
      sleep_reply w (n_sleep s1) = Interrupted.
Proof.
  intros self rc s s' e H.
  unfold loop_iteration in H.
  destruct (loop_body w gcp po self rc s) as [[c | [c |]] s1] eqn:B.
  - discriminate H.
  - unfold_monad. unfold time_sleep in H. cbn in H.
    destruct (sleep_reply w (n_sleep s1)) eqn:S1; [discriminate H |].
    inversion H; subst. split; [reflexivity |].
    exists c, s1. auto.
  - unfold_monad. cbn in H. discriminate H.
Qed.

(** An [Exception] out of the [try] block: logged, slept on, next pass
    with the same count. *)
Lemma loop_iteration_Exception :
  forall (self : bot) (retry_count : nat) (s s1 : state) (c : string),
    loop_body w gcp po self retry_count s = (Raise (Exception c), s1) ->
    loop_iteration w gcp po self retry_count s
    = logged_pass w retry_count s1.
Proof.
  intros self rc s s1 c B.
  unfold loop_iteration. rewrite B. unfold logged_pass, time_sleep.
  unfold_monad. cbn.
  destruct (sleep_reply w (n_sleep s1)); reflexivity.
Qed.

(** The loop is left only by a pass that breaks or raises. *)
Lemma polling_loop_end :
  forall (fuel : nat) (self : bot) (retry_count : nat) (s s' : state)
         (r : result (option loop_exit)),
    polling_loop w gcp po fuel self retry_count s = (r, s') ->
    match r with
    | Ret (Some why) =>
        exists rc0 s0,
          loop_iteration w gcp po self rc0 s0 = (Ret (Break why), s')
    | Ret None => True
    | Raise e =>
        exists rc0 s0, loop_iteration w gcp po self rc0 s0 = (Raise e, s')
    end.
Proof.
  induction fuel as [| fuel IH]; intros self rc s s' r H.
  - cbn in H. unfold ret in H. inversion H; subst. exact I.
  - cbn [polling_loop] in H. unfold bind in H.
    destruct (loop_iteration w gcp po self rc s) as [[[rc' | why] | e] s1]
      eqn:It.
    + apply (IH _ _ _ _ _ H).
    + unfold ret in H. inversion H; subst. exists rc, s. exact It.
    + inversion H; subst. exists rc, s. exact It.
Qed.

(** Unrolling the loop by one pass that continues. *)
Lemma polling_loop_continue :
  forall (fuel : nat) (self : bot) (retry_count retry_count' : nat)
         (s s' : state),
    loop_iteration w gcp po self retry_count s
    = (Ret (Continue retry_count'), s') ->
    polling_loop w gcp po (S fuel) self retry_count s
    = polling_loop w gcp po fuel self retry_count' s'.
Proof.
  intros fuel self rc rc' s s' H. cbn [polling_loop]. unfold bind.
  rewrite H. reflexivity.
Qed.

End Loop.

(** Polling goes on for as long as every pass finds a price within the
    limit, [place_order] returns [None] and no sleep is interrupted. *)
Lemma polling_goes_on :
  forall (w : world) (gcp : bot -> M (option float))
         (po : bot -> M (option order)) (self : bot) (mp : float),
    max_price self = Some mp ->
    (forall s, exists p s1 s2,
        gcp self s = (Ret (Some p), s1) /\ leb p mp = true /\
        po self (record (EvLog INFO "当前价格") s1) = (Ret None, s2)) ->
    (forall n, sleep_reply w n = Slept) ->
    forall (fuel retry_count : nat) (s : state),
      fst (polling_loop w gcp po fuel self retry_count s) = Ret None.
Proof.
  intros w gcp po self mp Hm Hpass Hsleep.
  induction fuel as [| fuel IH]; intros rc s; [reflexivity |].
  destruct (Hpass s) as (p & s1 & s2 & Hg & Hle & Hpo).
  assert (It : loop_iteration w gcp po self rc s =
               (Ret (Continue 0),
                snd (time_sleep w 1
                       (record (EvLog ERROR "下单失败，继续监控...") s2)))).
  { rewrite (pass_within_max_price w gcp po self rc s s1 p mp Hg Hm Hle).
    rewrite Hpo. cbn [finish_pass truthy_order].
    unfold sleep_then_continue. rewrite Hsleep. reflexivity. }
  rewrite (polling_loop_continue w gcp po fuel self rc 0 s _ It).
  apply IH.
Qed.

(** C4. In a pass where [place_order] is called and returns [None]
    (not enough balance, or the order failed), the loop logs the failure,
    sleeps one second and starts the next pass with the failure count at
    zero: such a pass leaves the loop only if that sleep is cut short by
    a manual interrupt. As long as this keeps happening and nobody
    interrupts, polling never ends. *)
Theorem failed_order_keeps_polling :
  forall (w : world) (gcp : bot -> M (option float))
         (po : bot -> M (option order)) (self : bot) (mp : float),
    max_price self = Some mp ->
    (forall (retry_count : nat) (s s1 s2 : state) (p : float),
       gcp self s = (Ret (Some p), s1) ->
       leb p mp = true ->
       po self (record (EvLog INFO "当前价格") s1) = (Ret None, s2) ->
       loop_iteration w gcp po self retry_count s =
       sleep_then_continue w 0
         (record (EvLog ERROR "下单失败，继续监控...") s2) /\
       (forall why s',
          loop_iteration w gcp po self retry_count s
          = (Ret (Break why), s') ->
          why = ManuallyInterrupted /\
          sleep_reply w (n_sleep s2) = Interrupted) /\
       (sleep_reply w (n_sleep s2) = Slept ->
        forall fuel,
          polling_loop w gcp po (S fuel) self retry_count s =
          polling_loop w gcp po fuel self 0
            (snd (time_sleep w 1
                    (record (EvLog ERROR "下单失败，继续监控...") s2))))) /\
    ((forall s, exists p s1 s2,
         gcp self s = (Ret (Some p), s1) /\ leb p mp = true /\
         po self (record (EvLog INFO "当前价格") s1) = (Ret None, s2)) ->
     (forall n, sleep_reply w n = Slept) ->
     forall (fuel retry_count : nat) (s : state),
       fst (polling_loop w gcp po fuel self retry_count s) = Ret None).
Proof.
  intros w gcp po self mp Hm. split.
  - intros rc s s1 s2 p Hg Hle Hpo.
    assert (It : loop_iteration w gcp po self rc s =
                 sleep_then_continue w 0
                   (record (EvLog ERROR "下单失败，继续监控...") s2)).
    { rewrite (pass_within_max_price w gcp po self rc s s1 p mp
                 Hg Hm Hle).
      rewrite Hpo. reflexivity. }
    refine (conj It (conj _ _)).
    + intros why s' B. rewrite It in B. unfold sleep_then_continue in B.
      cbn [record n_sleep] in B.
      destruct (sleep_reply w (n_sleep s2)); [discriminate B |].
      unfold interrupted_pass in B. inversion B; subst. auto.
    + intros Hs fuel. apply polling_loop_continue. rewrite It.
      unfold sleep_then_continue. cbn [record n_sleep]. rewrite Hs.
      reflexivity.
  - apply polling_goes_on. exact Hm.
Qed.

(** With 10 USDT for a budget of 100 the order is refused, pass after
    pass. *)
Lemma failed_order_keeps_polling_witness :
  bot_pass (quiet_world 2950 10) market_bot 0 initial_state =
  sleep_then_continue (quiet_world 2950 10) 0
    (record (EvLog ERROR "下单失败，继续监控...")
       (snd (SnipeBot.place_order (quiet_world 2950 10) market_bot
               (record (EvLog INFO "当前价格")
                  (snd (SnipeBot.get_current_price (quiet_world 2950 10)
                          market_bot initial_state)))))) /\
  fst (polling_loop (quiet_world 2950 10)
         (SnipeBot.get_current_price (quiet_world 2950 10))
         (SnipeBot.place_order (quiet_world 2950 10)) 50 market_bot 0
         initial_state) = Ret None.
Proof.
  pose proof (failed_order_keeps_polling (quiet_world 2950 10)
                (SnipeBot.get_current_price (quiet_world 2950 10))
                (SnipeBot.place_order (quiet_world 2950 10))
                market_bot (of_N 3000) eq_refl) as (Once & Ever).
  split.
  - apply (proj1 (Once 0 initial_state _ _ (of_N 2950)
                    eq_refl eq_refl eq_refl)).
  - apply Ever.
    + intros s. exists (of_N 2950). eexists. eexists.
      split; [reflexivity |]. split; reflexivity.
    + intros n. reflexivity.
Defined.

(** Without funds [run] is still polling after any number of passes. *)
Example run_never_ends_without_funds :
  forall fuel : nat,
    fst (run_bot (quiet_world 2950 10) fuel market_bot initial_state)
    = Ret StillPolling.
Proof.
  intros fuel. unfold run_bot, run, try_except, bind.
  destruct (validate (quiet_world 2950 10) market_bot initial_state)
    as [r s1] eqn:V.
  assert (Hr : r = Ret (market_bot, None)).
  { change r with (fst (r, s1)). rewrite <- V. reflexivity. }
  subst r.
  pose proof (polling_goes_on (quiet_world 2950 10)
                (SnipeBot.get_current_price (quiet_world 2950 10))
                (SnipeBot.place_order (quiet_world 2950 10))
                market_bot (of_N 3000) eq_refl) as Ever.
  assert (E : fst (polling_loop (quiet_world 2950 10)
                     (SnipeBot.get_current_price (quiet_world 2950 10))
                     (SnipeBot.place_order (quiet_world 2950 10)) fuel
                     market_bot 0 s1) = Ret None).
  { apply Ever.
    - intros s. exists (of_N 2950). eexists. eexists.
      split; [reflexivity |]. split; reflexivity.
    - intros n. reflexivity. }
  destruct (polling_loop (quiet_world 2950 10)
              (SnipeBot.get_current_price (quiet_world 2950 10))
              (SnipeBot.place_order (quiet_world 2950 10)) fuel
              market_bot 0 s1) as [r2 s2].
  cbn in E. subst r2. reflexivity.
Qed.

(** ** The loop of [run], pass by pass *)

(** How a pass of the bot that goes on to the next pass sets the count:
    one more after a failed request, zero after a price. *)
Lemma bot_pass_continue :
  forall (w : world) (self : bot) (mp : float) (retry_count rc' : nat)
         (s s' : state),
    max_price self = Some mp ->
    bot_pass w self retry_count s = (Ret (Continue rc'), s') ->
    (fetch_failed w self s = true /\ rc' = S retry_count /\
     S retry_count < max_retries) \/
    (fetch_failed w self s = false /\ rc' = 0 /\
     exists p s1,
       SnipeBot.get_current_price w self s = (Ret (Some p), s1)).
Proof.
  intros w self mp rc rc' s s' Hm H. unfold bot_pass in H.
  unfold fetch_failed.
  pose proof (get_current_price_no_Exception w self s) as NoE.
  destruct (SnipeBot.get_current_price w self s) as [[[p |] | e] s1] eqn:G;
    cbn [fst] in *.
  - right. split; [reflexivity |]. split; [| exists p, s1; reflexivity].
    destruct (leb p mp) eqn:Hle.
    + rewrite (pass_within_max_price w _ _ self rc s s1 p mp G Hm Hle) in H.
      pose proof (place_order_no_Exception w self
                    (record (EvLog INFO "当前价格") s1)) as NoP.
      destruct (SnipeBot.place_order w self
                  (record (EvLog INFO "当前价格") s1))
        as [[o | [c |]] s2]; cbn [fst] in NoP; [| contradiction |].
      * cbn [finish_pass] in H. destruct (truthy_order o);
          [discriminate H |].
        unfold sleep_then_continue, interrupted_pass in H.
        destruct (sleep_reply w _); inversion H; reflexivity.
      * cbn [finish_pass] in H. unfold interrupted_pass in H.
        discriminate H.
    + rewrite (pass_above_max_price w _ _ self rc s s1 p mp G Hm Hle) in H.
      unfold sleep_then_continue, interrupted_pass in H.
      destruct (sleep_reply w _); inversion H; reflexivity.
  - left. split; [reflexivity |].
    rewrite (pass_after_failed_fetch w _ _ self rc s s1 G) in H.
    destruct (Nat.leb max_retries (S rc)) eqn:L; [discriminate H |].
    apply Nat.leb_gt in L.
    unfold sleep_then_continue, interrupted_pass in H.
    destruct (sleep_reply w _); inversion H; auto.
  - exfalso.
    rewrite (pass_after_raising_fetch w _ _ self rc s s1 e G) in H.
    destruct e as [c |]; [contradiction |].
    unfold interrupted_pass in H. discriminate H.
Qed.

(** The count is the number of failed requests in a row, and stays
    below [max_retries] while the loop runs. *)
Lemma retry_count_invariant :
  forall (w : world) (self : bot) (mp : float) (s0 : state)
         (h : list bool) (retry_count : nat) (s : state),
    max_price self = Some mp ->
    passes w self s0 h retry_count s ->
    retry_count = failed_in_a_row h /\ retry_count < max_retries.
Proof.
  intros w self mp s0 h rc s Hm P.
  induction P as [| h rc rc' s s' P IH B].
  - cbn. unfold max_retries. lia.
  - destruct IH as (IH & Lt).
    destruct (bot_pass_continue w self mp rc rc' s s' Hm B)
      as [(F & E & L) | (F & E & _)]; rewrite F; cbn; subst; lia.
Qed.

(** After [length h] passes that went on, the loop is where [passes]
    says. *)
Lemma passes_unroll :
  forall (w : world) (self : bot) (s0 : state) (h : list bool)
         (retry_count : nat) (s : state),
    passes w self s0 h retry_count s ->
    forall n : nat,
      bot_loop w (List.length h + n) self 0 s0 = bot_loop w n self retry_count s.
Proof.
  intros w self s0 h rc s P.
  induction P as [| h rc rc' s s' P IH B]; intros n; [reflexivity |].
  cbn [List.length].
  replace (S (List.length h) + n) with (List.length h + S n) by lia.
  rewrite IH.
  unfold bot_loop. apply polling_loop_continue. exact B.
Qed.

Lemma passes_inv :
  forall (w : world) (self : bot) (s0 : state) (b : bool) (h : list bool)
         (rc' : nat) (s' : state),
    passes w self s0 (b :: h) rc' s' ->
    exists rc s,
      passes w self s0 h rc s /\
      bot_pass w self rc s = (Ret (Continue rc'), s') /\
      b = fetch_failed w self s.
Proof.
  intros w self s0 b h rc' s' P. inversion P; subst.
  eexists. eexists. split; [eassumption |]. split; [eassumption |].
  reflexivity.
Qed.

(** Where a loop that was started on a history ends. *)
Lemma bot_loop_passes :
  forall (w : world) (self : bot) (s0 : state) (fuel : nat)
         (h : list bool) (retry_count : nat) (s s' : state)
         (r : result (option loop_exit)),
    passes w self s0 h retry_count s ->
    bot_loop w fuel self retry_count s = (r, s') ->
    match r with
    | Ret (Some why) =>
        exists h1 rc1 s1,
          passes w self s0 h1 rc1 s1 /\
          List.length h1 < List.length h + fuel /\
          bot_pass w self rc1 s1 = (Ret (Break why), s')
    | Ret None =>
        exists h1 rc1,
          passes w self s0 h1 rc1 s' /\ List.length h1 = List.length h + fuel
    | Raise e =>
        exists h1 rc1 s1,
          passes w self s0 h1 rc1 s1 /\
          bot_pass w self rc1 s1 = (Raise e, s')
    end.
Proof.
  intros w self s0. induction fuel as [| fuel IH];
    intros h rc s s' r P H.
  - cbn in H. unfold ret in H. inversion H; subst.
    exists h, rc. split; [exact P | lia].
  - unfold bot_loop in H. cbn [polling_loop] in H. unfold bind in H.
    fold (bot_pass w self rc s) in H.
    destruct (bot_pass w self rc s) as [[[rc' | why'] | e] s1] eqn:B.
    + fold (bot_loop w fuel self rc' s1) in H.
      pose proof (IH (fetch_failed w self s :: h) rc' s1 s' r
                    (passes_more P B) H) as R.
      cbn [List.length] in R.
      destruct r as [[why |] | e].
      * destruct R as (h1 & rc1 & s2 & P1 & L & B1).
        exists h1, rc1, s2. repeat split; auto. lia.
      * destruct R as (h1 & rc1 & P1 & L).
        exists h1, rc1. split; [exact P1 | lia].
      * exact R.
    + unfold ret in H. inversion H; subst.
      exists h, rc, s. repeat split; auto. lia.
    + inversion H; subst. exists h, rc, s. auto.
Qed.

(** A pass whose price request comes back as [None] sends one price
    request and nothing else. *)
Lemma failed_pass_sends_nothing :
  forall (w : world) (self : bot) (retry_count : nat) (s s1 : state),
    SnipeBot.get_current_price w self s = (Ret None, s1) ->
    n_fetch_ticker (snd (bot_pass w self retry_count s))
    = S (n_fetch_ticker s) /\
    n_fetch_balance (snd (bot_pass w self retry_count s))
    = n_fetch_balance s /\
    n_orders (snd (bot_pass w self retry_count s)) = n_orders s /\
    order_calls (trace (snd (bot_pass w self retry_count s)))
    = order_calls (trace s).
Proof.
  intros w self rc s s1 G.
  pose proof (get_current_price_ticks w self s) as Tk.
  destruct (get_current_price_frame w self s) as (Fb & Fm & Fl & _ & Fo).
  rewrite G in Tk, Fb, Fm, Fl, Fo. cbn [snd] in Tk, Fb, Fm, Fl, Fo.
  unfold bot_pass. rewrite (pass_after_failed_fetch w _ _ self rc s s1 G).
  unfold sleep_then_continue, interrupted_pass, n_orders, time_sleep.
  destruct (Nat.leb max_retries (S rc)); cbn;
    try destruct (sleep_reply w (n_sleep s1)); cbn;
    unfold order_calls in *; cbn; repeat rewrite filter_app; cbn;
    repeat rewrite app_nil_r; repeat split; congruence.
Qed.

(** A pass of the bot of [run] raises nothing: whatever goes wrong
    inside the methods is caught inside them. *)
Lemma bot_pass_raises_nothing :
  forall (w : world) (self : bot) (mp : float) (retry_count : nat)
         (s s' : state) (e : exn),
    max_price self = Some mp ->
    bot_pass w self retry_count s = (Raise e, s') -> False.
Proof.
  intros w self mp rc s s' e Hm H. unfold bot_pass in H.
  pose proof (get_current_price_no_Exception w self s) as NoE.
  destruct (SnipeBot.get_current_price w self s) as [[[p |] | e1] s1] eqn:G;
    cbn [fst] in *.
  - destruct (leb p mp) eqn:Hle.
    + rewrite (pass_within_max_price w _ _ self rc s s1 p mp G Hm Hle) in H.
      pose proof (place_order_no_Exception w self
                    (record (EvLog INFO "当前价格") s1)) as NoP.
      destruct (SnipeBot.place_order w self
                  (record (EvLog INFO "当前价格") s1))
        as [[o | [c |]] s2]; cbn [fst] in NoP; [| contradiction |].
      * cbn [finish_pass] in H. destruct (truthy_order o);
          [discriminate H |].
        unfold sleep_then_continue, interrupted_pass in H.
        destruct (sleep_reply w _); discriminate H.
      * cbn [finish_pass] in H. unfold interrupted_pass in H.
        discriminate H.
    + rewrite (pass_above_max_price w _ _ self rc s s1 p mp G Hm Hle) in H.
      unfold sleep_then_continue, interrupted_pass in H.
      destruct (sleep_reply w _); discriminate H.
  - rewrite (pass_after_failed_fetch w _ _ self rc s s1 G) in H.
    destruct (Nat.leb max_retries (S rc)); [discriminate H |].
    unfold sleep_then_continue, interrupted_pass in H.
    destruct (sleep_reply w _); discriminate H.
  - rewrite (pass_after_raising_fetch w _ _ self rc s s1 e1 G) in H.
    destruct e1 as [c |]; [contradiction |].
    unfold interrupted_pass in H. discriminate H.
Qed.

(** The three passes behind a loop that gives up. *)
Lemma gave_up_after_three :
  forall (w : world) (self : bot) (mp : float) (s0 : state)
         (h1 : list bool) (rc1 : nat) (s1 s' : state),
    max_price self = Some mp ->
    passes w self s0 h1 rc1 s1 ->
    bot_pass w self rc1 s1 = (Ret (Break PriceFetchGaveUp), s') ->
    exists (h' : list bool) (sa sb : state),
      h1 = (true :: true :: h')%list /\
      passes w self s0 h' 0 sa /\
      fetch_failed w self sa = true /\
      bot_pass w self 0 sa = (Ret (Continue 1), sb) /\
      fetch_failed w self sb = true /\
      bot_pass w self 1 sb = (Ret (Continue 2), s1) /\
      fetch_failed w self s1 = true /\
      rc1 = 2.
Proof.
  intros w self mp s0 h1 rc1 s1 s' Hm P B.
  destruct (retry_count_invariant w self mp s0 h1 rc1 s1 Hm P)
    as (Inv & Lt).
  unfold bot_pass in B.
  destruct (loop_iteration_break w _ _ self rc1 s1 s' PriceFetchGaveUp B)
    as (L & s2 & G).
  unfold max_retries in *.
  assert (R : rc1 = 2) by lia. clear L Lt. rewrite R in *.
  destruct h1 as [| [] h1]; try discriminate Inv.
  destruct h1 as [| [] h1]; try discriminate Inv.
  cbn in Inv. assert (Z : failed_in_a_row h1 = 0) by lia.
  destruct (passes_inv w self s0 true (true :: h1) _ s1 P)
    as (rcb & sb & Pb & Bb & Fb).
  destruct (passes_inv w self s0 true h1 rcb sb Pb)
    as (rca & sa & Pa & Ba & Fa).
  destruct (retry_count_invariant w self mp s0 _ _ _ Hm Pa) as (Ia & _).
  destruct (retry_count_invariant w self mp s0 _ _ _ Hm Pb) as (Ib & _).
  cbn in Ib. rewrite Z in Ia, Ib. subst rca rcb.
  exists h1, sa, sb. repeat split; auto.
  unfold fetch_failed. rewrite G. reflexivity.
Qed.

Lemma fetch_failed_None :
  forall (w : world) (self : bot) (s : state),
    fetch_failed w self s = true <->
    fst (SnipeBot.get_current_price w self s) = Ret None.
Proof.
  intros w self s. unfold fetch_failed.
  destruct (SnipeBot.get_current_price w self s) as [[[p |] | e] s1];
    cbn; split; intros H; congruence.
Qed.

Lemma fst_None :
  forall (w : world) (self : bot) (s : state),
    fst (SnipeBot.get_current_price w self s) = Ret None ->
    SnipeBot.get_current_price w self s
    = (Ret None, snd (SnipeBot.get_current_price w self s)).
Proof.
  intros w self s H.
  destruct (SnipeBot.get_current_price w self s) as [r s1].
  cbn in *. subst r. reflexivity.
Qed.

(** [run] enters the loop with the count at zero, on the bot its checks
    let through, and ends as the loop ends. *)
Lemma run_bot_loop :
  forall (w : world) (fuel : nat) (self0 self : bot) (s s0 : state),
    validate w self0 s = (Ret (self, None), s0) ->
    run_bot w fuel self0 s = run_ends (bot_loop w fuel self 0 s0).
Proof.
  intros w fuel self0 self s s0 V.
  unfold run_bot, run, try_except, bind. rewrite V.
  fold (bot_loop w fuel self 0 s0).
  destruct (bot_loop w fuel self 0 s0) as [[[why |] | [c |]] s'];
    reflexivity.
Qed.

(** A pass whose price request fails goes on with the count one higher,
    if it goes on. *)
Lemma failed_pass_continue :
  forall (w : world) (self : bot) (retry_count rc' : nat) (s s' : state),
    fst (SnipeBot.get_current_price w self s) = Ret None ->
    bot_pass w self retry_count s = (Ret (Continue rc'), s') ->
    rc' = S retry_count /\ S retry_count < max_retries.
Proof.
  intros w self rc rc' s s' F B. unfold bot_pass in B.
  rewrite (pass_after_failed_fetch w _ _ self rc s _ (fst_None w self s F))
    in B.
  destruct (Nat.leb max_retries (S rc)) eqn:L; [discriminate B |].
  apply Nat.leb_gt in L.
  unfold sleep_then_continue, interrupted_pass in B.
  destruct (sleep_reply w _); inversion B; auto.
Qed.

(** The loop that gave up: its last three passes, and what they sent. *)
Lemma gave_up_passes :
  forall (w : world) (self : bot) (mp : float) (s0 : state) (fuel : nat)
         (s' : state),
    max_price self = Some mp ->
    bot_loop w fuel self 0 s0 = (Ret (Some PriceFetchGaveUp), s') ->
    exists (k : nat) (sa sb sc : state),
      k + 3 <= fuel /\
      loop_is_at w self s0 k 0 sa /\
      fst (SnipeBot.get_current_price w self sa) = Ret None /\
      bot_pass w self 0 sa = (Ret (Continue 1), sb) /\
      fst (SnipeBot.get_current_price w self sb) = Ret None /\
      bot_pass w self 1 sb = (Ret (Continue 2), sc) /\
      fst (SnipeBot.get_current_price w self sc) = Ret None /\
      bot_pass w self 2 sc = (Ret (Break PriceFetchGaveUp), s') /\
      n_fetch_ticker s' = 3 + n_fetch_ticker sa /\
      n_fetch_balance s' = n_fetch_balance sa /\
      n_orders s' = n_orders sa /\
      order_calls (trace s') = order_calls (trace sa).
Proof.
  intros w self mp s0 fuel s' Hm L.
  destruct (bot_loop_passes w self s0 fuel [] 0 s0 s'
              (Ret (Some PriceFetchGaveUp)) (passes_none w self s0) L)
    as (h1 & rc1 & sc & P1 & Len & B1).
  destruct (gave_up_after_three w self mp s0 h1 rc1 sc s' Hm P1 B1)
    as (h' & sa & sb & E & Pa & Fa & Ba & Fb & Bb & Fc & R).
  subst h1 rc1. cbn [List.length] in Len.
  apply fetch_failed_None in Fa, Fb, Fc.
  destruct (failed_pass_sends_nothing w self 0 sa _ (fst_None w self sa Fa))
    as (Ta & Ba1 & Oa & Ca).
  destruct (failed_pass_sends_nothing w self 1 sb _ (fst_None w self sb Fb))
    as (Tb & Bb1 & Ob & Cb).
  destruct (failed_pass_sends_nothing w self 2 sc _ (fst_None w self sc Fc))
    as (Tc & Bc1 & Oc & Cc).
  rewrite Ba in Ta, Ba1, Oa, Ca. rewrite Bb in Tb, Bb1, Ob, Cb.
  rewrite B1 in Tc, Bc1, Oc, Cc. cbn [snd] in *.
  exists (List.length h'), sa, sb, sc.
  split; [lia |].
  split; [exact (passes_unroll w self s0 h' 0 sa Pa) |].
  repeat split; auto; congruence || lia.
Qed.

(** Three passes in a row whose price request fails: the third gives
    up. *)
Lemma three_failed_passes :
  forall (w : world) (self : bot) (s0 : state) (k rc rb rcc : nat)
         (sa sb sc : state),
    loop_is_at w self s0 k rc sa ->
    fst (SnipeBot.get_current_price w self sa) = Ret None ->
    bot_pass w self rc sa = (Ret (Continue rb), sb) ->
    fst (SnipeBot.get_current_price w self sb) = Ret None ->
    bot_pass w self rb sb = (Ret (Continue rcc), sc) ->
    fst (SnipeBot.get_current_price w self sc) = Ret None ->
    forall n : nat,
      bot_loop w (k + 3 + n) self 0 s0 =
      (Ret (Some PriceFetchGaveUp),
       record (EvLog ERROR "连续获取价格失败，程序退出")
         (snd (SnipeBot.get_current_price w self sc))).
Proof.
  intros w self s0 k rc rb rcc sa sb sc At Fa Ba Fb Bb Fc n.
  destruct (failed_pass_continue w self rc rb sa sb Fa Ba) as (Eb & Lb).
  destruct (failed_pass_continue w self rb rcc sb sc Fb Bb) as (Ec & Lc).
  unfold max_retries in *.
  assert (rc = 0) by lia. subst rc rb rcc.
  replace (k + 3 + n) with (k + S (S (S n))) by lia.
  rewrite (At (S (S (S n)))). unfold bot_loop.
  rewrite (polling_loop_continue w _ _ (S (S n)) self 0 1 sa sb Ba).
  rewrite (polling_loop_continue w _ _ (S n) self 1 2 sb sc Bb).
  cbn [polling_loop]. unfold bind.
  rewrite (pass_after_failed_fetch w _ _ self 2 sc _ (fst_None w self sc Fc)).
  reflexivity.
Qed.

Lemma loop_is_at_next :
  forall (w : world) (self : bot) (s0 : state) (k rc rc' : nat)
         (s s' : state),
    loop_is_at w self s0 k rc s ->
    bot_pass w self rc s = (Ret (Continue rc'), s') ->
    loop_is_at w self s0 (k + 1) rc' s'.
Proof.
  intros w self s0 k rc rc' s s' At B n.
  replace (k + 1 + n) with (k + S n) by lia. rewrite (At (S n)).
  unfold bot_loop. apply polling_loop_continue. exact B.
Qed.

(** The pass that ends the loop. *)
Lemma bot_loop_last_pass :
  forall (w : world) (self : bot) (s0 : state) (fuel : nat) (s' : state)
         (why : loop_exit),
    bot_loop w fuel self 0 s0 = (Ret (Some why), s') ->
    exists (k rc : nat) (s : state),
      k < fuel /\
      loop_is_at w self s0 k rc s /\
      bot_pass w self rc s = (Ret (Break why), s').
Proof.
  intros w self s0 fuel s' why L.
  destruct (bot_loop_passes w self s0 fuel [] 0 s0 s' (Ret (Some why))
              (passes_none w self s0) L) as (h1 & rc1 & s1 & P1 & Len & B1).
  exists (List.length h1), rc1, s1. cbn in Len.
  split; [exact Len |].
  split; [exact (passes_unroll w self s0 h1 rc1 s1 P1) | exact B1].
Qed.

(** What [place_order] returned in a pass that ended the loop with an
    order, and in a pass that went on. *)
Lemma pass_with_a_price :
  forall (w : world) (self : bot) (mp : float) (retry_count : nat)
         (s s1 s' : state) (p : float) (c : loop_ctl),
    max_price self = Some mp ->
    SnipeBot.get_current_price w self s = (Ret (Some p), s1) ->
    bot_pass w self retry_count s = (Ret c, s') ->
    match c with
    | Break OrderPlaced =>
        leb p mp = true /\
        exists (o : order) (s2 : state),
          SnipeBot.place_order w self (record (EvLog INFO "当前价格") s1)
          = (Ret (Some o), s2) /\
          o <> [] /\
          s' = record
                 (EvLog INFO
                    "--------------------------------------------------")
                 (record (EvLog INFO "交易完成，退出程序") s2)
    | Break PriceFetchGaveUp => False
    | Break ManuallyInterrupted => True
    | Continue rc' =>
        rc' = 0 /\
        (leb p mp = true ->
         exists (o : option order) (s2 : state),
           SnipeBot.place_order w self (record (EvLog INFO "当前价格") s1)
           = (Ret o, s2) /\
           truthy_order o = false)
    end.
Proof.
  intros w self mp rc s s1 s' p c Hm G B. unfold bot_pass in B.
  destruct (leb p mp) eqn:Hle.
  - rewrite (pass_within_max_price w _ _ self rc s s1 p mp G Hm Hle) in B.
    pose proof (place_order_no_Exception w self
                  (record (EvLog INFO "当前价格") s1)) as NoP.
    destruct (SnipeBot.place_order w self
                (record (EvLog INFO "当前价格") s1))
      as [[o | [e |]] s2]; cbn [fst] in NoP; [| contradiction |].
    + cbn [finish_pass] in B. destruct (truthy_order o) eqn:T.
      * inversion B; subst. split; [reflexivity |].
        destruct (truthy_order_true o T) as (x & l & ->).
        exists (x :: l)%list, s2. repeat split. discriminate.
      * unfold sleep_then_continue, interrupted_pass in B.
        destruct (sleep_reply w _); inversion B; subst; [| exact I].
        split; [reflexivity |]. intros _. exists o, s2. auto.
    + cbn [finish_pass] in B. unfold interrupted_pass in B.
      inversion B; subst. exact I.
  - rewrite (pass_above_max_price w _ _ self rc s s1 p mp G Hm Hle) in B.
    unfold sleep_then_continue, interrupted_pass in B.
    destruct (sleep_reply w _); inversion B; subst; [| exact I].
    split; [reflexivity | discriminate].
Qed.

(** ** The three ways out of the loop *)

(** C5. [run] enters its loop with the count at zero, on the bot that
    its checks let through, whose [max_price] is set. Such a loop is left
    in three ways only. When it ends with an order, the price of its
    last pass was within [max_price] and [place_order] returned an order
    that is not [None] and not empty. When it ends by giving up, its last
    three passes followed one another, the first of them started with the
    count at zero, and the price request of each of the three returned
    [None]. When it ends as interrupted, a [KeyboardInterrupt] was raised
    inside the [try] block of its last pass. As long as none of the three
    happens the loop is still polling, and it never ends by raising: the
    methods of the bot catch what goes wrong inside them. Whatever the
    bot and the methods behind [self] are, any other exception raised
    inside the [try] block is logged, followed by a sleep of one second,
    and the loop goes on with the next pass and the same count; an
    interrupt during that sleep is the only exception that can leave the
    loop. *)
Theorem loop_ends_only_three_ways :
  forall w : world,
    (forall (self0 self : bot) (s s0 : state),
       validate w self0 s = (Ret (self, None), s0) ->
       (exists mp : float, max_price self = Some mp) /\
       forall fuel : nat,
         run_bot w fuel self0 s = run_ends (bot_loop w fuel self 0 s0)) /\
    (forall (self : bot) (mp : float) (s0 : state) (fuel : nat)
            (r : result (option loop_exit)) (s' : state),
       max_price self = Some mp ->
       bot_loop w fuel self 0 s0 = (r, s') ->
       match r with
       | Ret (Some OrderPlaced) =>
           exists (k rc : nat) (s : state) (p : float) (s1 : state)
                  (o : order) (s2 : state),
             k < fuel /\
             loop_is_at w self s0 k rc s /\
             SnipeBot.get_current_price w self s = (Ret (Some p), s1) /\
             leb p mp = true /\
             SnipeBot.place_order w self (record (EvLog INFO "当前价格") s1)
             = (Ret (Some o), s2) /\
             o <> [] /\
             s' = record
                    (EvLog INFO
                       "--------------------------------------------------")
                    (record (EvLog INFO "交易完成，退出程序") s2)
       | Ret (Some PriceFetchGaveUp) =>
           exists (k : nat) (sa sb sc : state),
             k + 3 <= fuel /\
             loop_is_at w self s0 k 0 sa /\
             fst (SnipeBot.get_current_price w self sa) = Ret None /\
             bot_pass w self 0 sa = (Ret (Continue 1), sb) /\
             fst (SnipeBot.get_current_price w self sb) = Ret None /\
             bot_pass w self 1 sb = (Ret (Continue 2), sc) /\
             fst (SnipeBot.get_current_price w self sc) = Ret None /\
             bot_pass w self 2 sc = (Ret (Break PriceFetchGaveUp), s')
       | Ret (Some ManuallyInterrupted) =>
           exists (k rc : nat) (s s1 : state),
             k < fuel /\
             loop_is_at w self s0 k rc s /\
             loop_body w (SnipeBot.get_current_price w)
               (SnipeBot.place_order w) self rc s
             = (Raise KeyboardInterrupt, s1) /\
             (Ret (Break ManuallyInterrupted), s') = interrupted_pass s1
       | Ret None => exists rc : nat, loop_is_at w self s0 fuel rc s'
       | Raise _ => False
       end) /\
    (forall (self : bot) (gcp : bot -> M (option float))
            (po : bot -> M (option order)),
       (forall (fuel retry_count : nat) (s s' : state)
               (r : result (option loop_exit)),
          polling_loop w gcp po fuel self retry_count s = (r, s') ->
          match r with
          | Ret (Some why) =>
              exists rc1 s1,
                loop_iteration w gcp po self rc1 s1 = (Ret (Break why), s')
          | Ret None => True
          | Raise e =>
              e = KeyboardInterrupt /\
              exists rc1 s1,
                loop_iteration w gcp po self rc1 s1 = (Raise e, s')
          end) /\
       (forall (retry_count : nat) (s s' : state) (why : loop_exit),
          loop_iteration w gcp po self retry_count s
          = (Ret (Break why), s') ->
          match why with
          | PriceFetchGaveUp =>
              max_retries <= S retry_count /\
              exists s1, gcp self s = (Ret None, s1)
          | OrderPlaced =>
              exists (p : float) (s1 : state) (o : order) (s2 : state),
                gcp self s = (Ret (Some p), s1) /\
                po self (record (EvLog INFO "当前价格") s1)
                = (Ret (Some o), s2) /\
                o <> []
          | ManuallyInterrupted =>
              exists s1,
                loop_body w gcp po self retry_count s
                = (Raise KeyboardInterrupt, s1)
          end) /\
       (forall (retry_count : nat) (s s' : state) (e : exn),
          loop_iteration w gcp po self retry_count s = (Raise e, s') ->
          e = KeyboardInterrupt /\
          exists c s1,
            loop_body w gcp po self retry_count s
            = (Raise (Exception c), s1) /\
            sleep_reply w (n_sleep s1) = Interrupted) /\
       (forall (retry_count : nat) (s s1 : state) (c : string),
          loop_body w gcp po self retry_count s
          = (Raise (Exception c), s1) ->
          loop_iteration w gcp po self retry_count s
          = logged_pass w retry_count s1 /\
          (sleep_reply w (n_sleep s1) = Slept ->
           loop_iteration w gcp po self retry_count s =
           (Ret (Continue retry_count),
            snd (time_sleep w 1 (record (EvLog ERROR "运行错误") s1))) /\
           trace (snd (loop_iteration w gcp po self retry_count s)) =
           (trace s1 ++ [EvLog ERROR "运行错误"; EvSleep 1])%list /\
           forall fuel : nat,
             polling_loop w gcp po (S fuel) self retry_count s =
             polling_loop w gcp po fuel self retry_count
               (snd (time_sleep w 1
                       (record (EvLog ERROR "运行错误") s1)))))).
Proof.
  intros w.
  refine (conj _ (conj _ _)).
  - intros self0 self s s0 V.
    split; [exact (validate_sets_a_limit w self0 self s s0 V) |].
    intros fuel. apply run_bot_loop. exact V.
  - intros self mp s0 fuel r s' Hm L.
    destruct r as [[[| |] |] | e].
    + destruct (gave_up_passes w self mp s0 fuel s' Hm L)
        as (k & sa & sb & sc & H1 & H2 & H3 & H4 & H5 & H6 & H7 & H8 & _).
      exists k, sa, sb, sc. auto 10.
    + destruct (bot_loop_last_pass w self s0 fuel s' OrderPlaced L)
        as (k & rc & s & Lt & At & B).
      pose proof B as B'. unfold bot_pass in B'.
      destruct (loop_iteration_break w _ _ self rc s s' OrderPlaced B')
        as (p & s1 & o & s2 & G & _).
      destruct (pass_with_a_price w self mp rc s s1 s' p
                  (Break OrderPlaced) Hm G B)
        as (Hle & o' & s2' & Po & Ne & E).
      exists k, rc, s, p, s1, o', s2'. auto 10.
    + destruct (bot_loop_last_pass w self s0 fuel s' ManuallyInterrupted L)
        as (k & rc & s & Lt & At & B).
      pose proof B as B'. unfold bot_pass in B'.
      destruct (loop_iteration_break w _ _ self rc s s'
                  ManuallyInterrupted B') as (s1 & Body).
      exists k, rc, s, s1. repeat split; auto.
      unfold loop_iteration in B'. rewrite Body in B'.
      unfold interrupted_pass. unfold_monad. cbn in B'.
      symmetry. exact B'.
    + destruct (bot_loop_passes w self s0 fuel [] 0 s0 s' (Ret None)
                  (passes_none w self s0) L) as (h1 & rc1 & P1 & Len).
      exists rc1. cbn in Len. rewrite <- Len.
      exact (passes_unroll w self s0 h1 rc1 s' P1).
    + destruct (bot_loop_passes w self s0 fuel [] 0 s0 s' (Raise e)
                  (passes_none w self s0) L) as (h1 & rc1 & s1 & _ & B).
      exact (bot_pass_raises_nothing w self mp rc1 s1 s' e Hm B).
  - intros self gcp po.
    refine (conj _ (conj _ (conj _ _))).
    + intros fuel rc s s' r H.
      pose proof (polling_loop_end w gcp po fuel self rc s s' r H) as E.
      destruct r as [[why |] | e]; auto.
      split; [| exact E].
      destruct E as (rc1 & s1 & E).
      apply (loop_iteration_raise w gcp po self rc1 s1 s' e E).
    + apply loop_iteration_break.
    + apply loop_iteration_raise.
    + intros rc s s1 c B.
      pose proof (loop_iteration_Exception w gcp po self rc s s1 c B) as E.
      split; [exact E |].
      intros Hs.
      assert (It : loop_iteration w gcp po self rc s =
                   (Ret (Continue rc),
                    snd (time_sleep w 1
                           (record (EvLog ERROR "运行错误") s1)))).
      { rewrite E. unfold logged_pass. rewrite Hs. reflexivity. }
      refine (conj It (conj _ _)).
      * rewrite It. cbn. rewrite <- app_assoc. reflexivity.
      * intros fuel. apply polling_loop_continue. exact It.
Qed.

(** In a quiet market the first pass places the order; with [max_price]
    unset the comparison raises [TypeError] pass after pass, and the loop
    logs, sleeps and goes on. *)
Lemma loop_ends_only_three_ways_witness :
  (exists (k rc : nat) (s : state) (p : float) (s1 : state) (o : order)
          (s2 : state),
     k < 1 /\
     loop_is_at (quiet_world 2950 1000) market_bot initial_state k rc s /\
     SnipeBot.get_current_price (quiet_world 2950 1000) market_bot s
     = (Ret (Some p), s1) /\
     leb p (of_N 3000) = true /\
     SnipeBot.place_order (quiet_world 2950 1000) market_bot
       (record (EvLog INFO "当前价格") s1) = (Ret (Some o), s2) /\
     o <> [] /\
     snd (bot_loop (quiet_world 2950 1000) 1 market_bot 0 initial_state)
     = record
         (EvLog INFO "--------------------------------------------------")
         (record (EvLog INFO "交易完成，退出程序") s2)) /\
  bot_pass (quiet_world 2950 1000) unlimited_bot 0 initial_state =
  logged_pass (quiet_world 2950 1000) 0
    (record (EvLog INFO "当前价格")
       (snd (SnipeBot.get_current_price (quiet_world 2950 1000)
               unlimited_bot initial_state))).
Proof.
  split.
  - exact (proj1 (proj2 (loop_ends_only_three_ways (quiet_world 2950 1000)))
             market_bot (of_N 3000) initial_state
             1 (Ret (Some OrderPlaced))
             (snd (bot_loop (quiet_world 2950 1000) 1 market_bot 0
                     initial_state))
             eq_refl eq_refl).
  - exact (proj1 (proj2 (proj2 (proj2
             (proj2 (proj2
                       (loop_ends_only_three_ways (quiet_world 2950 1000)))
                unlimited_bot
                (SnipeBot.get_current_price (quiet_world 2950 1000))
                (SnipeBot.place_order (quiet_world 2950 1000)))))
             0 initial_state
             (record (EvLog INFO "当前价格")
                (snd (SnipeBot.get_current_price (quiet_world 2950 1000)
                        unlimited_bot initial_state)))
             "TypeError" eq_refl)).
Defined.

(** The three ways out, and the way on, on whole runs. *)
Example run_exits :
  fst (run_bot (quiet_world 2950 1000) 9 market_bot initial_state)
  = Ret (Exited OrderPlaced) /\
  fst (run_bot offline_world 9 market_bot initial_state)
  = Ret (Exited PriceFetchGaveUp) /\
  fst (run_bot interrupted_world 9 market_bot initial_state)
  = Ret (Exited ManuallyInterrupted) /\
  fst (run_bot (quiet_world 3950 1000) 9 market_bot initial_state)
  = Ret StillPolling.
Proof. vm_compute. auto. Qed.

(** ** Three failed price requests in a row *)

(** C3. [run] enters its loop with the count at zero, on the bot that
    its checks let through, whose [max_price] is set. The loop ends by
    giving up exactly when the price request returns [None] in three
    passes that follow one another. If it gave up, its last three passes
    followed one another, the first of them started with the count at
    zero, the price request of each returned [None], and the three
    together sent three price requests, no balance request and no order.
    And whenever the loop makes three passes in a row whose price request
    returns [None], the third logs the failure and ends the loop, however
    many passes more it was granted. The count is carried from pass to
    pass: a pass that goes on after a price hands on a count of zero,
    [place_order], if it was called, having returned no order; a pass
    that goes on after a failed request hands on the count plus one,
    which is below 3. *)
Theorem gives_up_after_three_failed_fetches :
  forall (w : world) (self : bot) (mp : float) (s0 : state),
    max_price self = Some mp ->
    (forall (self0 self1 : bot) (s s1 : state),
       validate w self0 s = (Ret (self1, None), s1) ->
       (exists mp1 : float, max_price self1 = Some mp1) /\
       forall fuel : nat,
         run_bot w fuel self0 s = run_ends (bot_loop w fuel self1 0 s1)) /\
    loop_is_at w self s0 0 0 s0 /\
    (forall (fuel : nat) (s' : state),
       bot_loop w fuel self 0 s0 = (Ret (Some PriceFetchGaveUp), s') ->
       exists (k : nat) (sa sb sc : state),
         k + 3 <= fuel /\
         loop_is_at w self s0 k 0 sa /\
         fst (SnipeBot.get_current_price w self sa) = Ret None /\
         bot_pass w self 0 sa = (Ret (Continue 1), sb) /\
         fst (SnipeBot.get_current_price w self sb) = Ret None /\
         bot_pass w self 1 sb = (Ret (Continue 2), sc) /\
         fst (SnipeBot.get_current_price w self sc) = Ret None /\
         bot_pass w self 2 sc = (Ret (Break PriceFetchGaveUp), s') /\
         n_fetch_ticker s' = 3 + n_fetch_ticker sa /\
         n_fetch_balance s' = n_fetch_balance sa /\
         n_orders s' = n_orders sa /\
         order_calls (trace s') = order_calls (trace sa)) /\
    (forall (k rc rb rcc : nat) (sa sb sc : state),
       loop_is_at w self s0 k rc sa ->
       fst (SnipeBot.get_current_price w self sa) = Ret None ->
       bot_pass w self rc sa = (Ret (Continue rb), sb) ->
       fst (SnipeBot.get_current_price w self sb) = Ret None ->
       bot_pass w self rb sb = (Ret (Continue rcc), sc) ->
       fst (SnipeBot.get_current_price w self sc) = Ret None ->
       forall n : nat,
         bot_loop w (k + 3 + n) self 0 s0 =
         (Ret (Some PriceFetchGaveUp),
          record (EvLog ERROR "连续获取价格失败，程序退出")
            (snd (SnipeBot.get_current_price w self sc)))) /\
    (forall (k rc rc' : nat) (s s' : state),
       loop_is_at w self s0 k rc s ->
       bot_pass w self rc s = (Ret (Continue rc'), s') ->
       loop_is_at w self s0 (k + 1) rc' s' /\
       (forall (p : float) (s1 : state),
          SnipeBot.get_current_price w self s = (Ret (Some p), s1) ->
          rc' = 0 /\
          (leb p mp = true ->
           exists (o : option order) (s2 : state),
             SnipeBot.place_order w self
               (record (EvLog INFO "当前价格") s1) = (Ret o, s2) /\
             truthy_order o = false)) /\
       (fst (SnipeBot.get_current_price w self s) = Ret None ->
        rc' = S rc /\ rc' < max_retries)).
Proof.
  intros w self mp s0 Hm.
  refine (conj _ (conj _ (conj _ (conj _ _)))).
  - intros self0 self1 s s1 V.
    split; [exact (validate_sets_a_limit w self0 self1 s s1 V) |].
    intros fuel. apply run_bot_loop. exact V.
  - intros n. reflexivity.
  - intros fuel s' L. exact (gave_up_passes w self mp s0 fuel s' Hm L).
  - intros k rc rb rcc sa sb sc.
    exact (three_failed_passes w self s0 k rc rb rcc sa sb sc).
  - intros k rc rc' s s' At B.
    refine (conj (loop_is_at_next w self s0 k rc rc' s s' At B)
              (conj _ _)).
    + intros p s1 G.
      exact (pass_with_a_price w self mp rc s s1 s' p (Continue rc')
               Hm G B).
    + intros F.
      destruct (failed_pass_continue w self rc rc' s s' F B) as (E & L).
      subst rc'. auto.
Qed.

(** With the network down [run] lets the sample bot through, and its
    loop gives up in the third pass, whatever it is granted beyond. *)
Lemma gives_up_after_three_failed_fetches_witness :
  (forall fuel : nat,
     run_bot offline_world fuel market_bot initial_state
     = run_ends
         (bot_loop offline_world fuel market_bot 0
            (snd (validate offline_world market_bot initial_state)))) /\
  bot_loop offline_world (0 + 3 + 6) market_bot 0
    (snd (validate offline_world market_bot initial_state)) =
  (Ret (Some PriceFetchGaveUp),
   record (EvLog ERROR "连续获取价格失败，程序退出")
     (snd (SnipeBot.get_current_price offline_world market_bot
             (snd (bot_pass offline_world market_bot 1
                     (snd (bot_pass offline_world market_bot 0
                             (snd (validate offline_world market_bot
                                     initial_state))))))))).
Proof.
  pose proof (gives_up_after_three_failed_fetches offline_world market_bot
                (of_N 3000)
                (snd (validate offline_world market_bot initial_state))
                eq_refl) as (Run & At & _ & Up & _).
  split.
  - exact (proj2 (Run market_bot market_bot initial_state
                    (snd (validate offline_world market_bot initial_state))
                    eq_refl)).
  - exact (Up 0 0 1 2
             (snd (validate offline_world market_bot initial_state))
             (snd (bot_pass offline_world market_bot 0
                     (snd (validate offline_world market_bot
                             initial_state))))
             (snd (bot_pass offline_world market_bot 1
                     (snd (bot_pass offline_world market_bot 0
                             (snd (validate offline_world market_bot
                                     initial_state))))))
             At eq_refl eq_refl eq_refl eq_refl eq_refl 6).
Defined.

(** Two failures, a price, then three failures: the count starts again
    after the price, and [run] gives up at the sixth request, not at the
    fourth. *)
Example count_starts_again_after_a_price :
  fst (run_bot flaky_world 9 market_bot initial_state)
  = Ret (Exited PriceFetchGaveUp) /\
  n_fetch_ticker (snd (run_bot flaky_world 9 market_bot initial_state)) = 6
  /\
  order_calls (trace (snd (run_bot flaky_world 9 market_bot initial_state)))
  = [].
Proof. vm_compute. auto. Qed.

(** An order that the exchange answers with an empty dictionary counts
    as failed: the call went out in the first pass, the loop goes on,
    and the three passes that follow fail and end it. *)
Example gives_up_after_an_unanswered_order :
  fst (run_bot unanswered_world 9 market_bot initial_state)
  = Ret (Exited PriceFetchGaveUp) /\
  n_fetch_ticker (snd (run_bot unanswered_world 9 market_bot initial_state))
  = 5 /\
  order_calls
    (trace (snd (run_bot unanswered_world 9 market_bot initial_state)))
  = [EvCreateMarketBuyOrder (Some "ETH/USDT") (of_ratio false 339 10000)].
Proof. vm_compute. auto. Qed.

(* ================================================================== *)
(** * Further properties of the methods and of [run] *)
(* ================================================================== *)

(** ** [get_current_price] *)

(** X1. [get_current_price] sends exactly one price request, for the
    symbol of the bot. It returns the price exactly when the ticker
    carries a float under ['last']; it returns [None] exactly when the
    request raises an [Exception], when the ticker has no ['last'] key, or
    when ['last'] is [None] (in that last case without logging anything);
    it raises exactly when the request is cut by a [KeyboardInterrupt]. *)
Theorem get_current_price_outcomes :
  forall (w : world) (self : bot) (s : state),
    (forall p : float,
       fst (SnipeBot.get_current_price w self s) = Ret (Some p) <->
       exists t, fetch_ticker_reply w (n_fetch_ticker s) = Ret t /\
                 ticker_last t = Val p) /\
    (fst (SnipeBot.get_current_price w self s) = Ret None <->
     (exists c,
        fetch_ticker_reply w (n_fetch_ticker s) = Raise (Exception c)) \/
     (exists t, fetch_ticker_reply w (n_fetch_ticker s) = Ret t /\
                (ticker_last t = Absent \/ ticker_last t = Null))) /\
    (forall e : exn,
       fst (SnipeBot.get_current_price w self s) = Raise e <->
       e = KeyboardInterrupt /\
       fetch_ticker_reply w (n_fetch_ticker s) = Raise KeyboardInterrupt) /\
    n_fetch_ticker (snd (SnipeBot.get_current_price w self s))
    = S (n_fetch_ticker s) /\
    polls (trace (snd (SnipeBot.get_current_price w self s)))
    = (polls (trace s) ++ [EvFetchTicker (target_symbol self)])%list /\
    (forall t, fetch_ticker_reply w (n_fetch_ticker s) = Ret t ->
               ticker_last t = Null ->
               trace (snd (SnipeBot.get_current_price w self s))
               = (trace s ++ [EvFetchTicker (target_symbol self)])%list).
Proof.
  intros w self s.
  unfold SnipeBot.get_current_price, SnipeBot.get_current_price_try,
    fetch_ticker.
  unfold_monad. cbn.
  destruct (fetch_ticker_reply w (n_fetch_ticker s))
    as [[[| | p0]] | [c |]] eqn:R; cbn.
  all: unfold polls; cbn; repeat rewrite filter_app; cbn;
    repeat rewrite app_nil_r.
  all: refine (conj _ (conj _ (conj _ (conj eq_refl (conj eq_refl _))))).
  all: try (intros p; split;
            [ intros H; try discriminate H; inversion H; subst;
              eexists; split; reflexivity
            | intros (t & Ht & Hl); try discriminate Ht;
              inversion Ht; subst; cbn in Hl; try discriminate Hl;
              inversion Hl; reflexivity ]).
  all: try (split;
            [ intros H; try discriminate H;
              first [ left; eexists; reflexivity
                    | right; eexists; split; [reflexivity | cbn; auto] ]
            | intros [(c' & Hc) | (t & Ht & [Hl | Hl])];
              try discriminate Hc; try discriminate Ht;
              try reflexivity;
              inversion Ht; subst; cbn in Hl; discriminate Hl ]).
  all: try (intros e; split;
            [ intros H; try discriminate H; inversion H; auto
            | intros (He & Hr); try discriminate Hr; subst; reflexivity ]).
  all: try (intros t Ht Hl; inversion Ht; subst; cbn in Hl;
            try discriminate Hl; try discriminate Ht; reflexivity).
Qed.

(** ** [check_balance] *)

(** X2. [check_balance] returns [True] exactly when the balance request
    returns, the symbol has a quote currency after its first slash, the
    balance lists that currency with a float under ['free'],
    [quote_amount] is set, and [quote_amount <= free]. In every other
    case it returns [False], unless the request is cut by a
    [KeyboardInterrupt], which it raises. *)
Theorem check_balance_true_iff :
  forall (w : world) (self : bot) (s : state),
    (fst (SnipeBot.check_balance w self s) = Ret true <->
     exists (b : balance) (currency : string) (a : account)
            (free q : float),
       fetch_balance_reply w (n_fetch_balance s) = Ret b /\
       quote_currency_of (target_symbol self) = Ret currency /\
       balance_item b currency = Ret a /\
       account_free a = Val free /\
       quote_amount self = Some q /\
       leb q free = true) /\
    (fst (SnipeBot.check_balance w self s) = Ret true \/
     fst (SnipeBot.check_balance w self s) = Ret false \/
     (fst (SnipeBot.check_balance w self s) = Raise KeyboardInterrupt /\
      fetch_balance_reply w (n_fetch_balance s) = Raise KeyboardInterrupt)).
Proof.
  intros w self s.
  unfold SnipeBot.check_balance, SnipeBot.check_balance_try, fetch_balance.
  unfold_monad. cbn -[nth_error split assoc].
  destruct (fetch_balance_reply w (n_fetch_balance s)) as [b | [c |]] eqn:R;
    cbn -[nth_error split assoc].
  2: { split; [| auto]. split; [discriminate |].
       intros (b & cur & a & f & q & H & _). discriminate H. }
  2: { split; [| auto]. split; [discriminate |].
       intros (b & cur & a & f & q & H & _). discriminate H. }
  unfold quote_currency_of, balance_item.
  destruct (target_symbol self) as [sym |]; cbn -[nth_error split assoc].
  2: { split; [| auto]. split; [discriminate |].
       intros (b' & cur & a & f & q & _ & H & _). discriminate H. }
  destruct (nth_error (split "/" sym) 1) as [cur |]; cbn -[nth_error split assoc].
  2: { split; [| auto]. split; [discriminate |].
       intros (b' & cur & a & f & q & _ & H & _). discriminate H. }
  destruct (assoc cur b) as [a |] eqn:A; cbn -[nth_error split assoc].
  2: { split; [| auto]. split; [discriminate |].
       intros (b' & cur' & a & f & q & Hb & Hc & Ha & _).
       inversion Hb; inversion Hc; subst. rewrite A in Ha. discriminate Ha. }
  destruct (account_free a) as [| | f] eqn:F; cbn -[nth_error split assoc].
  1, 2: split; [| auto]; split; [discriminate |];
    intros (b' & cur' & a' & f' & q & Hb & Hc & Ha & Hf & _);
    inversion Hb; inversion Hc; subst; rewrite A in Ha; inversion Ha;
    subst; rewrite F in Hf; discriminate Hf.
  destruct (quote_amount self) as [q |] eqn:Q; cbn -[nth_error split assoc].
  2: { split; [| auto]. split; [discriminate |].
       intros (b' & cur' & a' & f' & q & _ & _ & _ & _ & H & _).
       discriminate H. }
  destruct (leb q f) eqn:L.
  - split; [| auto]. split; [| reflexivity].
    intros _. exists b, cur, a, f, q. repeat split; auto.
    rewrite A. reflexivity.
  - split; [| auto]. split; [discriminate |].
    intros (b' & cur' & a' & f' & q' & Hb & Hc & Ha & Hf & Hq & Hl).
    inversion Hb; inversion Hc; subst. rewrite A in Ha. inversion Ha; subst.
    rewrite F in Hf. inversion Hf; subst. inversion Hq; subst.
    rewrite L in Hl. discriminate Hl.
Qed.

(** ** [calculate_buy_amount] *)

Lemma limits_min_raises :
  forall (m : market) (which : limits -> entry range) (default : float)
         (e : exn),
    limits_min m which default = Raise e -> e = AttributeError.
Proof.
  intros m which default e H. unfold limits_min in H.
  destruct (dict_get (market_limits m) empty_limits) as [l |];
    [destruct (dict_get (which l) empty_range) |]; congruence.
Qed.

(** X3. Take a bot whose symbol is a key of the loaded markets.
    [calculate_buy_amount(price)] sends nothing to the exchange and never
    raises. It returns a float exactly when [quote_amount] is set, the
    price is a float other than zero (negative prices included) and the
    minimum amount of the market is a number (0.01 when the market states
    none); the float is then [max(quote_amount / price, minimum)] read
    back from four decimals. In every other case it logs an error and
    returns [None]. *)
Theorem calculate_buy_amount_outcomes :
  forall (w : world) (self : bot) (price : option float) (s : state),
    in_markets w (target_symbol self) = true ->
    (exists m : market,
       exchange_market w (target_symbol self) = Ret m /\
       forall r : float,
         fst (SnipeBot.calculate_buy_amount w self price s) = Ret (Some r)
         <->
         exists (q p a : float),
           quote_amount self = Some q /\
           price = Some p /\
           eqb p pos_zero = false /\
           limits_min m limits_amount f0_01 = Ret (Some a) /\
           r = of_fixed4 (format_4f (max (div q p) a))) /\
    (SnipeBot.calculate_buy_amount w self price s =
       (Ret None, record (EvLog ERROR "计算买入数量失败") s) \/
     exists r : float,
       SnipeBot.calculate_buy_amount w self price s =
       (Ret (Some r), record (EvLog INFO "计算入数量") s)).
Proof.
  intros w self price s In.
  assert (EM : exists m, exchange_market w (target_symbol self) = Ret m).
  { unfold in_markets in In. unfold exchange_market.
    destruct (target_symbol self) as [sym |]; [| discriminate In].
    destruct (assoc sym (markets w)) as [m |]; [| discriminate In].
    now exists m. }
  destruct EM as (m & EM).
  unfold SnipeBot.calculate_buy_amount, SnipeBot.calculate_buy_amount_try.
  unfold_monad. unfold py_truediv, py_max. rewrite EM.
  split; [exists m; split; [reflexivity |] |].
  - intros r.
    destruct (quote_amount self) as [q |] eqn:Q;
      [destruct price as [p |];
       [destruct (eqb p pos_zero) eqn:Z;
        [| destruct (limits_min m limits_amount f0_01)
             as [[a |] | e] eqn:LM] |] |];
      cbn.
    all: try match goal with
             | H : limits_min _ _ _ = Raise ?e |- _ =>
                 rewrite (limits_min_raises _ _ _ _ H); cbn
             end.
    all: split;
      [ intros H; try discriminate H; inversion H; subst;
        exists q, p, a; repeat split; auto
      | intros (q' & p' & a' & H1 & H2 & H3 & H4 & H5);
        try congruence ].
  - destruct (quote_amount self) as [q |] eqn:Q;
      [destruct price as [p |];
       [destruct (eqb p pos_zero) eqn:Z;
        [| destruct (limits_min m limits_amount f0_01)
             as [[a |] | e] eqn:LM] |] |];
      cbn.
    all: try match goal with
             | H : limits_min _ _ _ = Raise ?e |- _ =>
                 rewrite (limits_min_raises _ _ _ _ H); cbn
             end.
    all: first [left; reflexivity | right; eexists; reflexivity].
Qed.

(** 100 USDT at 3000 in the sample market, whose minimum is 0.0001. *)
Lemma calculate_buy_amount_outcomes_witness :
  in_markets (quiet_world 2950 1000) (target_symbol market_bot) = true /\
  (SnipeBot.calculate_buy_amount (quiet_world 2950 1000) market_bot
     (Some (of_N 3000)) initial_state =
   (Ret None, record (EvLog ERROR "计算买入数量失败") initial_state) \/
   exists r : float,
     SnipeBot.calculate_buy_amount (quiet_world 2950 1000) market_bot
       (Some (of_N 3000)) initial_state =
     (Ret (Some r), record (EvLog INFO "计算入数量") initial_state)).
Proof.
  split; [reflexivity |].
  exact (proj2 (calculate_buy_amount_outcomes (quiet_world 2950 1000)
                  market_bot (Some (of_N 3000)) initial_state eq_refl)).
Defined.

(** A falling price is no special case: the quotient is negative and
    the minimum of the market is what comes back. *)
Example calculate_buy_amount_negative_price :
  fst (SnipeBot.calculate_buy_amount (quiet_world 2950 1000) market_bot
         (Some (of_ratio true 3000 1)) initial_state) = Ret (Some f0_0001).
Proof. reflexivity. Qed.

(** ** [place_order] *)

Ltac break_matches_folded :=
  repeat (break_match;
          cbn -[exchange_market limits_min quote_currency_of balance_item
                getitem assoc split nth_error String.eqb]).

Ltac unfold_place_order :=
  unfold SnipeBot.place_order, SnipeBot.place_order_try,
    SnipeBot.check_balance, SnipeBot.check_balance_try,
    SnipeBot.get_current_price, SnipeBot.get_current_price_try,
    SnipeBot.calculate_buy_amount, SnipeBot.calculate_buy_amount_try,
    fetch_balance, fetch_ticker, create_market_buy_order,
    create_limit_buy_order;
  unfold_monad;
  cbn -[exchange_market limits_min quote_currency_of balance_item
        getitem assoc split nth_error String.eqb].

(** X4. One call of [place_order] sends at most one order to the
    exchange. When it sends one, the symbol is [target_symbol], the call
    is [create_market_buy_order] for the order type ['market'] and
    [create_limit_buy_order] at [limit_price] for every other order type,
    and the amount is not below the minimum amount of the market (0.0001
    when the market states none). When it sends none, it does not return
    an order. *)
Theorem place_order_sends_at_most_one_order :
  forall (w : world) (self : bot) (s : state),
    (order_calls (trace (snd (SnipeBot.place_order w self s)))
     = order_calls (trace s) /\
     n_orders (snd (SnipeBot.place_order w self s)) = n_orders s /\
     forall o, fst (SnipeBot.place_order w self s) <> Ret (Some o)) \/
    (exists (a : float) (mk : market) (m : float),
       exchange_market w (target_symbol self) = Ret mk /\
       limits_min mk limits_amount f0_0001 = Ret (Some m) /\
       ltb a m = false /\
       order_calls (trace (snd (SnipeBot.place_order w self s)))
       = (order_calls (trace s) ++
          [if String.eqb (order_type self) "market"
           then EvCreateMarketBuyOrder (target_symbol self) a
           else EvCreateLimitBuyOrder (target_symbol self) a
                  (limit_price self)])%list /\
       n_orders (snd (SnipeBot.place_order w self s)) = S (n_orders s)).
Proof.
  intros w self s. unfold_place_order.
  break_matches_folded.
  all: first
         [ solve
             [ left; split; [frame_simpl |];
               split; [unfold n_orders; cbn; lia
                      | intros o H; discriminate H] ]
         | right; do 3 eexists;
           split; [reflexivity |];
           split; [eassumption |];
           split; [eassumption |];
           split; [frame_simpl | unfold n_orders; cbn; lia] ].
Qed.

Ltac rewrite_replies :=
  repeat match goal with
         | H : ?l = _ |- context [?l] =>
             rewrite H;
             cbn -[exchange_market limits_min quote_currency_of
                   balance_item assoc split nth_error]
         end.

(** X5. The price that sizes a market order is not the price the loop
    compared with [max_price]. In a pass whose price request returns
    [p1 <= max_price], [place_order] asks for the price again, and
    whatever non-zero price [p2] comes back -- above [max_price] or not --
    the market order goes out for [max(quote_amount / p2, minimum)] at
    four decimals, provided the balance suffices and that amount is not
    below the minimum of the market. [max_price] is never compared with
    [p2]. *)
Theorem market_order_is_sized_at_the_second_price :
  forall (w : world) (self : bot) (retry_count : nat) (s : state)
         (t1 t2 : ticker) (p1 p2 mp q free m m' : float) (b : balance)
         (currency : string) (acct : account) (mk : market),
    order_type self = "market" ->
    max_price self = Some mp ->
    quote_amount self = Some q ->
    fetch_ticker_reply w (n_fetch_ticker s) = Ret t1 ->
    ticker_last t1 = Val p1 ->
    leb p1 mp = true ->
    fetch_balance_reply w (n_fetch_balance s) = Ret b ->
    quote_currency_of (target_symbol self) = Ret currency ->
    balance_item b currency = Ret acct ->
    account_free acct = Val free ->
    leb q free = true ->
    fetch_ticker_reply w (S (n_fetch_ticker s)) = Ret t2 ->
    ticker_last t2 = Val p2 ->
    eqb p2 pos_zero = false ->
    exchange_market w (target_symbol self) = Ret mk ->
    limits_min mk limits_amount f0_01 = Ret (Some m) ->
    limits_min mk limits_amount f0_0001 = Ret (Some m') ->
    ltb (of_fixed4 (format_4f (max (div q p2) m))) m' = false ->
    order_calls (trace (snd (bot_pass w self retry_count s)))
    = (order_calls (trace s) ++
       [EvCreateMarketBuyOrder (target_symbol self)
          (of_fixed4 (format_4f (max (div q p2) m)))])%list /\
    (forall (x : string * string) (o : order),
       create_market_buy_order_reply w (n_market_buy s) = Ret (x :: o) ->
       fst (bot_pass w self retry_count s) = Ret (Break OrderPlaced)).
Proof.
  intros w self rc s t1 t2 p1 p2 mp q free m m' b currency acct mk
    Ho Hmp Hq Ht1 Hl1 Hle Hb Hc Ha Hf Hfree Ht2 Hl2 Hz Hmk Hm Hm' Hlt.
  unfold bot_pass, loop_iteration, loop_body.
  unfold SnipeBot.place_order, SnipeBot.place_order_try,
    SnipeBot.check_balance, SnipeBot.check_balance_try,
    SnipeBot.get_current_price, SnipeBot.get_current_price_try,
    SnipeBot.calculate_buy_amount, SnipeBot.calculate_buy_amount_try,
    fetch_balance, fetch_ticker, create_market_buy_order, time_sleep.
  unfold_monad.
  cbn -[exchange_market limits_min quote_currency_of balance_item assoc
        split nth_error].
  rewrite_replies.
  split.
  - destruct (create_market_buy_order_reply w (n_market_buy s))
      as [[| x o] | [c |]];
      cbn -[exchange_market limits_min quote_currency_of balance_item
            assoc split nth_error];
      try destruct (sleep_reply w (n_sleep s));
      frame_simpl.
  - intros x o Hr. rewrite Hr. reflexivity.
Qed.

(** 2950 against a limit of 3000 when the loop asks, 5000 when
    [place_order] asks: the order is sized at 5000. *)
Lemma market_order_is_sized_at_the_second_price_witness :
  leb (of_N 5000) (of_N 3000) = false /\
  order_calls (trace (snd (bot_pass slipping_world market_bot 0
                             initial_state)))
  = [EvCreateMarketBuyOrder (Some "ETH/USDT")
       (of_fixed4 (format_4f (max (div (of_N 100) (of_N 5000)) f0_0001)))]
  /\
  fst (bot_pass slipping_world market_bot 0 initial_state)
  = Ret (Break OrderPlaced).
Proof.
  split; [reflexivity |].
  pose proof (market_order_is_sized_at_the_second_price
                slipping_world market_bot 0 initial_state
                {| ticker_last := Val (of_N 2950) |}
                {| ticker_last := Val (of_N 5000) |}
                (of_N 2950) (of_N 5000) (of_N 3000) (of_N 100)
                (of_N 1000) f0_0001 f0_0001 (usdt 1000) "USDT"
                {| account_free := Val (of_N 1000) |}
                (eth_market (Val f0_0001) (Val (of_N 1)))
                eq_refl eq_refl eq_refl eq_refl eq_refl eq_refl eq_refl
                eq_refl eq_refl eq_refl eq_refl eq_refl eq_refl eq_refl
                eq_refl eq_refl eq_refl eq_refl) as (Sent & Placed).
  split; [exact Sent |].
  exact (Placed ("id", "1") [] eq_refl).
Defined.

(** The helpers that make no request cannot be cut by an interrupt. *)
Ltac pure_interrupt :=
  match goal with
  | H : py_ge ?a ?b = Raise KeyboardInterrupt |- _ =>
      destruct a, b; cbn in H; discriminate H
  | H : getitem ?e = Raise KeyboardInterrupt |- _ =>
      destruct e; cbn in H; discriminate H
  | H : balance_item ?b ?c = Raise KeyboardInterrupt |- _ =>
      unfold balance_item in H; destruct (assoc c b); discriminate H
  | H : quote_currency_of ?x = Raise KeyboardInterrupt |- _ =>
      unfold quote_currency_of in H;
      destruct x; [destruct (nth_error _ 1) |]; discriminate H
  end.

(** X6. With an order type other than ['market'], whatever its spelling,
    and [limit_price] unset or zero, [place_order] requests no price and
    the computation of the amount fails: no order is sent and
    [place_order] returns [None] (or raises the [KeyboardInterrupt] that
    cut the balance request). *)
Theorem unpriced_limit_order_is_never_sent :
  forall (w : world) (self : bot) (s : state),
    order_type self <> "market" ->
    truthy_float (limit_price self) = false ->
    order_calls (trace (snd (SnipeBot.place_order w self s)))
    = order_calls (trace s) /\
    n_orders (snd (SnipeBot.place_order w self s)) = n_orders s /\
    n_fetch_ticker (snd (SnipeBot.place_order w self s)) = n_fetch_ticker s
    /\
    (fst (SnipeBot.place_order w self s) = Ret None \/
     fst (SnipeBot.place_order w self s) = Raise KeyboardInterrupt /\
     fetch_balance_reply w (n_fetch_balance s) = Raise KeyboardInterrupt).
Proof.
  intros w self s Ho Hl.
  apply String.eqb_neq in Ho.
  unfold SnipeBot.place_order, SnipeBot.place_order_try,
    SnipeBot.check_balance, SnipeBot.check_balance_try,
    SnipeBot.calculate_buy_amount, SnipeBot.calculate_buy_amount_try,
    fetch_balance, create_limit_buy_order.
  unfold_monad. rewrite Ho. unfold py_truediv.
  assert (D : match quote_amount self with
              | Some x =>
                  match limit_price self with
                  | Some y =>
                      if eqb y pos_zero then Raise ZeroDivisionError
                      else Ret (div x y)
                  | None => Raise TypeError
                  end
              | None => Raise TypeError
              end = Raise TypeError \/
              match quote_amount self with
              | Some x =>
                  match limit_price self with
                  | Some y =>
                      if eqb y pos_zero then Raise ZeroDivisionError
                      else Ret (div x y)
                  | None => Raise TypeError
                  end
              | None => Raise TypeError
              end = Raise ZeroDivisionError).
  { destruct (quote_amount self); [| auto].
    destruct (limit_price self) as [lp |]; [| auto].
    cbn in Hl. unfold truthy in Hl. apply negb_false_iff in Hl.
    rewrite Hl. auto. }
  unfold n_orders.
  destruct D as [D | D]; rewrite D; cbn;
    break_matches;
    (split; [frame_simpl | split; [cbn; lia | split; [reflexivity |]]]);
    auto; exfalso; pure_interrupt.
Qed.

(** The misspelt order type ['Market'] with no limit price: nothing is
    ever sent. *)
Lemma unpriced_limit_order_is_never_sent_witness :
  fst (SnipeBot.place_order (quiet_world 2950 1000) misspelt_bot
         initial_state) = Ret None /\
  order_calls
    (trace (snd (SnipeBot.place_order (quiet_world 2950 1000) misspelt_bot
                   initial_state))) = [].
Proof.
  destruct (unpriced_limit_order_is_never_sent (quiet_world 2950 1000)
              misspelt_bot initial_state)
    as (Sent & _ & _ & _).
  - discriminate.
  - reflexivity.
  - split; [reflexivity | exact Sent].
Defined.

(** ** [run] *)

(** X7. [run] never raises an [Exception]. It ends in its outer handler,
    logging an initialisation error, exactly when one of the steps before
    the loop raised an [Exception] (the reload of the markets, or the
    look-up of the limits of the market): an error inside the polling
    loop never gets there. The only thing [run] can raise is a
    [KeyboardInterrupt]. *)
Theorem run_reports_only_validation_errors :
  forall (w : world) (gcp : bot -> M (option float))
         (po : bot -> M (option order)) (fuel : nat) (self : bot)
         (s : state),
    no_Exception (fst (run w gcp po fuel self s)) /\
    (forall (c : string) (s' : state),
       run w gcp po fuel self s = (Ret (InitError c), s') <->
       exists s1,
         validate w self s = (Raise (Exception c), s1) /\
         s' = record
                (EvLog INFO
                   "--------------------------------------------------")
                (record (EvLog ERROR "程序初始化错误") s1)) /\
    (forall (e : exn) (s' : state),
       run w gcp po fuel self s = (Raise e, s') -> e = KeyboardInterrupt).
Proof.
  intros w gcp po fuel self s.
  unfold run, try_except, bind.
  destruct (validate w self s) as [[[b [why |]] | [c |]] s1] eqn:V.
  - cbn. split; [exact I |]. split.
    + intros c s'. split; [discriminate |].
      intros (s2 & H & _). discriminate H.
    + intros e s' H. discriminate H.
  - destruct (polling_loop w gcp po fuel b 0 s1) as [[[why |] | e] s2] eqn:L.
    + cbn. split; [exact I |]. split.
      * intros c s'. split; [discriminate |].
        intros (s3 & H & _). discriminate H.
      * intros e s' H. discriminate H.
    + cbn. split; [exact I |]. split.
      * intros c s'. split; [discriminate |].
        intros (s3 & H & _). discriminate H.
      * intros e s' H. discriminate H.
    + pose proof (polling_loop_end w gcp po fuel b 0 s1 s2 (Raise e) L)
        as (rc0 & s0 & It).
      destruct (loop_iteration_raise w gcp po b rc0 s0 s2 e It) as (E & _).
      subst e. cbn. split; [exact I |]. split.
      * intros c s'. split; [discriminate |].
        intros (s3 & H & _). discriminate H.
      * intros e s' H. inversion H. reflexivity.
  - cbn. split; [exact I |]. split.
    + intros c' s'. split.
      * intros H. inversion H; subst. exists s1. auto.
      * intros (s2 & H & E). inversion H; subst. reflexivity.
    + intros e s' H. discriminate H.
  - cbn. split; [exact I |]. split.
    + intros c s'. split; [discriminate |].
      intros (s2 & H & _). discriminate H.
    + intros e s' H. inversion H. reflexivity.
Qed.

(** A market whose limits carry [None] under ['amount'] makes the look-up
    of the minimum amount raise: [run] logs the initialisation error and
    returns without polling. *)
Example run_with_broken_limits :
  fst (run_bot
         {| markets :=
              [ ("ETH/USDT",
                 {| market_limits :=
                      Val {| limits_amount := Null;
                             limits_cost := Val {| range_min := Null |} |}
                 |}) ];
            setup_logger_reply := Ret tt;
            connect_reply := Ret tt;
            load_markets_reply := fun _ => Ret tt;
            fetch_ticker_reply :=
              fun _ => Ret {| ticker_last := Val (of_N 2950) |};
            fetch_balance_reply := fun _ => Ret (usdt 1000);
            create_market_buy_order_reply := fun _ => Ret filled;
            create_limit_buy_order_reply := fun _ => Ret filled;
            sleep_reply := fun _ => Slept |}
         5 market_bot initial_state)
  = Ret (InitError "AttributeError").
Proof. reflexivity. Qed.

(** ** The pace of the loop *)

Lemma place_order_counts :
  forall (w : world) (self : bot) (s : state),
    n_fetch_ticker s <= n_fetch_ticker (snd (SnipeBot.place_order w self s))
    /\
    n_fetch_ticker (snd (SnipeBot.place_order w self s))
    <= S (n_fetch_ticker s) /\
    n_orders s <= n_orders (snd (SnipeBot.place_order w self s)) /\
    n_orders (snd (SnipeBot.place_order w self s)) <= S (n_orders s) /\
    n_sleep (snd (SnipeBot.place_order w self s)) = n_sleep s /\
    n_fetch_balance (snd (SnipeBot.place_order w self s))
    = S (n_fetch_balance s).
Proof.
  intros w self s. unfold_place_order. unfold n_orders.
  break_matches_folded; cbn; lia.
Qed.

Lemma bot_pass_counts :
  forall (w : world) (self : bot) (retry_count : nat) (s : state),
    one_pass s (snd (bot_pass w self retry_count s)) /\
    (forall rc',
       fst (bot_pass w self retry_count s) = Ret (Continue rc') ->
       n_sleep (snd (bot_pass w self retry_count s)) = S (n_sleep s)).
Proof.
  intros w self rc s. unfold one_pass.
  pose proof (get_current_price_ticks w self s) as Tk.
  destruct (get_current_price_frame w self s) as (Fb & Fm & Fl & Fs & _).
  unfold bot_pass.
  destruct (SnipeBot.get_current_price w self s) as [[[p |] | e] s1] eqn:G;
    cbn [snd] in Tk, Fb, Fm, Fl, Fs.
  - destruct (max_price self) as [mp |] eqn:Hm.
    + destruct (leb p mp) eqn:Hle.
      * rewrite (pass_within_max_price w _ _ self rc s s1 p mp G Hm Hle).
        destruct (place_order_counts w self
                    (record (EvLog INFO "当前价格") s1))
          as (P1 & P2 & P3 & P4 & P5 & P6).
        destruct (SnipeBot.place_order w self
                    (record (EvLog INFO "当前价格") s1)) as [r s2].
        cbn [snd] in P1, P2, P3, P4, P5, P6.
        unfold n_orders in *. cbn in P1, P2, P3, P4, P5, P6.
        unfold finish_pass, sleep_then_continue, logged_pass,
          interrupted_pass.
        destruct r as [o | [c |]];
          [destruct (truthy_order o) | |]; cbn;
          try destruct (sleep_reply w (n_sleep s2)); cbn;
          (split; [repeat split; lia
                  | intros rc' H; try discriminate H; lia]).
      * rewrite (pass_above_max_price w _ _ self rc s s1 p mp G Hm Hle).
        unfold sleep_then_continue, interrupted_pass, n_orders. cbn.
        destruct (sleep_reply w (n_sleep s1)); cbn;
          (split; [repeat split; lia
                  | intros rc' H; try discriminate H; lia]).
    + destruct (pass_without_max_price w (SnipeBot.get_current_price w)
                  (SnipeBot.place_order w) self rc s s1 p G Hm)
        as (_ & It).
      rewrite It. unfold logged_pass, n_orders. cbn.
      destruct (sleep_reply w (n_sleep s1)); cbn;
        (split; [repeat split; lia
                | intros rc' H; try discriminate H; lia]).
  - rewrite (pass_after_failed_fetch w _ _ self rc s s1 G).
    unfold sleep_then_continue, interrupted_pass, n_orders.
    destruct (Nat.leb max_retries (S rc)); cbn;
      try destruct (sleep_reply w (n_sleep s1)); cbn;
      (split; [repeat split; lia
              | intros rc' H; try discriminate H; lia]).
  - rewrite (pass_after_raising_fetch w _ _ self rc s s1 e G).
    unfold logged_pass, interrupted_pass, n_orders.
    destruct e as [c |]; cbn;
      try destruct (sleep_reply w (n_sleep s1)); cbn;
      (split; [repeat split; lia
              | intros rc' H; try discriminate H; lia]).
Qed.

(** X8. The loop of a bot is paced by its sleeps. A pass sends one or
    two price requests, at most one balance request and at most one
    order, and a pass that goes on to the next one has slept exactly
    once; so over any run of the loop the price requests number at most
    two per second slept plus two, and the balance requests and the
    orders at most one per second slept plus one. *)
Theorem loop_is_paced_by_its_sleeps :
  forall (w : world) (self : bot),
    (forall (retry_count : nat) (s : state),
       one_pass s (snd (bot_pass w self retry_count s)) /\
       (forall rc',
          fst (bot_pass w self retry_count s) = Ret (Continue rc') ->
          n_sleep (snd (bot_pass w self retry_count s)) = S (n_sleep s)))
    /\
    (forall (fuel retry_count : nat) (s : state),
       n_sleep s
       <= n_sleep (snd (polling_loop w (SnipeBot.get_current_price w)
                          (SnipeBot.place_order w) fuel self retry_count s))
       /\
       n_fetch_ticker
         (snd (polling_loop w (SnipeBot.get_current_price w)
                 (SnipeBot.place_order w) fuel self retry_count s))
       + 2 * n_sleep s
       <= n_fetch_ticker s
          + 2 * n_sleep (snd (polling_loop w (SnipeBot.get_current_price w)
                                (SnipeBot.place_order w) fuel self
                                retry_count s))
          + 2 /\
       n_fetch_balance
         (snd (polling_loop w (SnipeBot.get_current_price w)
                 (SnipeBot.place_order w) fuel self retry_count s))
       + n_sleep s
       <= n_fetch_balance s
          + n_sleep (snd (polling_loop w (SnipeBot.get_current_price w)
                            (SnipeBot.place_order w) fuel self
                            retry_count s))
          + 1 /\
       n_orders
         (snd (polling_loop w (SnipeBot.get_current_price w)
                 (SnipeBot.place_order w) fuel self retry_count s))
       + n_sleep s
       <= n_orders s
          + n_sleep (snd (polling_loop w (SnipeBot.get_current_price w)
                            (SnipeBot.place_order w) fuel self
                            retry_count s))
          + 1).
Proof.
  intros w self. split; [apply bot_pass_counts |].
  induction fuel as [| fuel IH]; intros rc s.
  - cbn. lia.
  - cbn [polling_loop]. unfold bind.
    fold (bot_pass w self rc s).
    destruct (bot_pass_counts w self rc s) as (One & Slept1).
    unfold one_pass in One.
    destruct (bot_pass w self rc s) as [[[rc' | why] | e] s1];
      cbn [fst snd] in *.
    + specialize (Slept1 rc' eq_refl). specialize (IH rc' s1). lia.
    + unfold ret. cbn. lia.
    + lia.
Qed.

(** Nine passes of a quiet market above the limit: nine sleeps, nine
    price requests, nothing else. *)
Example pace_above_the_limit :
  let s' := snd (run_bot (quiet_world 3950 1000) 9 market_bot initial_state)
  in
  n_sleep s' = 9 /\ n_fetch_ticker s' = 9 /\ n_fetch_balance s' = 0 /\
  n_orders s' = 0.
Proof. vm_compute. auto. Qed.

(** ** Building the bot *)

(** X9. [__init__] returns a bot only when the logger could be set up
    and both the connection and the first load of the markets succeed;
    the bot then has order type ['market'] and every other parameter
    unset. When one of the three steps raises, [__init__] raises that
    same exception and the later steps are not attempted: after a failed
    logger set-up nothing else happens, and the markets are not loaded
    after a failed connection. An [Exception] of the connection or of
    the load is logged as an error before it is raised again; one of the
    logger set-up is not. *)
Theorem bot_is_built_only_when_the_exchange_answers :
  forall (w : world) (s : state),
    (forall (b : bot) (s' : state),
       SnipeBot.__init__ w s = (Ret b, s') ->
       setup_logger_reply w = Ret tt /\
       connect_reply w = Ret tt /\
       load_markets_reply w (n_load_markets s) = Ret tt /\
       b = {| target_symbol := None; quote_amount := None;
              max_price := None; order_type := "market";
              limit_price := None |} /\
       n_load_markets s' = S (n_load_markets s)) /\
    (forall (e : exn) (s' : state),
       SnipeBot.__init__ w s = (Raise e, s') ->
       (setup_logger_reply w = Raise e /\ s' = record EvSetupLogger s)
       \/
       (setup_logger_reply w = Ret tt /\ connect_reply w = Raise e /\
        n_load_markets s' = n_load_markets s)
       \/
       (setup_logger_reply w = Ret tt /\ connect_reply w = Ret tt /\
        load_markets_reply w (n_load_markets s) = Raise e)) /\
    (forall (c : string) (s' : state),
       SnipeBot.__init__ w s = (Raise (Exception c), s') ->
       setup_logger_reply w = Ret tt ->
       exists t, trace s' = (t ++ [EvLog ERROR "初始化交易所失败"])%list).
Proof.
  intros w s.
  unfold SnipeBot.__init__, SnipeBot._setup_logger,
    SnipeBot._initialize_exchange, setup_logger, connect, load_markets.
  unfold_monad. cbn.
  destruct (setup_logger_reply w) as [[] | [c0 |]] eqn:G; cbn;
    [destruct (connect_reply w) as [[] | [c |]] eqn:C; cbn;
       [destruct (load_markets_reply w (n_load_markets s)) as [[] | [c |]]
          eqn:L; cbn | |] | |].
  all: refine (conj _ (conj _ _)).
  all: try (intros b s' H; try discriminate H; inversion H; subst;
            cbn; auto; fail).
  all: try (intros e s' H; try discriminate H; inversion H; subst;
            cbn; auto 6; fail).
  all: try (intros c' s' H G'; try discriminate H; try discriminate G';
            inversion H; subst; cbn; eexists; reflexivity).
Qed.

(** ** What [run] does to the bot, and when it polls *)

(** X10. The checks of [run] assign nothing but [max_price]:
    [target_symbol], [quote_amount], [order_type] and [limit_price] are
    left as they were. [max_price] itself is assigned only when it was
    falsy on a limit order, and receives [limit_price * 1.01]. *)
Theorem run_assigns_only_max_price :
  forall (w : world) (self b : bot) (r : option rejection) (s s' : state),
    validate w self s = (Ret (b, r), s') ->
    target_symbol b = target_symbol self /\
    quote_amount b = quote_amount self /\
    order_type b = order_type self /\
    limit_price b = limit_price self /\
    (b = self \/
     truthy_float (max_price self) = false /\
     order_type self = "limit" /\
     exists lp, limit_price self = Some lp /\
                max_price b = Some (mul lp f1_01)).
Proof.
  intros w self b r s s' H.
  unfold validate, load_markets in H. unfold_monad. unfold py_mul in H.
  cbn in H.
  repeat (break_match_in H; cbn in H; try discriminate H).
  all: inversion H; subst; clear H; cbn.
  all: repeat split; auto.
  all: right.
  all: repeat match goal with
              | E : negb _ = true |- _ => apply negb_true_iff in E
              | E : String.eqb _ _ = true |- _ => apply String.eqb_eq in E
              end.
  all: repeat split; auto.
  all: try (eexists; split; reflexivity).
  all: congruence.
Qed.

Lemma run_assigns_only_max_price_witness :
  max_price (set_max_price limit_bot (of_N 2121)) = Some (of_N 2121) /\
  target_symbol (set_max_price limit_bot (of_N 2121))
  = target_symbol limit_bot.
Proof.
  split; [reflexivity |].
  exact (proj1 (run_assigns_only_max_price (quiet_world 2950 1000)
                  limit_bot (set_max_price limit_bot (of_N 2121)) None
                  initial_state
                  (snd (validate (quiet_world 2950 1000) limit_bot
                          initial_state))
                  eq_refl)).
Defined.

Lemma validate_go_ahead_lookups :
  forall (w : world) (self b : bot) (s s' : state),
    validate w self s = (Ret (b, None), s') ->
    load_markets_reply w (n_load_markets s) = Ret tt /\
    exists m a,
      exchange_market w (target_symbol self) = Ret m /\
      limits_min m limits_amount f0_0001 = Ret a.
Proof.
  intros w self b s s' H.
  unfold validate, load_markets in H. unfold_monad. cbn in H.
  repeat (break_match_in H; cbn in H; try discriminate H).
  all: inversion H; subst; clear H.
  all: repeat match goal with u : unit |- _ => destruct u end.
  all: split; [reflexivity |].
  all: do 2 eexists; split; [reflexivity | eassumption].
Qed.

Lemma polling_loop_ticker_mono :
  forall (w : world) (self : bot) (fuel retry_count : nat) (s : state),
    n_fetch_ticker s
    <= n_fetch_ticker
         (snd (polling_loop w (SnipeBot.get_current_price w)
                 (SnipeBot.place_order w) fuel self retry_count s)).
Proof.
  intros w self. induction fuel as [| fuel IH]; intros rc s.
  - cbn. lia.
  - cbn [polling_loop]. unfold bind. fold (bot_pass w self rc s).
    destruct (bot_pass_counts w self rc s) as (One & _).
    unfold one_pass in One.
    destruct (bot_pass w self rc s) as [[[rc' | why] | e] s1];
      cbn [fst snd] in *.
    + specialize (IH rc' s1). lia.
    + unfold ret. cbn. lia.
    + lia.
Qed.

(** X11. [run] sends its first price request exactly when all its checks
    pass: the markets reload, [target_symbol] and [quote_amount] are
    truthy, a limit order has a truthy [limit_price], [max_price] is
    truthy or the order is a limit order, the symbol is a loaded market
    whose limits can be read, and [quote_amount] is not below a non-zero
    minimum cost. *)
Theorem run_polls_exactly_when_the_checks_pass :
  forall (w : world) (fuel : nat) (self : bot) (s : state),
    n_fetch_ticker s
    < n_fetch_ticker (snd (run_bot w (S fuel) self s)) <->
    (load_markets_reply w (n_load_markets s) = Ret tt /\
     truthy_str (target_symbol self) = true /\
     truthy_float (quote_amount self) = true /\
     (order_type self = "limit" ->
      truthy_float (limit_price self) = true) /\
     (truthy_float (max_price self) = true \/ order_type self = "limit") /\
     exists (m : market) (c a : option float),
       exchange_market w (target_symbol self) = Ret m /\
       limits_min m limits_cost f0 = Ret c /\
       limits_min m limits_amount f0_0001 = Ret a /\
       (truthy_float c = true ->
        py_lt (quote_amount self) c = Ret false)).
Proof.
  intros w fuel self s. split.
  - intros Polls.
    destruct (validate w self s) as [[[b [why |]] | e] s1] eqn:V.
    + exfalso.
      destruct (run_without_go_ahead w (S fuel) self s) as (N & _).
      { intros b' E. rewrite V in E. discriminate E. }
      lia.
    + destruct (validate_go_ahead w self b s s1 V)
        as (G1 & G2 & G3 & G4 & m & c & Gm & Gc & Gq).
      destruct (validate_go_ahead_lookups w self b s s1 V)
        as (L & m' & a & Gm' & Ga).
      rewrite Gm in Gm'. inversion Gm'; subst m'.
      apply andb_prop in G1. destruct G1 as (G1a & G1b).
      refine (conj L (conj G1a (conj G1b (conj _ (conj _ _))))).
      * intros Ho. rewrite Ho in G2. cbn in G2.
        apply negb_false_iff in G2. exact G2.
      * destruct (truthy_float (max_price self)); [left; reflexivity |].
        right. destruct G3 as (G3 & _). apply String.eqb_eq. exact G3.
      * exists m, c, a. auto.
    + exfalso.
      destruct (run_without_go_ahead w (S fuel) self s) as (N & _).
      { intros b' E. rewrite V in E. discriminate E. }
      lia.
  - intros (L & Hs & Hq & Hl & Hmax & m & c & a & Hm & Hc & Ha & Hcost).
    assert (V : exists b s1,
               validate w self s = (Ret (b, None), s1) /\
               n_fetch_ticker s1 = n_fetch_ticker s).
    { unfold validate, load_markets. unfold_monad. cbn.
      rewrite L. cbn. rewrite Hs, Hq. cbn.
      assert (In : in_markets w (target_symbol self) = true).
      { unfold in_markets. unfold exchange_market in Hm.
        destruct (target_symbol self) as [sym |]; [| discriminate Hm].
        destruct (assoc sym (markets w)); [reflexivity | discriminate Hm]. }
      assert (Below : (if truthy_float c
                       then lift (py_lt (quote_amount self) c)
                       else ret false) =
                      (fun s0 : state => (Ret false, s0))).
      { destruct (truthy_float c); [| reflexivity].
        rewrite (Hcost eq_refl). reflexivity. }
      destruct (String.eqb (order_type self) "limit") eqn:Ho.
      - pose proof Ho as Ho'. apply String.eqb_eq in Ho'.
        rewrite (Hl Ho'). cbn.
        destruct (truthy_float (max_price self)); cbn.
        + rewrite In. cbn. rewrite Hm. cbn. rewrite Hc, Ha. cbn.
          unfold lift, ret in Below. rewrite Below. cbn.
          rewrite ?Ho. cbn.
          do 2 eexists. split; reflexivity.
        + destruct (limit_price self) as [lp |] eqn:Lp;
            [| discriminate (Hl Ho')].
          cbn. rewrite In. cbn. rewrite Hm. cbn. rewrite Hc, Ha. cbn.
          unfold lift, ret in Below. rewrite Below. cbn.
          rewrite ?Ho. cbn.
          do 2 eexists. split; reflexivity.
      - cbn. destruct Hmax as [Hmax | Hmax].
        + rewrite Hmax. cbn. rewrite In. cbn. rewrite Hm. cbn.
          rewrite Hc, Ha. cbn.
          unfold lift, ret in Below. rewrite Below. cbn.
          rewrite ?Ho. cbn.
          do 2 eexists. split; reflexivity.
        + apply String.eqb_neq in Ho. contradiction. }
    destruct V as (b & s1 & V & N).
    unfold run_bot, run, try_except. unfold bind at 1. rewrite V.
    cbn [polling_loop]. unfold bind at 1 2.
    fold (bot_pass w b 0 s1).
    destruct (bot_pass_counts w b 0 s1) as (One & _).
    unfold one_pass in One.
    destruct (bot_pass w b 0 s1) as [[[rc' | why] | e] s2];
      cbn [fst snd] in *.
    + pose proof (polling_loop_ticker_mono w b fuel rc' s2) as Mono.
      destruct (polling_loop w (SnipeBot.get_current_price w)
                  (SnipeBot.place_order w) fuel b rc' s2)
        as [[[why |] | [c' |]] s3]; cbn in *; lia.
    + cbn. lia.
    + destruct e as [c' |]; cbn; lia.
Qed.

(** ** The price ceiling *)

Lemma get_current_price_reply :
  forall (w : world) (self : bot) (s s1 : state) (p : float),
    SnipeBot.get_current_price w self s = (Ret (Some p), s1) ->
    exists t, fetch_ticker_reply w (n_fetch_ticker s) = Ret t /\
              ticker_last t = Val p.
Proof.
  intros w self s s1 p H.
  unfold SnipeBot.get_current_price, SnipeBot.get_current_price_try,
    fetch_ticker in H.
  unfold_monad. cbn in H.
  destruct (fetch_ticker_reply w (n_fetch_ticker s))
    as [[[| | p0]] | [c |]]; cbn in H; try discriminate H.
  inversion H; subst. eexists. split; reflexivity.
Qed.

(** A pass that sees no price within the limit calls [place_order]
    not at all. *)
Lemma bot_pass_above_limit :
  forall (w : world) (self : bot) (mp : float) (retry_count : nat)
         (s : state),
    max_price self = Some mp ->
    (forall t p, fetch_ticker_reply w (n_fetch_ticker s) = Ret t ->
                 ticker_last t = Val p -> leb p mp = false) ->
    order_calls (trace (snd (bot_pass w self retry_count s)))
    = order_calls (trace s) /\
    n_orders (snd (bot_pass w self retry_count s)) = n_orders s /\
    n_fetch_balance (snd (bot_pass w self retry_count s))
    = n_fetch_balance s.
Proof.
  intros w self mp rc s Hm Habove.
  destruct (get_current_price_frame w self s) as (Fb & Fm & Fl & Fs & Fo).
  unfold bot_pass.
  destruct (SnipeBot.get_current_price w self s) as [[[p |] | e] s1] eqn:G;
    cbn [snd] in Fb, Fm, Fl, Fs, Fo.
  - destruct (get_current_price_reply w self s s1 p G) as (t & Ht & Hl).
    rewrite (pass_above_max_price w _ _ self rc s s1 p mp G Hm
               (Habove t p Ht Hl)).
    unfold sleep_then_continue, interrupted_pass, n_orders, time_sleep.
    destruct (sleep_reply w _); cbn;
      (split; [frame_simpl | split; [lia | assumption]]).
  - rewrite (pass_after_failed_fetch w _ _ self rc s s1 G).
    unfold sleep_then_continue, interrupted_pass, n_orders, time_sleep.
    destruct (Nat.leb max_retries (S rc)); cbn;
      try destruct (sleep_reply w _); cbn;
      (split; [frame_simpl | split; [lia | assumption]]).
  - rewrite (pass_after_raising_fetch w _ _ self rc s s1 e G).
    unfold logged_pass, interrupted_pass, n_orders, time_sleep.
    destruct e as [c |]; cbn;
      try destruct (sleep_reply w _); cbn;
      (split; [frame_simpl | split; [lia | assumption]]).
Qed.

(** X12. The ceiling holds for the price the loop looks at: as long as
    every price the exchange reports is above [max_price], [run] on a bot
    sends no order and never asks for the balance, however long it polls
    and whatever else fails in between. *)
Theorem no_order_while_the_price_is_above_the_limit :
  forall (w : world) (self : bot) (mp : float),
    max_price self = Some mp ->
    (forall n t p, fetch_ticker_reply w n = Ret t ->
                   ticker_last t = Val p -> leb p mp = false) ->
    forall (fuel retry_count : nat) (s : state),
      order_calls
        (trace (snd (polling_loop w (SnipeBot.get_current_price w)
                       (SnipeBot.place_order w) fuel self retry_count s)))
      = order_calls (trace s) /\
      n_orders (snd (polling_loop w (SnipeBot.get_current_price w)
                       (SnipeBot.place_order w) fuel self retry_count s))
      = n_orders s /\
      n_fetch_balance
        (snd (polling_loop w (SnipeBot.get_current_price w)
                (SnipeBot.place_order w) fuel self retry_count s))
      = n_fetch_balance s.
Proof.
  intros w self mp Hm Habove.
  induction fuel as [| fuel IH]; intros rc s.
  - cbn. auto.
  - cbn [polling_loop]. unfold bind. fold (bot_pass w self rc s).
    destruct (bot_pass_above_limit w self mp rc s Hm
                (fun t p => Habove (n_fetch_ticker s) t p))
      as (Po & Pn & Pb).
    destruct (bot_pass w self rc s) as [[[rc' | why] | e] s1];
      cbn [fst snd] in *.
    + destruct (IH rc' s1) as (Io & In & Ib).
      rewrite Io, In, Ib. auto.
    + unfold ret. cbn. auto.
    + auto.
Qed.

(** 3950 against a limit of 3000, for two hundred passes. *)
Lemma no_order_while_the_price_is_above_the_limit_witness :
  order_calls
    (trace (snd (polling_loop (quiet_world 3950 1000)
                   (SnipeBot.get_current_price (quiet_world 3950 1000))
                   (SnipeBot.place_order (quiet_world 3950 1000)) 200
                   market_bot 0 initial_state))) = [].
Proof.
  apply (no_order_while_the_price_is_above_the_limit
           (quiet_world 3950 1000) market_bot (of_N 3000) eq_refl).
  intros n t p Ht Hl. cbn in Ht. inversion Ht; subst. cbn in Hl.
  inversion Hl; subst. reflexivity.
Defined.

(** ** Limit orders *)

(** X13. A limit order is sized and priced at [limit_price] alone: with
    enough balance, [place_order] on an order type other than ['market']
    requests no price and sends [create_limit_buy_order] at [limit_price]
    for [max(quote_amount / limit_price, minimum)] at four decimals, as
    long as that amount is not below the minimum of the market; it
    returns the order the exchange returns. *)
Theorem limit_order_is_sized_at_the_limit_price :
  forall (w : world) (self : bot) (s : state) (q lp free m m' : float)
         (b : balance) (currency : string) (acct : account) (mk : market),
    order_type self <> "market" ->
    quote_amount self = Some q ->
    limit_price self = Some lp ->
    eqb lp pos_zero = false ->
    fetch_balance_reply w (n_fetch_balance s) = Ret b ->
    quote_currency_of (target_symbol self) = Ret currency ->
    balance_item b currency = Ret acct ->
    account_free acct = Val free ->
    leb q free = true ->
    exchange_market w (target_symbol self) = Ret mk ->
    limits_min mk limits_amount f0_01 = Ret (Some m) ->
    limits_min mk limits_amount f0_0001 = Ret (Some m') ->
    ltb (of_fixed4 (format_4f (max (div q lp) m))) m' = false ->
    order_calls (trace (snd (SnipeBot.place_order w self s)))
    = (order_calls (trace s) ++
       [EvCreateLimitBuyOrder (target_symbol self)
          (of_fixed4 (format_4f (max (div q lp) m))) (Some lp)])%list /\
    n_fetch_ticker (snd (SnipeBot.place_order w self s)) = n_fetch_ticker s
    /\
    (forall o : order,
       create_limit_buy_order_reply w (n_limit_buy s) = Ret o ->
       fst (SnipeBot.place_order w self s) = Ret (Some o)).
Proof.
  intros w self s q lp free m m' b currency acct mk
    Ho Hq Hlp Hz Hb Hc Ha Hf Hfree Hmk Hm Hm' Hlt.
  apply String.eqb_neq in Ho.
  unfold SnipeBot.place_order, SnipeBot.place_order_try,
    SnipeBot.check_balance, SnipeBot.check_balance_try,
    SnipeBot.get_current_price, SnipeBot.get_current_price_try,
    SnipeBot.calculate_buy_amount, SnipeBot.calculate_buy_amount_try,
    fetch_balance, fetch_ticker, create_limit_buy_order.
  unfold_monad.
  cbn -[exchange_market limits_min quote_currency_of balance_item assoc
        split nth_error].
  rewrite_replies.
  refine (conj _ (conj _ _)).
  - destruct (create_limit_buy_order_reply w (n_limit_buy s))
      as [o | [c |]]; frame_simpl.
  - destruct (create_limit_buy_order_reply w (n_limit_buy s))
      as [o | [c |]]; reflexivity.
  - intros o Hr. rewrite Hr. reflexivity.
Qed.

(** 50 USDT at a limit of 2100: 0.0238 ETH, whatever the market says. *)
Lemma limit_order_is_sized_at_the_limit_price_witness :
  order_calls
    (trace (snd (SnipeBot.place_order (quiet_world 2950 1000) limit_bot
                   initial_state)))
  = [EvCreateLimitBuyOrder (Some "ETH/USDT") (of_ratio false 238 10000)
       (Some (of_N 2100))] /\
  fst (SnipeBot.place_order (quiet_world 2950 1000) limit_bot initial_state)
  = Ret (Some filled).
Proof.
  pose proof (limit_order_is_sized_at_the_limit_price
                (quiet_world 2950 1000) limit_bot initial_state
                (of_N 50) (of_N 2100) (of_N 1000) f0_0001 f0_0001
                (usdt 1000) "USDT" {| account_free := Val (of_N 1000) |}
                (eth_market (Val f0_0001) (Val (of_N 1)))) as H.
  destruct H as (Sent & _ & Back); try reflexivity.
  - discriminate.
  - split; [exact Sent | exact (Back filled eq_refl)].
Defined.

(** ** Falsy parameters *)

(** X14. The checks of [run] test truth values, so parameters that are
    set but falsy count as unset: an empty [target_symbol] or a
    [quote_amount] of zero stops [run] before polling, and so does a
    [limit_price] of zero on a limit order, and a [max_price] of zero on
    any order that is not a limit order. *)
Theorem falsy_parameters_count_as_unset :
  forall (w : world) (fuel : nat) (self : bot) (s : state),
    (truthy_str (target_symbol self) = false \/
     truthy_float (quote_amount self) = false ->
     stops_before_polling w fuel self s) /\
    (order_type self = "limit" ->
     truthy_float (limit_price self) = false ->
     stops_before_polling w fuel self s) /\
    (order_type self <> "limit" ->
     truthy_float (max_price self) = false ->
     stops_before_polling w fuel self s).
Proof.
  intros w fuel self s. refine (conj _ (conj _ _)).
  - intros H. apply run_without_go_ahead. intros b E.
    destruct (validate w self s) as [r s'] eqn:V; cbn in E; subst r.
    apply validate_go_ahead in V. destruct V as (V & _).
    apply andb_prop in V. destruct V as (V1 & V2).
    destruct H as [H | H]; congruence.
  - intros Ho Hl. apply run_without_go_ahead. intros b E.
    destruct (validate w self s) as [r s'] eqn:V; cbn in E; subst r.
    apply validate_go_ahead in V. destruct V as (_ & V & _).
    rewrite Ho, Hl in V. discriminate V.
  - intros Ho Hm. apply run_without_go_ahead. intros b E.
    destruct (validate w self s) as [r s'] eqn:V; cbn in E; subst r.
    apply validate_go_ahead in V. destruct V as (_ & _ & V & _).
    rewrite Hm in V. destruct V as (V & _).
    apply String.eqb_eq in V. contradiction.
Qed.

(** A budget of zero, and a ceiling of minus zero. *)
Lemma falsy_parameters_count_as_unset_witness :
  stops_before_polling (quiet_world 2950 1000) 5
    {| target_symbol := Some "ETH/USDT"; quote_amount := Some pos_zero;
       max_price := Some (of_N 3000); order_type := "market";
       limit_price := None |} initial_state /\
  stops_before_polling (quiet_world 2950 1000) 5
    {| target_symbol := Some "ETH/USDT"; quote_amount := Some (of_N 100);
       max_price := Some (S754_zero true); order_type := "market";
       limit_price := None |} initial_state.
Proof.
  split.
  - apply (proj1 (falsy_parameters_count_as_unset (quiet_world 2950 1000) 5
                    {| target_symbol := Some "ETH/USDT";
                       quote_amount := Some pos_zero;
                       max_price := Some (of_N 3000);
                       order_type := "market";
                       limit_price := None |} initial_state)).
    right. reflexivity.
  - apply (proj2 (proj2 (falsy_parameters_count_as_unset
                           (quiet_world 2950 1000) 5
                           {| target_symbol := Some "ETH/USDT";
                              quote_amount := Some (of_N 100);
                              max_price := Some (S754_zero true);
                              order_type := "market";
                              limit_price := None |} initial_state))).
    + discriminate.
    + reflexivity.
Defined.
